(** * DigitalMarketPro: the settlement core of the marketplace server

    A shallow embedding of the parts of [server/storage.ts] (class
    [MemStorage]), [server/mongodb-storage.ts] and [server/routes.ts]
    that move money: the Stripe webhook that settles a sale, the
    payment-intent route that applies coupons, and the withdrawal routes.

    The webhook and the withdrawal routes are embedded twice.
    - First over the rationals, with the rest of the server: a JavaScript
      [number] holding money or a rate is a [Q], compared with [==].
      Statements in this reading are about the formulas of the code and
      about the records a route reads and writes; they say nothing about
      the last digits Node stores.
    - Then, in the module [Binary64], as Node computes them: money in
      IEEE 754 binary64 and unparsed body values as JavaScript values.
      What is stored digit for digit, and what a request does with a value
      that is no number, is stated there.

    Further conventions.
    - A [number] holding an id, a counter or a timestamp is a [Z].
    - A nullable column is an [option]; JavaScript truthiness of a value
      is written out ([truthy_id], [truthy_string], ...).
    - A [Map<number, T>] read and written by key only is a [gmap Z T];
      the coupon map, which the code also scans in insertion order, is an
      insertion-ordered association list.
    - A storage method is a function of the store that returns its result
      and the new store; a route handler runs in [Handler], a state monad
      with an early [respond] for [return res.status(..).json(..)]. *)

From Stdlib Require Import ZArith QArith Qround Lqa List Floats Uint63.
From stdpp Require Import base option gmap strings pretty.

Local Open Scope Z_scope.
Set Warnings "-inexact-float".

(** ** Entities of [shared/schema.ts] *)

Record User := mkUser {
  user_id : Z;
  role : string;
  balance : Q;
  planId : option Z
}.

Record Plan := mkPlan {
  plan_id : Z;
  plan_name : string;
  platformFeePercentage : Q
}.

Record Product := mkProduct {
  product_id : Z;
  product_sellerId : Z;
  price : Q;
  commissionRate : Q;
  commissionType : string
}.

Record Coupon := mkCoupon {
  coupon_id : Z;
  coupon_sellerId : Z;
  code : string;
  coupon_type : string;
  value : Q;
  coupon_productId : option Z;
  maxUsage : option Z;
  usageCount : Z;
  expiresAt : option Z
}.

(** [InsertSale]: a sale without its id and creation time. *)
Record InsertSale := mkInsertSale {
  ins_productId : Z;
  ins_buyerId : Z;
  ins_sellerId : Z;
  ins_affiliateId : option Z;
  ins_amount : Q;
  ins_sellerAmount : Q;
  ins_affiliateAmount : Q;
  ins_platformFee : Q;
  ins_status : string;
  ins_paymentMethod : string;
  ins_stripePaymentIntentId : string
}.

Record Sale := mkSale {
  sale_id : Z;
  sale_productId : Z;
  buyerId : Z;
  sale_sellerId : Z;
  affiliateId : option Z;
  amount : Q;
  sellerAmount : Q;
  affiliateAmount : Q;
  platformFee : Q;
  sale_status : string;
  paymentMethod : string;
  stripePaymentIntentId : string
}.

Record InsertWithdrawal := mkInsertWithdrawal {
  ins_userId : Z;
  ins_withdrawal_amount : Q
}.

Record Withdrawal := mkWithdrawal {
  withdrawal_id : Z;
  userId : Z;
  withdrawal_amount : Q;
  withdrawal_status : string;
  stripeTransferId : option string
}.

(** [Partial<User>] as the routes use it: each field is either absent or
    carries the value to merge in. *)
Record PartialUser := mkPartialUser {
  set_balance : option Q;
  set_planId : option (option Z)
}.

(** ** JavaScript truthiness *)

Definition truthy_id (n : Z) : bool := negb (n =? 0).

Definition truthy_string (s : string) : bool := negb (String.eqb s "").

Definition truthy_opt_id (o : option Z) : bool :=
  match o with Some n => truthy_id n | None => false end.

Definition truthy_opt_string (o : option string) : bool :=
  match o with Some s => truthy_string s | None => false end.

Definition Qlt_bool (x y : Q) : bool := negb (Qle_bool y x).

(** [Math.max] and [Math.round] (halves go up). *)
Definition Math_max (x y : Q) : Q := if Qle_bool x y then y else x.

Definition Math_round (x : Q) : Z := Qfloor (x + (1 # 2))%Q.

(** ** [MemStorage] *)

Record MemStorage := mkMemStorage {
  users : gmap Z User;
  products : gmap Z Product;
  sales : gmap Z Sale;
  coupons : list (Z * Coupon);
  withdrawals : gmap Z Withdrawal;
  plans : gmap Z Plan;
  currentSaleId : Z;
  currentCouponId : Z;
  currentWithdrawalId : Z
}.

Definition with_users (st : MemStorage) (m : gmap Z User) : MemStorage :=
  mkMemStorage m (products st) (sales st) (coupons st) (withdrawals st)
    (plans st) (currentSaleId st) (currentCouponId st) (currentWithdrawalId st).

Definition with_sales (st : MemStorage) (m : gmap Z Sale) (next : Z) : MemStorage :=
  mkMemStorage (users st) (products st) m (coupons st) (withdrawals st)
    (plans st) next (currentCouponId st) (currentWithdrawalId st).

Definition with_coupons (st : MemStorage) (l : list (Z * Coupon)) : MemStorage :=
  mkMemStorage (users st) (products st) (sales st) l (withdrawals st)
    (plans st) (currentSaleId st) (currentCouponId st) (currentWithdrawalId st).

Definition with_withdrawals (st : MemStorage) (m : gmap Z Withdrawal) (next : Z)
  : MemStorage :=
  mkMemStorage (users st) (products st) (sales st) (coupons st) m
    (plans st) (currentSaleId st) (currentCouponId st) next.

(** The five plans of [initializePlans], ids 1 to 5. *)
Definition defaultPlans : gmap Z Plan :=
  <[1 := mkPlan 1 "Free" 6]>
  (<[2 := mkPlan 2 "Start" 5]>
  (<[3 := mkPlan 3 "Pro" 4]>
  (<[4 := mkPlan 4 "Master" 3]>
  (<[5 := mkPlan 5 "Infinity" 2]> ∅)))).

(** The store right after [new MemStorage()]. *)
Definition newMemStorage : MemStorage :=
  mkMemStorage ∅ ∅ ∅ [] ∅ defaultPlans 1 1 1.

(** [Map.get] and [Map.set] on the insertion-ordered coupon map: [set] on a
    present key keeps its position, on a new key appends. *)
Fixpoint amap_get {V} (k : Z) (l : list (Z * V)) : option V :=
  match l with
  | [] => None
  | (k', v) :: l' => if k' =? k then Some v else amap_get k l'
  end.

Fixpoint amap_set {V} (k : Z) (v : V) (l : list (Z * V)) : list (Z * V) :=
  match l with
  | [] => [(k, v)]
  | (k', v') :: l' => if k' =? k then (k, v) :: l' else (k', v') :: amap_set k v l'
  end.

(** *** Storage methods *)

Definition getUser (id : Z) (st : MemStorage) : option User := users st !! id.

Definition merge_user (user : User) (userData : PartialUser) : User :=
  mkUser (user_id user) (role user)
    (default (balance user) (set_balance userData))
    (default (planId user) (set_planId userData)).

Definition updateUser (id : Z) (userData : PartialUser) (st : MemStorage)
  : option User * MemStorage :=
  match users st !! id with
  | None => (None, st)
  | Some user =>
      let updatedUser := merge_user user userData in
      (Some updatedUser, with_users st (<[id := updatedUser]> (users st)))
  end.

Definition getProduct (id : Z) (st : MemStorage) : option Product :=
  products st !! id.

Definition getPlan (id : Z) (st : MemStorage) : option Plan := plans st !! id.

Definition createSale (sale : InsertSale) (st : MemStorage) : Sale * MemStorage :=
  let id := currentSaleId st in
  let newSale :=
    mkSale id (ins_productId sale) (ins_buyerId sale) (ins_sellerId sale)
      (ins_affiliateId sale) (ins_amount sale) (ins_sellerAmount sale)
      (ins_affiliateAmount sale) (ins_platformFee sale) (ins_status sale)
      (ins_paymentMethod sale) (ins_stripePaymentIntentId sale) in
  (newSale, with_sales st (<[id := newSale]> (sales st)) (id + 1)).

Definition getCouponByCode (c : string) (st : MemStorage) : option Coupon :=
  List.find (fun coupon => String.eqb (code coupon) c) (map snd (coupons st)).

Definition incrementCouponUsage (id : Z) (st : MemStorage)
  : option Coupon * MemStorage :=
  match amap_get id (coupons st) with
  | None => (None, st)
  | Some coupon =>
      let updatedCoupon :=
        mkCoupon (coupon_id coupon) (coupon_sellerId coupon) (code coupon)
          (coupon_type coupon) (value coupon) (coupon_productId coupon)
          (maxUsage coupon) (usageCount coupon + 1) (expiresAt coupon) in
      (Some updatedCoupon, with_coupons st (amap_set id updatedCoupon (coupons st)))
  end.

Definition createWithdrawal (withdrawal : InsertWithdrawal) (st : MemStorage)
  : Withdrawal * MemStorage :=
  let id := currentWithdrawalId st in
  let newWithdrawal :=
    mkWithdrawal id (ins_userId withdrawal) (ins_withdrawal_amount withdrawal)
      "pending" None in
  (newWithdrawal,
   with_withdrawals st (<[id := newWithdrawal]> (withdrawals st)) (id + 1)).

Definition updateWithdrawalStatus (id : Z) (status : string)
    (transferId : option string) (st : MemStorage)
  : option Withdrawal * MemStorage :=
  match withdrawals st !! id with
  | None => (None, st)
  | Some withdrawal =>
      let updatedWithdrawal :=
        mkWithdrawal (withdrawal_id withdrawal) (userId withdrawal)
          (withdrawal_amount withdrawal) status
          (if truthy_opt_string transferId then transferId
           else stripeTransferId withdrawal) in
      (Some updatedWithdrawal,
       with_withdrawals st (<[id := updatedWithdrawal]> (withdrawals st))
         (currentWithdrawalId st))
  end.


(** ** HTTP and Stripe objects *)

(** [paymentIntent.metadata] after the handler's [parseInt] calls;
    [md_affiliateId] is the value of
    [metadata.affiliateId ? parseInt(metadata.affiliateId) : undefined]. *)
Record Metadata := mkMetadata {
  md_productId : Z;
  md_buyerId : Z;
  md_sellerId : Z;
  md_affiliateId : option Z;
  md_couponCode : option string
}.

(** A Stripe payment intent: its id, its amount in cents, its metadata. *)
Record PaymentIntent := mkPaymentIntent {
  pi_id : string;
  pi_amount : Z;
  pi_metadata : Metadata
}.

Inductive StripeEvent :=
| payment_intent_succeeded (paymentIntent : PaymentIntent)
| payment_intent_payment_failed (paymentIntent : PaymentIntent)
| other_event (type : string).

(** The argument of [stripe.paymentIntents.create]. *)
Record PaymentIntentParams := mkPaymentIntentParams {
  params_amount : Z;
  params_currency : string;
  params_metadata : Metadata
}.

Inductive Json :=
| JMessage (message : string)
| JWithdrawal (withdrawal : Withdrawal)
| JCoupon (coupon : Coupon)
| JReceived
| JClientSecret (intent : PaymentIntentParams).

Record Response := mkResponse {
  statusCode : Z;
  json : Json
}.

(** ** The handler monad *)

Inductive Step (A : Type) :=
| Next (a : A)
| Respond (r : Response).

Arguments Next {A} a.
Arguments Respond {A} r.

Definition Handler (A : Type) : Type := MemStorage -> Step A * MemStorage.

Definition ret {A} (a : A) : Handler A := fun st => (Next a, st).

Definition respond {A} (status : Z) (body : Json) : Handler A :=
  fun st => (Respond (mkResponse status body), st).

Definition bind {A B} (m : Handler A) (k : A -> Handler B) : Handler B :=
  fun st =>
    match m st with
    | (Next a, st') => k a st'
    | (Respond r, st') => (Respond r, st')
    end.

(** A storage read, and a storage method that also writes. *)
Definition read {A} (f : MemStorage -> A) : Handler A := fun st => (Next (f st), st).

Definition call {A} (f : MemStorage -> A * MemStorage) : Handler A :=
  fun st => let (a, st') := f st in (Next a, st').

(** [const x = await ...; if (!x) return res.status(s).json({message})]. *)
Definition found {A} (o : option A) (status : Z) (message : string) : Handler A :=
  match o with
  | Some a => ret a
  | None => respond status (JMessage message)
  end.

Definition when (b : bool) (m : Handler unit) : Handler unit :=
  if b then m else ret tt.

Notation "x <- m ;; k" := (bind m (fun x => k))
  (at level 100, m at next level, right associativity).
Notation "m ;;; k" := (bind m (fun _ => k))
  (at level 100, right associativity).

(** What the client receives, and the store the request leaves behind. *)
Definition run (h : Handler Response) (st : MemStorage) : Response * MemStorage :=
  match h st with
  | (Next r, st') => (r, st')
  | (Respond r, st') => (r, st')
  end.

(** ** Middleware *)

Definition authenticate (session_userId : option Z) : Handler unit :=
  if truthy_opt_id session_userId then ret tt
  else respond 401 (JMessage "Unauthorized").

Definition authorize (roles : list string) (session_userId : option Z)
  : Handler unit :=
  match session_userId with
  | Some uid =>
      if truthy_id uid then
        user <- read (getUser uid) ;;
        match user with
        | Some u =>
            if existsb (String.eqb (role u)) roles then ret tt
            else respond 403 (JMessage "Forbidden")
        | None => respond 403 (JMessage "Forbidden")
        end
      else respond 401 (JMessage "Unauthorized")
  | None => respond 401 (JMessage "Unauthorized")
  end.

(** ** Withdrawal routes *)

(** [POST /api/withdrawals] with body [{ amount }], the amount read as a
    rational; [Binary64.post_withdrawals] takes the body value as it
    comes. *)
Definition post_withdrawals (session_userId : option Z) (body_amount : Q)
  : Handler Response :=
  authenticate session_userId ;;;
  authorize ["vendor"; "affiliate"] session_userId ;;;
  let uid := default 0 session_userId in
  o <- read (getUser uid) ;;
  user <- found o 404 "User not found" ;;
  let amount := body_amount in
  if Qeq_bool amount 0 || Qlt_bool amount 20 then
    respond 400 (JMessage "Minimum withdrawal amount is R$20")
  else if Qlt_bool (balance user) amount then
    respond 400 (JMessage "Insufficient balance")
  else
    withdrawal <- call (createWithdrawal (mkInsertWithdrawal uid amount)) ;;
    call (updateUser uid
            (mkPartialUser (Some (balance user - amount)%Q) None)) ;;;
    ret (mkResponse 201 (JWithdrawal withdrawal)).

(** [PUT /api/withdrawals/:id/status] with body [{ status, stripeTransferId }];
    the credit is read over the rationals, [Binary64.put_withdrawal_status]
    computes it as JavaScript does. *)
Definition put_withdrawal_status (session_userId : option Z) (withdrawalId : Z)
    (status : string) (transferId : option string) : Handler Response :=
  authenticate session_userId ;;;
  authorize ["admin"] session_userId ;;;
  if negb (truthy_string status)
     || negb (existsb (String.eqb status) ["pending"; "completed"; "rejected"])
  then respond 400 (JMessage "Invalid status")
  else
    o <- call (updateWithdrawalStatus withdrawalId status transferId) ;;
    withdrawal <- found o 404 "Withdrawal not found" ;;
    when (String.eqb status "rejected")
      (user <- read (getUser (userId withdrawal)) ;;
       match user with
       | Some user =>
           call (updateUser (user_id user)
                   (mkPartialUser
                      (Some (balance user + withdrawal_amount withdrawal)%Q) None)) ;;;
           ret tt
       | None => ret tt
       end) ;;;
    ret (mkResponse 200 (JWithdrawal withdrawal)).

(** ** Coupon routes *)

(** [GET /api/coupons/:code/validate?productId=..]; [productId] is the
    result of [parseInt], [None] standing for [NaN]; [now] is [new Date()]. *)
Definition get_coupon_validate (now : Z) (c : string) (productId : option Z)
  : Handler Response :=
  if negb (truthy_string c) || bool_decide (productId = None) then
    respond 400 (JMessage "Invalid coupon code or product ID")
  else
    let productId := default 0 productId in
    o <- read (getCouponByCode c) ;;
    coupon <- found o 404 "Coupon not found" ;;
    if match coupon_productId coupon with
       | Some p => negb (p =? productId)
       | None => false
       end
    then respond 400 (JMessage "Coupon not valid for this product")
    else if match maxUsage coupon with
            | Some m => m <=? usageCount coupon
            | None => false
            end
    then respond 400 (JMessage "Coupon reached maximum usage")
    else if match expiresAt coupon with
            | Some e => e <? now
            | None => false
            end
    then respond 400 (JMessage "Coupon expired")
    else ret (mkResponse 200 (JCoupon coupon)).

(** ** Stripe routes *)

(** The condition under which [POST /api/create-payment-intent] applies a
    coupon it found:
    [(!coupon.productId || coupon.productId === product.id) &&
     (!coupon.maxUsage || coupon.usageCount < coupon.maxUsage) &&
     (!coupon.expiresAt || new Date(coupon.expiresAt) >= new Date())]. *)
Definition coupon_applies (now : Z) (coupon : Coupon) (product : Product) : bool :=
  (negb (truthy_opt_id (coupon_productId coupon))
   || bool_decide (coupon_productId coupon = Some (product_id product)))
  && (negb (truthy_opt_id (maxUsage coupon))
      || match maxUsage coupon with
         | Some m => usageCount coupon <? m
         | None => false
         end)
  && match expiresAt coupon with
     | Some e => now <=? e
     | None => true
     end.

(** [POST /api/create-payment-intent] with body
    [{ productId, couponCode, affiliateId }].  The call to Stripe is
    represented by its argument, returned in the response. *)
Definition post_create_payment_intent (now : Z) (session_userId : option Z)
    (productId : Z) (couponCode : option string) (affiliate : option Z)
  : Handler Response :=
  authenticate session_userId ;;;
  o <- read (getProduct productId) ;;
  product <- found o 404 "Product not found" ;;
  let amount := price product in
  amount <-
    (if truthy_opt_string couponCode then
       coupon <- read (getCouponByCode (default "" couponCode)) ;;
       match coupon with
       | Some coupon =>
           if coupon_applies now coupon product then
             let amount :=
               if String.eqb (coupon_type coupon) "percentage"
               then (amount * (1 - value coupon / 100))%Q
               else Math_max 0 (amount - value coupon)%Q in
             call (incrementCouponUsage (coupon_id coupon)) ;;;
             ret amount
           else ret amount
       | None => ret amount
       end
     else ret amount) ;;
  ret (mkResponse 200
         (JClientSecret
            (mkPaymentIntentParams (Math_round (amount * 100)%Q) "brl"
               (mkMetadata productId (default 0 session_userId)
                  (product_sellerId product)
                  (if truthy_opt_id affiliate then affiliate else None)
                  (if truthy_opt_string couponCode then couponCode else None))))).

(** [POST /api/stripe-webhook], from the point where the signature check
    has produced [event]; the amounts are read over the rationals,
    [Binary64.post_stripe_webhook] computes them in binary64. *)
Definition post_stripe_webhook (event : StripeEvent) : Handler Response :=
  match event with
  | payment_intent_succeeded paymentIntent =>
      let metadata := pi_metadata paymentIntent in
      o <- read (getProduct (md_productId metadata)) ;;
      product <- found o 400 "Product not found" ;;
      let buyerId := md_buyerId metadata in
      let sellerId := md_sellerId metadata in
      let affiliateId := md_affiliateId metadata in
      let amount := (inject_Z (pi_amount paymentIntent) / 100)%Q in
      o <- read (getUser sellerId) ;;
      seller <- found o 400 "Seller not found" ;;
      let planId :=
        if truthy_opt_id (planId seller) then default 1 (planId seller) else 1 in
      o <- read (getPlan planId) ;;
      plan <- found o 400 "Plan not found" ;;
      let platformFeePercentage := platformFeePercentage plan in
      split <-
        (if truthy_opt_id affiliateId then
           let affiliateId := default 0 affiliateId in
           let affiliateAmount :=
             if String.eqb (commissionType product) "percentage"
             then (amount * (commissionRate product / 100))%Q
             else commissionRate product in
           let affiliatePlatformFee := (affiliateAmount * 0.04)%Q in
           let affiliateAmount := (affiliateAmount - affiliatePlatformFee)%Q in
           affiliate <- read (getUser affiliateId) ;;
           match affiliate with
           | Some affiliate =>
               call (updateUser affiliateId
                       (mkPartialUser
                          (Some (balance affiliate + affiliateAmount)%Q) None)) ;;;
               ret tt
           | None => ret tt
           end ;;;
           ret (affiliateAmount, (amount - affiliateAmount)%Q)
         else ret (0%Q, amount)) ;;
      let affiliateAmount := fst split in
      let sellerAmount := snd split in
      let platformFee := (sellerAmount * (platformFeePercentage / 100))%Q in
      let sellerAmount := (sellerAmount - platformFee)%Q in
      call (updateUser sellerId
              (mkPartialUser (Some (balance seller + sellerAmount)%Q) None)) ;;;
      call (createSale
              (mkInsertSale (md_productId metadata) buyerId sellerId affiliateId
                 amount sellerAmount affiliateAmount platformFee
                 "completed" "stripe" (pi_id paymentIntent))) ;;;
      ret (mkResponse 200 JReceived)
  | payment_intent_payment_failed paymentIntent =>
      ret (mkResponse 200 JReceived)
  | other_event _ => ret (mkResponse 200 JReceived)
  end.

(** ** [MongoDBStorage]: the coupon collection *)

Module MongoDBStorage.

(** [collection.findOneAndUpdate(filter, update, {returnDocument: 'after'})]
    on a collection kept as the list of its documents: the first
    document that matches is replaced by its update, which is returned. *)
Fixpoint findOneAndUpdate {D} (filter : D -> bool) (update : D -> D)
    (docs : list D) : option D * list D :=
  match docs with
  | [] => (None, [])
  | d :: ds =>
      if filter d then (Some (update d), update d :: ds)
      else let (r, ds') := findOneAndUpdate filter update ds in (r, d :: ds')
  end.

(** [{ $inc: { usageCount: 1 } }]. *)
Definition inc_usageCount (coupon : Coupon) : Coupon :=
  mkCoupon (coupon_id coupon) (coupon_sellerId coupon) (code coupon)
    (coupon_type coupon) (value coupon) (coupon_productId coupon)
    (maxUsage coupon) (usageCount coupon + 1) (expiresAt coupon).

Definition incrementCouponUsage (id : Z) (docs : list Coupon)
  : option Coupon * list Coupon :=
  findOneAndUpdate (fun coupon => coupon_id coupon =? id) inc_usageCount docs.

End MongoDBStorage.

(** ** The vocabulary of the specification *)

(** The raw commission of section 4.2:
    [commissionType == percentage ? grossAmount * commissionRate/100
                                  : commissionRate]. *)
Definition rawCommission (product : Product) (grossAmount : Q) : Q :=
  if String.eqb (commissionType product) "percentage"
  then (grossAmount * commissionRate product / 100)%Q
  else commissionRate product.

(** Coupon validity as section 4.1 words it, with strict null tests. *)
Definition spec_coupon_valid (now : Z) (coupon : Coupon) (product : Product) : bool :=
  match coupon_productId coupon with
  | None => true
  | Some p => p =? product_id product
  end
  && match maxUsage coupon with
     | None => true
     | Some m => usageCount coupon <? m
     end
  && match expiresAt coupon with
     | None => true
     | Some e => now <=? e
     end.

(** The discount of section 4.1 and the amount the caller charges. *)
Definition spec_discount (coupon : Coupon) (p : Q) : Q :=
  if String.eqb (coupon_type coupon) "percentage"
  then (p * value coupon / 100)%Q
  else value coupon.

Definition spec_charged (coupon : Coupon) (p : Q) : Q :=
  Math_max 0 (p - spec_discount coupon p)%Q.

(** Well-formed stores: a record sits under the id it carries, as
    [createUser] and [createCoupon] store it, and the coupon map has no
    repeated key. *)
Definition users_keyed (st : MemStorage) : Prop :=
  map_Forall (fun k u => user_id u = k) (users st).

#[global] Instance users_keyed_dec (st : MemStorage) : Decision (users_keyed st).
Proof. unfold users_keyed. apply _. Defined.

Definition coupons_keyed (l : list (Z * Coupon)) : Prop :=
  Forall (fun kc => coupon_id (snd kc) = fst kc) l /\ NoDup (map fst l).

(** A coupon with a ceiling the payment route looks at (non-null and
    non-zero) has not been used more often than the ceiling allows. *)
Definition within_ceiling (coupon : Coupon) : Prop :=
  match maxUsage coupon with
  | Some m => m <> 0 -> usageCount coupon <= m
  | None => True
  end.

Definition coupons_within_ceiling (st : MemStorage) : Prop :=
  Forall (fun kc => within_ceiling (snd kc)) (coupons st).


(** The amount a payment intent settles, in currency units. *)
Definition intent_amount (paymentIntent : PaymentIntent) : Q :=
  (inject_Z (pi_amount paymentIntent) / 100)%Q.

(** The plan the webhook resolves for a seller: [seller.planId || 1]. *)
Definition seller_planId (seller : User) : Z :=
  if truthy_opt_id (planId seller) then default 1 (planId seller) else 1.

(** ** Closed forms of the routes' effects

    The lemmas [post_stripe_webhook_run] and [put_withdrawal_status_run]
    below prove that running the handlers produces exactly these values. *)

(** [user] with [x] added to its balance. *)
Definition credit (user : User) (x : Q) : User :=
  mkUser (user_id user) (role user) (balance user + x)%Q (planId user).

(** The three amounts the webhook stores for a sale of [amount]. *)
Definition settled_affiliateAmount (product : Product) (affiliate : option Z)
    (amount : Q) : Q :=
  if truthy_opt_id affiliate then
    let raw :=
      if String.eqb (commissionType product) "percentage"
      then (amount * (commissionRate product / 100))%Q
      else commissionRate product in
    (raw - raw * 0.04)%Q
  else 0%Q.

Definition settled_sellerAmountBeforeFee (product : Product) (affiliate : option Z)
    (amount : Q) : Q :=
  if truthy_opt_id affiliate
  then (amount - settled_affiliateAmount product affiliate amount)%Q
  else amount.

Definition settled_platformFee (product : Product) (plan : Plan)
    (affiliate : option Z) (amount : Q) : Q :=
  (settled_sellerAmountBeforeFee product affiliate amount
   * (platformFeePercentage plan / 100))%Q.

Definition settled_sellerAmount (product : Product) (plan : Plan)
    (affiliate : option Z) (amount : Q) : Q :=
  (settled_sellerAmountBeforeFee product affiliate amount
   - settled_platformFee product plan affiliate amount)%Q.

Definition settled_sale (id : Z) (paymentIntent : PaymentIntent)
    (product : Product) (plan : Plan) : Sale :=
  let metadata := pi_metadata paymentIntent in
  let affiliate := md_affiliateId metadata in
  let amount := intent_amount paymentIntent in
  mkSale id (md_productId metadata) (md_buyerId metadata) (md_sellerId metadata)
    affiliate amount
    (settled_sellerAmount product plan affiliate amount)
    (settled_affiliateAmount product affiliate amount)
    (settled_platformFee product plan affiliate amount)
    "completed" "stripe" (pi_id paymentIntent).

(** The user map after the affiliate's credit, then after the seller's. *)
Definition users_after_affiliate (st : MemStorage) (paymentIntent : PaymentIntent)
    (product : Product) : gmap Z User :=
  let affiliate := md_affiliateId (pi_metadata paymentIntent) in
  if truthy_opt_id affiliate then
    match users st !! default 0 affiliate with
    | Some a =>
        <[default 0 affiliate :=
            credit a (settled_affiliateAmount product affiliate
                        (intent_amount paymentIntent))]> (users st)
    | None => users st
    end
  else users st.

Definition settled_store (st : MemStorage) (paymentIntent : PaymentIntent)
    (product : Product) (seller : User) (plan : Plan) : MemStorage :=
  let affiliate := md_affiliateId (pi_metadata paymentIntent) in
  let amount := intent_amount paymentIntent in
  with_sales
    (with_users st
       (<[md_sellerId (pi_metadata paymentIntent) :=
            credit seller (settled_sellerAmount product plan affiliate amount)]>
          (users_after_affiliate st paymentIntent product)))
    (<[currentSaleId st := settled_sale (currentSaleId st) paymentIntent product plan]>
       (sales st))
    (currentSaleId st + 1).

(** The coupon the payment-intent route applies, if any, the amount it
    charges and the store it leaves. *)
Definition applied_coupon (now : Z) (couponCode : option string)
    (product : Product) (st : MemStorage) : option Coupon :=
  if truthy_opt_string couponCode then
    match getCouponByCode (default "" couponCode) st with
    | Some coupon => if coupon_applies now coupon product then Some coupon else None
    | None => None
    end
  else None.

Definition discounted_amount (coupon : Coupon) (p : Q) : Q :=
  if String.eqb (coupon_type coupon) "percentage"
  then (p * (1 - value coupon / 100))%Q
  else Math_max 0 (p - value coupon)%Q.

Definition charged_amount (now : Z) (couponCode : option string)
    (product : Product) (st : MemStorage) : Q :=
  match applied_coupon now couponCode product st with
  | Some coupon => discounted_amount coupon (price product)
  | None => price product
  end.

Definition intent_store (now : Z) (couponCode : option string)
    (product : Product) (st : MemStorage) : MemStorage :=
  match applied_coupon now couponCode product st with
  | Some coupon => snd (incrementCouponUsage (coupon_id coupon) st)
  | None => st
  end.

Definition intent_params (now : Z) (session_userId : option Z) (productId : Z)
    (couponCode : option string) (affiliate : option Z) (product : Product)
    (st : MemStorage) : PaymentIntentParams :=
  mkPaymentIntentParams
    (Math_round (charged_amount now couponCode product st * 100)%Q) "brl"
    (mkMetadata productId (default 0 session_userId) (product_sellerId product)
       (if truthy_opt_id affiliate then affiliate else None)
       (if truthy_opt_string couponCode then couponCode else None)).

(** The withdrawal record and the store after a status update. *)
Definition updated_withdrawal (w : Withdrawal) (status : string)
    (transferId : option string) : Withdrawal :=
  mkWithdrawal (withdrawal_id w) (userId w) (withdrawal_amount w) status
    (if truthy_opt_string transferId then transferId else stripeTransferId w).


(** ** Example stores *)

(** A vendor (id 1, plan Start, fee 5%), an affiliate (id 2), a buyer
    (id 3) and an admin (id 9); product 1 costs 100 with a 10% commission,
    product 2 costs 10 with a flat commission of 50. *)
Definition shop : MemStorage :=
  mkMemStorage
    (<[1 := mkUser 1 "vendor" 0 (Some 2)]>
     (<[2 := mkUser 2 "affiliate" 0 (Some 1)]>
     (<[3 := mkUser 3 "buyer" 0 (Some 1)]>
     (<[9 := mkUser 9 "admin" 0 (Some 1)]> ∅))))
    (<[1 := mkProduct 1 1 100 10 "percentage"]>
     (<[2 := mkProduct 2 1 10 50 "fixed"]> ∅))
    ∅ [] ∅ defaultPlans 1 1 1.

(** The event Stripe delivers for a purchase of [productId] by the buyer,
    referred by [affiliate], paid with [cents]. *)
Definition purchase (ref : string) (productId cents : Z) (affiliate : option Z)
  : StripeEvent :=
  payment_intent_succeeded
    (mkPaymentIntent ref cents (mkMetadata productId 3 1 affiliate None)).

(** The shop after Stripe has delivered the purchase [pi_1] of product 1
    through affiliate 2 once, and after it has delivered it a second time. *)
Definition shop_after_delivery : MemStorage :=
  snd (run (post_stripe_webhook (purchase "pi_1" 1 10000 (Some 2))) shop).


(** The shop with one coupon entered. *)
Definition shop_with_coupon (coupon : Coupon) : MemStorage :=
  with_coupons shop [(coupon_id coupon, coupon)].

(** 20% off, with a usage ceiling of zero. *)
Definition coupon_zero_ceiling : Coupon :=
  mkCoupon 1 1 "ZERO" "percentage" 20 None (Some 0) 0 None.

(** 150% off. *)
Definition coupon_over_100 : Coupon :=
  mkCoupon 1 1 "OVER" "percentage" 150 None None 0 None.

(** A coupon already used as often as allowed. *)
Definition coupon_exhausted : Coupon :=
  mkCoupon 1 1 "ONCE" "fixed" 15 None (Some 1) 1 None.

(** A coupon with one use left. *)
Definition coupon_one_left : Coupon :=
  mkCoupon 1 1 "TWICE" "fixed" 15 None (Some 2) 1 None.

(** The shop after the vendor, holding 100, has asked to withdraw 50 and
    the admin has rejected the request. *)
Definition shop_funded : MemStorage :=
  with_users shop (<[1 := mkUser 1 "vendor" 100 (Some 2)]> (users shop)).

Definition shop_after_rejection : MemStorage :=
  snd (run (put_withdrawal_status (Some 9) 1 "rejected" None)
         (snd (run (post_withdrawals (Some 1) 50) shop_funded))).

(** * The rest of the server

    The storage methods and routes around the settlement core, the parts
    of [MongoDBStorage] that shape what is stored, and the client-side
    checks that mirror the server. *)

(** ** More of [MemStorage] *)

(** [Array.from(map.values())] for a map kept as a [gmap]: its values in
    the order of [map_to_list].  The insertion order of the JavaScript map
    is not modelled; what is proved about listings speaks of membership. *)
Definition values {V} (m : gmap Z V) : list V := map snd (map_to_list m).

Definition with_products (st : MemStorage) (m : gmap Z Product) : MemStorage :=
  mkMemStorage (users st) m (sales st) (coupons st) (withdrawals st)
    (plans st) (currentSaleId st) (currentCouponId st) (currentWithdrawalId st).

Definition with_new_coupon (st : MemStorage) (l : list (Z * Coupon)) (next : Z)
  : MemStorage :=
  mkMemStorage (users st) (products st) (sales st) l (withdrawals st)
    (plans st) (currentSaleId st) next (currentWithdrawalId st).

Definition listUsers (st : MemStorage) : list User := values (users st).

(** [Partial<Product>] over the fields of [Product] kept in this model. *)
Record PartialProduct := mkPartialProduct {
  set_product_id : option Z;
  set_sellerId : option Z;
  set_price : option Q;
  set_commissionRate : option Q;
  set_commissionType : option string
}.

Definition merge_product (product : Product) (productData : PartialProduct) : Product :=
  mkProduct
    (default (product_id product) (set_product_id productData))
    (default (product_sellerId product) (set_sellerId productData))
    (default (price product) (set_price productData))
    (default (commissionRate product) (set_commissionRate productData))
    (default (commissionType product) (set_commissionType productData)).

Definition updateProduct (id : Z) (productData : PartialProduct) (st : MemStorage)
  : option Product * MemStorage :=
  match products st !! id with
  | None => (None, st)
  | Some product =>
      let updatedProduct := merge_product product productData in
      (Some updatedProduct, with_products st (<[id := updatedProduct]> (products st)))
  end.

(** [Map.delete] answers whether the key was there. *)
Definition deleteProduct (id : Z) (st : MemStorage) : bool * MemStorage :=
  (bool_decide (is_Some (products st !! id)),
   with_products st (delete id (products st))).

Definition getSale (id : Z) (st : MemStorage) : option Sale := sales st !! id.

(** The [role] argument of [listSalesByUser]; anything but ['buyer'] and
    ['seller'] selects by affiliate. *)
Inductive SaleRole := as_buyer | as_seller | as_affiliate.

Definition sale_of_user (userId : Z) (r : SaleRole) (sale : Sale) : bool :=
  match r with
  | as_buyer => buyerId sale =? userId
  | as_seller => sale_sellerId sale =? userId
  | as_affiliate =>
      match affiliateId sale with
      | Some a => a =? userId
      | None => false
      end
  end.

Definition listSalesByUser (userId : Z) (r : SaleRole) (st : MemStorage) : list Sale :=
  List.filter (sale_of_user userId r) (values (sales st)).

Definition listWithdrawalsByUser (uid : Z) (st : MemStorage) : list Withdrawal :=
  List.filter (fun withdrawal => userId withdrawal =? uid) (values (withdrawals st)).

(** [InsertCoupon], with every nullable field given ([None] is [null]). *)
Record InsertCoupon := mkInsertCoupon {
  ic_sellerId : Z;
  ic_code : string;
  ic_type : string;
  ic_value : Q;
  ic_productId : option Z;
  ic_maxUsage : option Z;
  ic_expiresAt : option Z
}.

Definition createCoupon (coupon : InsertCoupon) (st : MemStorage)
  : Coupon * MemStorage :=
  let id := currentCouponId st in
  let newCoupon :=
    mkCoupon id (ic_sellerId coupon) (ic_code coupon) (ic_type coupon)
      (ic_value coupon) (ic_productId coupon) (ic_maxUsage coupon) 0
      (ic_expiresAt coupon) in
  (newCoupon, with_new_coupon st (amap_set id newCoupon (coupons st)) (id + 1)).

(** ** More routes

    A route below ends in [ret (status, payload)] for its
    [res.status(status).json(payload)]; refusals go through [respond] as
    before. *)

Inductive Payload :=
| PSales (l : list Sale)
| PSale (sale : Sale)
| PWithdrawals (l : list Withdrawal)
| PProduct (product : option Product)
| PCoupon (coupon : Coupon)
| PNoContent.

(** [GET /api/sales]. *)
Definition get_sales (session_userId : option Z) : Handler (Z * Payload) :=
  authenticate session_userId ;;;
  let uid := default 0 session_userId in
  o <- read (getUser uid) ;;
  user <- found o 404 "User not found" ;;
  sales <-
    (if String.eqb (role user) "admin" then
       allUsers <- read listUsers ;;
       read (fun st =>
               flat_map (fun user => listSalesByUser (user_id user) as_buyer st) allUsers)
     else if String.eqb (role user) "vendor" then
       read (listSalesByUser uid as_seller)
     else if String.eqb (role user) "affiliate" then
       read (listSalesByUser uid as_affiliate)
     else read (listSalesByUser uid as_buyer)) ;;
  ret (200, PSales sales).

(** [GET /api/withdrawals]. *)
Definition get_withdrawals (session_userId : option Z) : Handler (Z * Payload) :=
  authenticate session_userId ;;;
  let uid := default 0 session_userId in
  o <- read (getUser uid) ;;
  user <- found o 404 "User not found" ;;
  withdrawals <-
    (if String.eqb (role user) "admin" then
       allUsers <- read listUsers ;;
       read (fun st =>
               flat_map (fun user => listWithdrawalsByUser (user_id user) st) allUsers)
     else read (listWithdrawalsByUser uid)) ;;
  ret (200, PWithdrawals withdrawals).

(** [POST /api/sales]: the parsed body, one that gives every field, with
    [buyerId] set from the session. *)
Definition post_sales (session_userId : option Z) (body : InsertSale)
  : Handler (Z * Payload) :=
  authenticate session_userId ;;;
  let saleData :=
    mkInsertSale (ins_productId body) (default 0 session_userId) (ins_sellerId body)
      (ins_affiliateId body) (ins_amount body) (ins_sellerAmount body)
      (ins_affiliateAmount body) (ins_platformFee body) (ins_status body)
      (ins_paymentMethod body) (ins_stripePaymentIntentId body) in
  sale <- call (createSale saleData) ;;
  ret (201, PSale sale).

(** [PUT /api/products/:id] with the body as the patch. *)
Definition put_product (session_userId : option Z) (productId : Z)
    (body : PartialProduct) : Handler (Z * Payload) :=
  authenticate session_userId ;;;
  o <- read (getProduct productId) ;;
  product <- found o 404 "Product not found" ;;
  if negb (bool_decide (Some (product_sellerId product) = session_userId)) then
    respond 403 (JMessage "Forbidden")
  else
    updatedProduct <- call (updateProduct productId body) ;;
    ret (200, PProduct updatedProduct).

(** [DELETE /api/products/:id]. *)
Definition delete_product (session_userId : option Z) (productId : Z)
  : Handler (Z * Payload) :=
  authenticate session_userId ;;;
  o <- read (getProduct productId) ;;
  product <- found o 404 "Product not found" ;;
  if negb (bool_decide (Some (product_sellerId product) = session_userId)) then
    respond 403 (JMessage "Forbidden")
  else
    call (deleteProduct productId) ;;;
    ret (204, PNoContent).

(** [POST /api/coupons]: the parsed body, one that gives every nullable
    field, with [sellerId] set from the session. *)
Definition post_coupons (session_userId : option Z) (body : InsertCoupon)
  : Handler (Z * Payload) :=
  authenticate session_userId ;;;
  authorize ["vendor"; "admin"] session_userId ;;;
  let couponData :=
    mkInsertCoupon (default 0 session_userId) (ic_code body) (ic_type body)
      (ic_value body) (ic_productId body) (ic_maxUsage body) (ic_expiresAt body) in
  existingCoupon <- read (getCouponByCode (ic_code couponData)) ;;
  match existingCoupon with
  | Some _ => respond 400 (JMessage "Coupon code already exists")
  | None =>
      coupon <- call (createCoupon couponData) ;;
      ret (201, PCoupon coupon)
  end.

(** ** Reviews

    The review map and its counter are fields of [MemStorage] that the
    settlement core never touches; they are kept here in a record of
    their own, beside the store of the core. *)

Record Review := mkReview {
  review_id : Z;
  review_productId : Z;
  review_userId : Z;
  rating : Z
}.

Record InsertReview := mkInsertReview {
  ir_productId : Z;
  ir_userId : Z;
  ir_rating : Z
}.

Record ReviewStore := mkReviewStore {
  reviews : gmap Z Review;
  currentReviewId : Z
}.

Definition createReview (review : InsertReview) (rs : ReviewStore)
  : Review * ReviewStore :=
  let id := currentReviewId rs in
  let newReview :=
    mkReview id (ir_productId review) (ir_userId review) (ir_rating review) in
  (newReview, mkReviewStore (<[id := newReview]> (reviews rs)) (id + 1)).

Definition getReviewsByProduct (productId : Z) (rs : ReviewStore) : list Review :=
  List.filter (fun review => review_productId review =? productId)
    (values (reviews rs)).

(** [reviews.reduce((acc, review) => acc + review.rating, 0)]. *)
Definition sum_ratings (l : list Review) : Z :=
  fold_left (fun acc review => acc + rating review) l 0.

Definition getAverageRatingByProduct (productId : Z) (rs : ReviewStore) : Q :=
  let reviews := getReviewsByProduct productId rs in
  if (length reviews =? 0)%nat then 0%Q
  else (inject_Z (sum_ratings reviews) / inject_Z (Z.of_nat (length reviews)))%Q.

(** [POST /api/reviews] with the parsed body; it reads the core store and
    writes the review store. *)
Definition post_reviews (session_userId : option Z) (body_productId body_rating : Z)
    (st : MemStorage) (rs : ReviewStore) : Step (Z * Review) * ReviewStore :=
  match fst (authenticate session_userId st) with
  | Respond r => (Respond r, rs)
  | Next _ =>
      let reviewData :=
        mkInsertReview body_productId (default 0 session_userId) body_rating in
      match getProduct (ir_productId reviewData) st with
      | None => (Respond (mkResponse 404 (JMessage "Product not found")), rs)
      | Some _ =>
          let sales := listSalesByUser (default 0 session_userId) as_buyer st in
          let hasPurchased :=
            existsb (fun sale =>
                       (sale_productId sale =? ir_productId reviewData)
                       && String.eqb (sale_status sale) "completed") sales in
          if negb hasPurchased then
            (Respond (mkResponse 403
                        (JMessage "You must purchase the product to review it")), rs)
          else
            let (review, rs') := createReview reviewData rs in
            (Next (201, review), rs')
      end
  end.

(** ** More of [MongoDBStorage] *)

Module MongoDBCollections.

(** [getNextId] on the [counters] collection, one [sequence_value] per
    collection name: [findOneAndUpdate] with [$inc] and [upsert] creates a
    missing counter at 1; the answer is [sequence_value || 1]. *)
Definition getNextId (collectionName : string) (counters : gmap string Z)
  : Z * gmap string Z :=
  let sequence_value := default 0 (counters !! collectionName) + 1 in
  (if truthy_id sequence_value then sequence_value else 1,
   <[collectionName := sequence_value]> counters).

(** [x || null] on a nullable number. *)
Definition or_null (o : option Z) : option Z :=
  if truthy_opt_id o then o else None.

(** [createCoupon]: the document it inserts at the end of the collection. *)
Definition createCoupon (coupon : InsertCoupon) (counters : gmap string Z)
    (docs : list Coupon) : Coupon * gmap string Z * list Coupon :=
  let (id, counters') := getNextId "coupons" counters in
  let newCoupon :=
    mkCoupon id (ic_sellerId coupon) (ic_code coupon) (ic_type coupon)
      (ic_value coupon) (or_null (ic_productId coupon))
      (or_null (ic_maxUsage coupon)) 0 (ic_expiresAt coupon) in
  (newCoupon, counters', docs ++ [newCoupon]).

(** A sale document: [affiliateId], [affiliateAmount] and
    [stripePaymentIntentId] are nullable. *)
Record SaleDoc := mkSaleDoc {
  doc_id : Z;
  doc_productId : Z;
  doc_buyerId : Z;
  doc_sellerId : Z;
  doc_affiliateId : option Z;
  doc_amount : Q;
  doc_sellerAmount : Q;
  doc_affiliateAmount : option Q;
  doc_platformFee : Q;
  doc_status : string;
  doc_paymentMethod : string;
  doc_stripePaymentIntentId : option string
}.

Definition createSale (sale : InsertSale) (counters : gmap string Z)
    (docs : list SaleDoc) : SaleDoc * gmap string Z * list SaleDoc :=
  let (id, counters') := getNextId "sales" counters in
  let newSale :=
    mkSaleDoc id (ins_productId sale) (ins_buyerId sale) (ins_sellerId sale)
      (or_null (ins_affiliateId sale)) (ins_amount sale) (ins_sellerAmount sale)
      (if Qeq_bool (ins_affiliateAmount sale) 0 then None
       else Some (ins_affiliateAmount sale))
      (ins_platformFee sale)
      (if truthy_string (ins_status sale) then ins_status sale else "pending")
      (ins_paymentMethod sale)
      (if truthy_string (ins_stripePaymentIntentId sale)
       then Some (ins_stripePaymentIntentId sale) else None) in
  (newSale, counters', docs ++ [newSale]).

End MongoDBCollections.

(** ** Client-side checks *)

(** [Math.ceil(length / itemsPerPage)] and
    [items.slice((currentPage - 1) * itemsPerPage, currentPage * itemsPerPage)]
    of the sales and marketplace pages. *)
Definition totalPages (len itemsPerPage : nat) : nat :=
  ((len + itemsPerPage - 1) / itemsPerPage)%nat.

Definition slice {A} (first last : nat) (items : list A) : list A :=
  firstn (last - first) (skipn first items).

Definition paginated {A} (items : list A) (currentPage itemsPerPage : nat) : list A :=
  slice ((currentPage - 1) * itemsPerPage) (currentPage * itemsPerPage) items.

(** The page buttons: [Math.max(prev - 1, 1)] and
    [Math.min(prev + 1, totalPages)]. *)
Definition previous_page (prev : nat) : nat := Nat.max (prev - 1) 1.

Definition next_page (prev total : nat) : nat := Nat.min (prev + 1) total.

(** ** Store invariants *)

(** Every stored sale, and every stored coupon, sits under an id below the
    counter that hands out the next one. *)
Definition sales_fresh (st : MemStorage) : Prop :=
  map_Forall (fun k _ => k < currentSaleId st) (sales st).

#[global] Instance sales_fresh_dec (st : MemStorage) : Decision (sales_fresh st).
Proof. unfold sales_fresh. apply _. Defined.

Definition coupons_fresh (st : MemStorage) : Prop :=
  Forall (fun kc => fst kc < currentCouponId st) (coupons st).

(** No two stored coupons carry the same code. *)
Definition codes_unique (st : MemStorage) : Prop :=
  NoDup (map (fun kc => code (snd kc)) (coupons st)).

(** * The money routes with JavaScript's numbers

    The definitions above read the arithmetic of the routes over the
    rationals.  Node computes every [number] in IEEE 754 binary64, and a
    route that takes a value from [req.body] without parsing it receives
    any JSON value.  This module embeds the webhook and the withdrawal
    routes once more, as they run:
    - a [number] holding money is a [float] (Rocq's primitive binary64
      numbers, rounding to nearest even as JavaScript does);
    - [req.body.amount], the [amount] of a stored withdrawal and the
      [balance] of a user, which the withdrawal routes fill from the body,
      are JavaScript values ([JsValue]) with the conversions of the
      operators applied to them;
    - prices, rates and fees are numbers, as [shared/schema.ts] types
      them.
    Two conversions belong to the engine and are evaluated only where the
    answer is plain ([StringToNumber], [NumberToString]); a run that needs
    one of them elsewhere ends in [Beyond] and nothing is stated about
    it. *)

Module Binary64.

(** ** JavaScript values

    The values a JSON body can hold; [JsUndefined] is a key that is
    absent, [JsObject] any array or object (its conversions are not
    evaluated). *)

Inductive JsValue :=
| JsUndefined
| JsNull
| JsBoolean (b : bool)
| JsNumber (x : float)
| JsString (s : string)
| JsObject.

(** [Number.isNaN]. *)
Definition isNaN (x : float) : bool := negb (x =? x)%float.

Definition is_digit (c : Ascii.ascii) : bool :=
  let n := Ascii.nat_of_ascii c in (48 <=? n)%nat && (n <=? 57)%nat.

Definition is_letter (c : Ascii.ascii) : bool :=
  let n := Ascii.nat_of_ascii c in
  (65 <=? n)%nat && (n <=? 90)%nat || (97 <=? n)%nat && (n <=? 122)%nat.

Fixpoint digits (s : string) (acc : Z) : option Z :=
  match s with
  | EmptyString => Some acc
  | String c s' =>
      if is_digit c then digits s' (10 * acc + (Z.of_nat (Ascii.nat_of_ascii c) - 48))
      else None
  end.

(** [StringToNumber], where it is evaluated: the empty string is 0, up to
    fifteen decimal digits are the integer they spell (exactly, being below
    2^53), and a string that starts with a letter other than [I] is [NaN]
    (no numeric literal starts that way). *)
Definition StringToNumber (s : string) : option float :=
  match s with
  | EmptyString => Some 0%float
  | String c _ =>
      if is_letter c && negb (Ascii.eqb c (Ascii.ascii_of_nat 73)) then Some nan
      else if (String.length s <=? 15)%nat
      then option_map (fun n => of_uint63 (Uint63.of_Z n)) (digits s 0)
      else None
  end.

(** The value of a number that is an integer of magnitude below 2^53. *)
Definition integer_value (x : float) : option Z :=
  match Prim2SF x with
  | S754_zero _ => Some 0
  | S754_finite s m e =>
      if (e <=? 0) && (Z.pos m mod 2 ^ (- e) =? 0)
      then Some ((if s then Z.neg m else Z.pos m) / 2 ^ (- e))
      else None
  | _ => None
  end.

(** [Number::toString], where it is evaluated: [NaN], and the integers of
    magnitude below 2^53, which print as their decimal digits. *)
Definition NumberToString (x : float) : option string :=
  if isNaN x then Some "NaN" else option_map pretty (integer_value x).

Definition ToBoolean (v : JsValue) : bool :=
  match v with
  | JsUndefined | JsNull => false
  | JsBoolean b => b
  | JsNumber x => negb ((x =? 0)%float || isNaN x)
  | JsString s => negb (String.eqb s "")
  | JsObject => true
  end.

Definition ToNumber (v : JsValue) : option float :=
  match v with
  | JsUndefined => Some nan
  | JsNull => Some 0%float
  | JsBoolean b => Some (if b then 1 else 0)%float
  | JsNumber x => Some x
  | JsString s => StringToNumber s
  | JsObject => None
  end.

Definition ToString (v : JsValue) : option string :=
  match v with
  | JsUndefined => Some "undefined"
  | JsNull => Some "null"
  | JsBoolean b => Some (if b then "true" else "false")
  | JsNumber x => NumberToString x
  | JsString s => Some s
  | JsObject => None
  end.

(** [a < b]: numeric unless both operands are strings; a comparison with
    [NaN] is false. *)
Definition js_lt (a b : JsValue) : option bool :=
  match a, b with
  | JsString _, JsString _ => None
  | _, _ =>
      match ToNumber a, ToNumber b with
      | Some x, Some y => Some (x <? y)%float
      | _, _ => None
      end
  end.

(** [a - b]: always a number. *)
Definition js_sub (a b : JsValue) : option float :=
  match ToNumber a, ToNumber b with
  | Some x, Some y => Some (x - y)%float
  | _, _ => None
  end.

(** [a + b]: concatenation as soon as one operand is a string, the sum of
    the numbers otherwise. *)
Definition js_add (a b : JsValue) : option JsValue :=
  match a, b with
  | JsObject, _ | _, JsObject => None
  | JsString _, _ | _, JsString _ =>
      match ToString a, ToString b with
      | Some s, Some t => Some (JsString (s ++ t))
      | _, _ => None
      end
  | _, _ =>
      match ToNumber a, ToNumber b with
      | Some x, Some y => Some (JsNumber (x + y)%float)
      | _, _ => None
      end
  end.

(** ** Entities *)

Record User := mkUser {
  user_id : Z;
  role : string;
  balance : JsValue;
  planId : option Z
}.

Record Plan := mkPlan {
  plan_id : Z;
  plan_name : string;
  platformFeePercentage : float
}.

Record Product := mkProduct {
  product_id : Z;
  product_sellerId : Z;
  price : float;
  commissionRate : float;
  commissionType : string
}.

Record InsertSale := mkInsertSale {
  ins_productId : Z;
  ins_buyerId : Z;
  ins_sellerId : Z;
  ins_affiliateId : option Z;
  ins_amount : float;
  ins_sellerAmount : float;
  ins_affiliateAmount : float;
  ins_platformFee : float;
  ins_status : string;
  ins_paymentMethod : string;
  ins_stripePaymentIntentId : string
}.

Record Sale := mkSale {
  sale_id : Z;
  sale_productId : Z;
  buyerId : Z;
  sale_sellerId : Z;
  affiliateId : option Z;
  amount : float;
  sellerAmount : float;
  affiliateAmount : float;
  platformFee : float;
  sale_status : string;
  paymentMethod : string;
  stripePaymentIntentId : string
}.

Record InsertWithdrawal := mkInsertWithdrawal {
  ins_userId : Z;
  ins_withdrawal_amount : JsValue
}.

Record Withdrawal := mkWithdrawal {
  withdrawal_id : Z;
  userId : Z;
  withdrawal_amount : JsValue;
  withdrawal_status : string;
  stripeTransferId : option string
}.

Record PartialUser := mkPartialUser {
  set_balance : option JsValue;
  set_planId : option (option Z)
}.

(** ** [MemStorage] *)

Record MemStorage := mkMemStorage {
  users : gmap Z User;
  products : gmap Z Product;
  sales : gmap Z Sale;
  withdrawals : gmap Z Withdrawal;
  plans : gmap Z Plan;
  currentSaleId : Z;
  currentWithdrawalId : Z
}.

Definition with_users (st : MemStorage) (m : gmap Z User) : MemStorage :=
  mkMemStorage m (products st) (sales st) (withdrawals st) (plans st)
    (currentSaleId st) (currentWithdrawalId st).

Definition with_sales (st : MemStorage) (m : gmap Z Sale) (next : Z) : MemStorage :=
  mkMemStorage (users st) (products st) m (withdrawals st) (plans st)
    next (currentWithdrawalId st).

Definition with_withdrawals (st : MemStorage) (m : gmap Z Withdrawal) (next : Z)
  : MemStorage :=
  mkMemStorage (users st) (products st) (sales st) m (plans st)
    (currentSaleId st) next.

(** The five plans of [initializePlans]. *)
Definition defaultPlans : gmap Z Plan :=
  <[1 := mkPlan 1 "Free" 6]>
  (<[2 := mkPlan 2 "Start" 5]>
  (<[3 := mkPlan 3 "Pro" 4]>
  (<[4 := mkPlan 4 "Master" 3]>
  (<[5 := mkPlan 5 "Infinity" 2]> ∅)))).

Definition getUser (id : Z) (st : MemStorage) : option User := users st !! id.

Definition merge_user (user : User) (userData : PartialUser) : User :=
  mkUser (user_id user) (role user)
    (default (balance user) (set_balance userData))
    (default (planId user) (set_planId userData)).

Definition updateUser (id : Z) (userData : PartialUser) (st : MemStorage)
  : option User * MemStorage :=
  match users st !! id with
  | None => (None, st)
  | Some user =>
      let updatedUser := merge_user user userData in
      (Some updatedUser, with_users st (<[id := updatedUser]> (users st)))
  end.

Definition getProduct (id : Z) (st : MemStorage) : option Product :=
  products st !! id.

Definition getPlan (id : Z) (st : MemStorage) : option Plan := plans st !! id.

Definition createSale (sale : InsertSale) (st : MemStorage) : Sale * MemStorage :=
  let id := currentSaleId st in
  let newSale :=
    mkSale id (ins_productId sale) (ins_buyerId sale) (ins_sellerId sale)
      (ins_affiliateId sale) (ins_amount sale) (ins_sellerAmount sale)
      (ins_affiliateAmount sale) (ins_platformFee sale) (ins_status sale)
      (ins_paymentMethod sale) (ins_stripePaymentIntentId sale) in
  (newSale, with_sales st (<[id := newSale]> (sales st)) (id + 1)).

Definition createWithdrawal (withdrawal : InsertWithdrawal) (st : MemStorage)
  : Withdrawal * MemStorage :=
  let id := currentWithdrawalId st in
  let newWithdrawal :=
    mkWithdrawal id (ins_userId withdrawal) (ins_withdrawal_amount withdrawal)
      "pending" None in
  (newWithdrawal,
   with_withdrawals st (<[id := newWithdrawal]> (withdrawals st)) (id + 1)).

Definition updateWithdrawalStatus (id : Z) (status : string)
    (transferId : option string) (st : MemStorage)
  : option Withdrawal * MemStorage :=
  match withdrawals st !! id with
  | None => (None, st)
  | Some withdrawal =>
      let updatedWithdrawal :=
        mkWithdrawal (withdrawal_id withdrawal) (userId withdrawal)
          (withdrawal_amount withdrawal) status
          (if truthy_opt_string transferId then transferId
           else stripeTransferId withdrawal) in
      (Some updatedWithdrawal,
       with_withdrawals st (<[id := updatedWithdrawal]> (withdrawals st))
         (currentWithdrawalId st))
  end.

(** [x || null] on a number: what [MongoDBStorage.createSale] puts in the
    document for [affiliateAmount: sale.affiliateAmount || null]. *)
Definition or_null (x : float) : option float :=
  if ToBoolean (JsNumber x) then Some x else None.

(** ** HTTP and Stripe objects *)

(** A Stripe payment intent; [pi_amount] is the number of cents. *)
Record PaymentIntent := mkPaymentIntent {
  pi_id : string;
  pi_amount : float;
  pi_metadata : Metadata
}.

Inductive StripeEvent :=
| payment_intent_succeeded (paymentIntent : PaymentIntent)
| payment_intent_payment_failed (paymentIntent : PaymentIntent)
| other_event (type : string).

Inductive Json :=
| JMessage (message : string)
| JWithdrawal (withdrawal : Withdrawal)
| JReceived.

Record Response := mkResponse {
  statusCode : Z;
  json : Json
}.

(** ** The handler monad, with a third way to stop *)

Inductive Step (A : Type) :=
| Next (a : A)
| Respond (r : Response)
| Beyond.

Arguments Next {A} a.
Arguments Respond {A} r.
Arguments Beyond {A}.

Definition Handler (A : Type) : Type := MemStorage -> Step A * MemStorage.

Definition ret {A} (a : A) : Handler A := fun st => (Next a, st).

Definition respond {A} (status : Z) (body : Json) : Handler A :=
  fun st => (Respond (mkResponse status body), st).

Definition bind {A B} (m : Handler A) (k : A -> Handler B) : Handler B :=
  fun st =>
    match m st with
    | (Next a, st') => k a st'
    | (Respond r, st') => (Respond r, st')
    | (Beyond, st') => (Beyond, st')
    end.

Definition read {A} (f : MemStorage -> A) : Handler A := fun st => (Next (f st), st).

Definition call {A} (f : MemStorage -> A * MemStorage) : Handler A :=
  fun st => let (a, st') := f st in (Next a, st').

(** The result of an operator, when the model evaluates it. *)
Definition evaluate {A} (o : option A) : Handler A :=
  fun st => match o with Some a => (Next a, st) | None => (Beyond, st) end.

Definition found {A} (o : option A) (status : Z) (message : string) : Handler A :=
  match o with
  | Some a => ret a
  | None => respond status (JMessage message)
  end.

Definition when (b : bool) (m : Handler unit) : Handler unit :=
  if b then m else ret tt.

Declare Scope binary64_scope.
Notation "x <- m ;; k" := (bind m (fun x => k))
  (at level 100, m at next level, right associativity) : binary64_scope.
Notation "m ;;; k" := (bind m (fun _ => k))
  (at level 100, right associativity) : binary64_scope.
Local Open Scope binary64_scope.

(** What the client receives and the store the request leaves behind,
    for a run the model follows to its end. *)
Definition run (h : Handler Response) (st : MemStorage)
  : option (Response * MemStorage) :=
  match h st with
  | (Next r, st') => Some (r, st')
  | (Respond r, st') => Some (r, st')
  | (Beyond, _) => None
  end.

(** ** Middleware *)

Definition authenticate (session_userId : option Z) : Handler unit :=
  if truthy_opt_id session_userId then ret tt
  else respond 401 (JMessage "Unauthorized").

Definition authorize (roles : list string) (session_userId : option Z)
  : Handler unit :=
  match session_userId with
  | Some uid =>
      if truthy_id uid then
        user <- read (getUser uid) ;;
        match user with
        | Some u =>
            if existsb (String.eqb (role u)) roles then ret tt
            else respond 403 (JMessage "Forbidden")
        | None => respond 403 (JMessage "Forbidden")
        end
      else respond 401 (JMessage "Unauthorized")
  | None => respond 401 (JMessage "Unauthorized")
  end.

(** ** Withdrawal routes *)

(** [POST /api/withdrawals]; [body_amount] is [req.body.amount] as it
    comes, no schema is applied to it. *)
Definition post_withdrawals (session_userId : option Z) (body_amount : JsValue)
  : Handler Response :=
  authenticate session_userId ;;;
  authorize ["vendor"; "affiliate"] session_userId ;;;
  let uid := default 0 session_userId in
  o <- read (getUser uid) ;;
  user <- found o 404 "User not found" ;;
  let amount := body_amount in
  if negb (ToBoolean amount) then
    respond 400 (JMessage "Minimum withdrawal amount is R$20")
  else
    below <- evaluate (js_lt amount (JsNumber 20)) ;;
    if below : bool then
      respond 400 (JMessage "Minimum withdrawal amount is R$20")
    else
      short <- evaluate (js_lt (balance user) amount) ;;
      if short : bool then respond 400 (JMessage "Insufficient balance")
      else
        withdrawal <- call (createWithdrawal (mkInsertWithdrawal uid amount)) ;;
        rest <- evaluate (js_sub (balance user) amount) ;;
        call (updateUser uid (mkPartialUser (Some (JsNumber rest)) None)) ;;;
        ret (mkResponse 201 (JWithdrawal withdrawal)).

(** [PUT /api/withdrawals/:id/status]. *)
Definition put_withdrawal_status (session_userId : option Z) (withdrawalId : Z)
    (status : string) (transferId : option string) : Handler Response :=
  authenticate session_userId ;;;
  authorize ["admin"] session_userId ;;;
  if negb (truthy_string status)
     || negb (existsb (String.eqb status) ["pending"; "completed"; "rejected"])
  then respond 400 (JMessage "Invalid status")
  else
    o <- call (updateWithdrawalStatus withdrawalId status transferId) ;;
    withdrawal <- found o 404 "Withdrawal not found" ;;
    when (String.eqb status "rejected")
      (user <- read (getUser (userId withdrawal)) ;;
       match user with
       | Some user =>
           sum <- evaluate (js_add (balance user) (withdrawal_amount withdrawal)) ;;
           call (updateUser (user_id user) (mkPartialUser (Some sum) None)) ;;;
           ret tt
       | None => ret tt
       end) ;;;
    ret (mkResponse 200 (JWithdrawal withdrawal)).

(** ** The settlement webhook *)

(** [POST /api/stripe-webhook], from the point where the signature check
    has produced [event]. *)
Definition post_stripe_webhook (event : StripeEvent) : Handler Response :=
  match event with
  | payment_intent_succeeded paymentIntent =>
      let metadata := pi_metadata paymentIntent in
      o <- read (getProduct (md_productId metadata)) ;;
      product <- found o 400 "Product not found" ;;
      let buyerId := md_buyerId metadata in
      let sellerId := md_sellerId metadata in
      let affiliateId := md_affiliateId metadata in
      let amount := (pi_amount paymentIntent / 100)%float in
      o <- read (getUser sellerId) ;;
      seller <- found o 400 "Seller not found" ;;
      let planId :=
        if truthy_opt_id (planId seller) then default 1 (planId seller) else 1 in
      o <- read (getPlan planId) ;;
      plan <- found o 400 "Plan not found" ;;
      let platformFeePercentage := platformFeePercentage plan in
      split <-
        (if truthy_opt_id affiliateId then
           let affiliateId := default 0 affiliateId in
           let affiliateAmount :=
             if String.eqb (commissionType product) "percentage"
             then (amount * (commissionRate product / 100))%float
             else commissionRate product in
           let affiliatePlatformFee := (affiliateAmount * 0.04)%float in
           let affiliateAmount := (affiliateAmount - affiliatePlatformFee)%float in
           affiliate <- read (getUser affiliateId) ;;
           match affiliate with
           | Some affiliate =>
               sum <- evaluate (js_add (balance affiliate) (JsNumber affiliateAmount)) ;;
               call (updateUser affiliateId (mkPartialUser (Some sum) None)) ;;;
               ret tt
           | None => ret tt
           end ;;;
           ret (affiliateAmount, (amount - affiliateAmount)%float)
         else ret (0%float, amount)) ;;
      let affiliateAmount := fst split in
      let sellerAmount := snd split in
      let platformFee := (sellerAmount * (platformFeePercentage / 100))%float in
      let sellerAmount := (sellerAmount - platformFee)%float in
      sum <- evaluate (js_add (balance seller) (JsNumber sellerAmount)) ;;
      call (updateUser sellerId (mkPartialUser (Some sum) None)) ;;;
      call (createSale
              (mkInsertSale (md_productId metadata) buyerId sellerId affiliateId
                 amount sellerAmount affiliateAmount platformFee
                 "completed" "stripe" (pi_id paymentIntent))) ;;;
      ret (mkResponse 200 JReceived)
  | payment_intent_payment_failed paymentIntent =>
      ret (mkResponse 200 JReceived)
  | other_event _ => ret (mkResponse 200 JReceived)
  end.

(** ** The withdrawals page

    [handleRequestWithdrawal]: [typed] is [parseFloat(withdrawalAmount)],
    [user] the balance of the user the page holds, if it holds one. *)
Inductive FormOutcome :=
| InvalidValue
| BelowMinimum
| InsufficientBalance
| Submit (amount : float).

Definition handleRequestWithdrawal (typed : float) (user : option float)
  : FormOutcome :=
  let amount := typed in
  if isNaN amount || (amount <=? 0)%float then InvalidValue
  else if (amount <? 20)%float then BelowMinimum
  else if match user with
          | Some user_balance => (user_balance <? amount)%float
          | None => false
          end
  then InsufficientBalance
  else Submit amount.

(** ** The vocabulary of the specification *)

(** [clamp(x, lo, hi)]. *)
Definition clamp (x lo hi : float) : float :=
  if (x <? lo)%float then lo else if (hi <? x)%float then hi else x.

(** ** Closed forms of the settlement *)

(** The plan the webhook resolves for a seller: [seller.planId || 1]. *)
Definition seller_planId (seller : User) : Z :=
  if truthy_opt_id (planId seller) then default 1 (planId seller) else 1.

(** The commission before the affiliate-side fee. *)
Definition rawCommission (product : Product) (amount : float) : float :=
  if String.eqb (commissionType product) "percentage"
  then (amount * (commissionRate product / 100))%float
  else commissionRate product.

(** The three amounts the webhook stores for a payment of [amount]. *)
Definition settled_affiliateAmount (product : Product) (affiliate : option Z)
    (amount : float) : float :=
  if truthy_opt_id affiliate then
    (rawCommission product amount - rawCommission product amount * 0.04)%float
  else 0%float.

Definition settled_sellerAmountBeforeFee (product : Product) (affiliate : option Z)
    (amount : float) : float :=
  if truthy_opt_id affiliate
  then (amount - settled_affiliateAmount product affiliate amount)%float
  else amount.

Definition settled_platformFee (product : Product) (plan : Plan)
    (affiliate : option Z) (amount : float) : float :=
  (settled_sellerAmountBeforeFee product affiliate amount
   * (platformFeePercentage plan / 100))%float.

Definition settled_sellerAmount (product : Product) (plan : Plan)
    (affiliate : option Z) (amount : float) : float :=
  (settled_sellerAmountBeforeFee product affiliate amount
   - settled_platformFee product plan affiliate amount)%float.

(** The sale the webhook stores. *)
Definition settled_sale (id : Z) (paymentIntent : PaymentIntent)
    (product : Product) (plan : Plan) : Sale :=
  let metadata := pi_metadata paymentIntent in
  let affiliate := md_affiliateId metadata in
  let amount := (pi_amount paymentIntent / 100)%float in
  mkSale id (md_productId metadata) (md_buyerId metadata) (md_sellerId metadata)
    affiliate amount
    (settled_sellerAmount product plan affiliate amount)
    (settled_affiliateAmount product affiliate amount)
    (settled_platformFee product plan affiliate amount)
    "completed" "stripe" (pi_id paymentIntent).

(** [user] holding [v]. *)
Definition with_balance (user : User) (v : JsValue) : User :=
  mkUser (user_id user) (role user) v (planId user).

(** [user] after [user.balance + x] has been written to it. *)
Definition credit (user : User) (x : float) : User :=
  match js_add (balance user) (JsNumber x) with
  | Some sum => with_balance user sum
  | None => user
  end.

(** The user map after the affiliate's credit, and the store after the
    seller's credit and [createSale]. *)
Definition users_after_affiliate (st : MemStorage) (paymentIntent : PaymentIntent)
    (product : Product) : gmap Z User :=
  let affiliate := md_affiliateId (pi_metadata paymentIntent) in
  if truthy_opt_id affiliate then
    match users st !! default 0 affiliate with
    | Some a =>
        <[default 0 affiliate :=
            credit a (settled_affiliateAmount product affiliate
                        (pi_amount paymentIntent / 100)%float)]> (users st)
    | None => users st
    end
  else users st.

Definition settled_store (st : MemStorage) (paymentIntent : PaymentIntent)
    (product : Product) (seller : User) (plan : Plan) : MemStorage :=
  let affiliate := md_affiliateId (pi_metadata paymentIntent) in
  let amount := (pi_amount paymentIntent / 100)%float in
  with_sales
    (with_users st
       (<[md_sellerId (pi_metadata paymentIntent) :=
            credit seller (settled_sellerAmount product plan affiliate amount)]>
          (users_after_affiliate st paymentIntent product)))
    (<[currentSaleId st := settled_sale (currentSaleId st) paymentIntent product plan]>
       (sales st))
    (currentSaleId st + 1).

(** The withdrawal an accepted request stores and the store it leaves,
    [rest] being [user.balance - amount]. *)
Definition requested_withdrawal (st : MemStorage) (uid : Z) (amount : JsValue)
  : Withdrawal :=
  mkWithdrawal (currentWithdrawalId st) uid amount "pending" None.

Definition requested_store (st : MemStorage) (uid : Z) (user : User)
    (amount : JsValue) (rest : float) : MemStorage :=
  with_users
    (with_withdrawals st
       (<[currentWithdrawalId st := requested_withdrawal st uid amount]>
          (withdrawals st))
       (currentWithdrawalId st + 1))
    (<[uid := with_balance user (JsNumber rest)]> (users st)).

(** The withdrawal after a status update, and the store once it is
    written back. *)
Definition updated_withdrawal (w : Withdrawal) (status : string)
    (transferId : option string) : Withdrawal :=
  mkWithdrawal (withdrawal_id w) (userId w) (withdrawal_amount w) status
    (if truthy_opt_string transferId then transferId else stripeTransferId w).

Definition status_stored (st : MemStorage) (wid : Z) (w : Withdrawal)
    (status : string) (transferId : option string) : MemStorage :=
  with_withdrawals st
    (<[wid := updated_withdrawal w status transferId]> (withdrawals st))
    (currentWithdrawalId st).

(** Stores in which every balance is a number, as the schema types it. *)
Definition is_number (v : JsValue) : bool :=
  match v with JsNumber _ => true | _ => false end.

Definition numeric_balances (st : MemStorage) : Prop :=
  map_Forall (fun _ u => is_number (balance u) = true) (users st).

#[global] Instance numeric_balances_dec (st : MemStorage)
  : Decision (numeric_balances st).
Proof. unfold numeric_balances. apply _. Defined.

(** Stores whose users sit under the id they carry. *)
Definition users_keyed (st : MemStorage) : Prop :=
  map_Forall (fun k u => user_id u = k) (users st).

#[global] Instance users_keyed_dec (st : MemStorage) : Decision (users_keyed st).
Proof. unfold users_keyed. apply _. Defined.

(** ** Example store *)

(** A vendor (id 1, plan Start, fee 5%) holding [funds], an affiliate
    (id 2), a buyer (id 3) and an admin (id 9) holding 100; product 1 costs
    100 with a 10% commission, product 2 costs 10 with a flat commission
    of 50, product 3 costs 14.90 and product 4 costs 19.90, both with a 10%
    commission. *)
Definition shop (funds : float) : MemStorage :=
  mkMemStorage
    (<[1 := mkUser 1 "vendor" (JsNumber funds) (Some 2)]>
     (<[2 := mkUser 2 "affiliate" (JsNumber 0) (Some 1)]>
     (<[3 := mkUser 3 "buyer" (JsNumber 0) (Some 1)]>
     (<[9 := mkUser 9 "admin" (JsNumber 100) (Some 1)]> ∅))))
    (<[1 := mkProduct 1 1 100 10 "percentage"]>
     (<[2 := mkProduct 2 1 10 50 "fixed"]>
     (<[3 := mkProduct 3 1 14.9 10 "percentage"]>
     (<[4 := mkProduct 4 1 19.9 10 "percentage"]> ∅))))
    ∅ ∅ defaultPlans 1 1.

(** The event Stripe delivers for a purchase of [productId] by the buyer,
    referred by [affiliate], paid with [cents]. *)
Definition purchase (ref : string) (productId : Z) (cents : float)
    (affiliate : option Z) : StripeEvent :=
  payment_intent_succeeded
    (mkPaymentIntent ref cents (mkMetadata productId 3 1 affiliate None)).

End Binary64.

(** * Proofs *)

(** ** Arithmetic and truthiness *)

Lemma truthy_id_true (n : Z) : n <> 0 -> truthy_id n = true.
Proof. intros Hn. unfold truthy_id. apply negb_true_iff, Z.eqb_neq, Hn. Qed.

(** ** Running handlers *)

Lemma authenticate_ok (uid : Z) (st : MemStorage) :
  uid <> 0 -> authenticate (Some uid) st = (Next tt, st).
Proof.
  intros Hn. unfold authenticate. simpl. now rewrite (truthy_id_true _ Hn).
Qed.

Lemma authorize_ok (roles : list string) (uid : Z) (u : User) (st : MemStorage) :
  uid <> 0 -> users st !! uid = Some u ->
  existsb (String.eqb (role u)) roles = true ->
  authorize roles (Some uid) st = (Next tt, st).
Proof.
  intros Hn Hu Hr. unfold authorize, bind, read, getUser.
  rewrite (truthy_id_true _ Hn). cbn beta. rewrite Hu, Hr. reflexivity.
Qed.

(** ** Withdrawals *)

Lemma status_allowed (status : string) :
  status = "pending" \/ status = "completed" \/ status = "rejected" ->
  negb (truthy_string status)
  || negb (existsb (String.eqb status) ["pending"; "completed"; "rejected"]) = false.
Proof. intros [-> | [-> | ->]]; reflexivity. Qed.






(** ** The settlement webhook *)

Lemma post_stripe_webhook_run (st : MemStorage) (paymentIntent : PaymentIntent)
    (product : Product) (seller : User) (plan : Plan) :
  products st !! md_productId (pi_metadata paymentIntent) = Some product ->
  users st !! md_sellerId (pi_metadata paymentIntent) = Some seller ->
  plans st !! seller_planId seller = Some plan ->
  run (post_stripe_webhook (payment_intent_succeeded paymentIntent)) st =
  (mkResponse 200 JReceived, settled_store st paymentIntent product seller plan).
Proof.
  intros Hp Hs Hpl.
  unfold post_stripe_webhook, run, bind, read, getProduct, getUser, getPlan.
  rewrite Hp. cbn [found ret]. rewrite Hs. cbn [found ret].
  fold (seller_planId seller). rewrite Hpl. cbn [found ret].
  unfold settled_store, users_after_affiliate, settled_sale, settled_sellerAmount,
    settled_platformFee, settled_sellerAmountBeforeFee, settled_affiliateAmount.
  fold (intent_amount paymentIntent).
  unfold call, updateUser, createSale, ret.
  destruct (truthy_opt_id (md_affiliateId (pi_metadata paymentIntent))) eqn:Haff.
  - destruct (users st !! default 0 (md_affiliateId (pi_metadata paymentIntent)))
      as [a |] eqn:Ha; cbn beta iota zeta delta [fst snd users with_users].
    + rewrite Ha. cbn beta iota zeta delta [fst snd users with_users].
      destruct (decide (default 0 (md_affiliateId (pi_metadata paymentIntent))
                        = md_sellerId (pi_metadata paymentIntent))) as [Heq | Hne].
      * rewrite Heq in *. rewrite lookup_insert_eq.
        rewrite Hs in Ha. injection Ha as <-. reflexivity.
      * rewrite lookup_insert_ne by exact Hne. rewrite Hs. reflexivity.
    + rewrite Hs. reflexivity.
  - cbn beta iota zeta delta [fst snd users with_users]. rewrite Hs. reflexivity.
Qed.

(** Replace a successful run by its closed form and read the store. *)
Ltac settle Hp Hs Hpl :=
  rewrite (post_stripe_webhook_run _ _ _ _ _ Hp Hs Hpl);
  cbn [fst snd statusCode settled_store sales users with_sales with_users].

(** Read over the rationals, the three formulas of the webhook add up to
    the amount. *)
Lemma settled_split_sums_to_amount (product : Product) (plan : Plan)
    (affiliate : option Z) (x : Q) :
  (x == settled_sellerAmount product plan affiliate x
        + settled_affiliateAmount product affiliate x
        + settled_platformFee product plan affiliate x)%Q.
Proof.
  unfold settled_sellerAmount, settled_platformFee, settled_sellerAmountBeforeFee,
    settled_affiliateAmount.
  destruct (truthy_opt_id affiliate); ring.
Qed.


Section SettledWithAffiliate.

Variables (st : MemStorage) (paymentIntent : PaymentIntent).
Variables (product : Product) (seller : User) (plan : Plan).

Hypothesis Hproduct :
  products st !! md_productId (pi_metadata paymentIntent) = Some product.
Hypothesis Hseller :
  users st !! md_sellerId (pi_metadata paymentIntent) = Some seller.
Hypothesis Hplan : plans st !! seller_planId seller = Some plan.


End SettledWithAffiliate.


(** ** Redelivery of a payment event *)




(** ** Coupons *)

Lemma amap_get_In {V} (k : Z) (v : V) (l : list (Z * V)) :
  NoDup (map fst l) -> In (k, v) l -> amap_get k l = Some v.
Proof.
  induction l as [| [k' v'] l IH]; intros Hnd Hin; [contradiction |].
  cbn [map fst] in Hnd. apply NoDup_cons in Hnd as [Hfresh Hnd].
  cbn [amap_get]. destruct Hin as [Heq | Hin].
  - injection Heq as -> ->. now rewrite Z.eqb_refl.
  - destruct (Z.eqb_spec k' k) as [-> | Hne]; [| now apply IH].
    exfalso. apply Hfresh. apply list_elem_of_In.
    apply (in_map fst) in Hin. exact Hin.
Qed.

Lemma amap_set_Forall {V} (P : Z * V -> Prop) (k : Z) (v : V) (l : list (Z * V)) :
  Forall P l -> P (k, v) -> Forall P (amap_set k v l).
Proof.
  intros Hl Hv. induction Hl as [| [k' v'] l Hx Hl IH]; cbn [amap_set].
  - constructor; [exact Hv | constructor].
  - destruct (k' =? k); constructor; assumption.
Qed.

Lemma amap_get_set {V} (k : Z) (v : V) (l : list (Z * V)) :
  amap_get k (amap_set k v l) = Some v.
Proof.
  induction l as [| [k' v'] l IH]; cbn [amap_set amap_get].
  - now rewrite Z.eqb_refl.
  - destruct (Z.eqb_spec k' k) as [-> | Hne]; cbn [amap_get].
    + now rewrite Z.eqb_refl.
    + rewrite (proj2 (Z.eqb_neq k' k) Hne). exact IH.
Qed.

Lemma amap_get_set_ne {V} (k k' : Z) (v : V) (l : list (Z * V)) :
  k' <> k -> amap_get k' (amap_set k v l) = amap_get k' l.
Proof.
  intros Hne. induction l as [| [j w] l IH]; cbn [amap_set amap_get].
  - rewrite (proj2 (Z.eqb_neq k k')) by congruence. reflexivity.
  - destruct (Z.eqb_spec j k) as [-> | Hjk]; cbn [amap_get].
    + rewrite (proj2 (Z.eqb_neq k k')) by congruence. reflexivity.
    + destruct (j =? k'); [reflexivity | exact IH].
Qed.

Lemma getCouponByCode_In (c : string) (st : MemStorage) (coupon : Coupon) :
  getCouponByCode c st = Some coupon ->
  exists k, In (k, coupon) (coupons st).
Proof.
  unfold getCouponByCode. intros Hf. apply find_some in Hf as [Hin _].
  apply in_map_iff in Hin as ([k c'] & Heq & Hin). cbn in Heq. subst c'.
  exists k. exact Hin.
Qed.

Lemma getCouponByCode_keyed (c : string) (st : MemStorage) (coupon : Coupon) :
  coupons_keyed (coupons st) ->
  getCouponByCode c st = Some coupon ->
  amap_get (coupon_id coupon) (coupons st) = Some coupon /\
  In (coupon_id coupon, coupon) (coupons st).
Proof.
  intros [Hkey Hnd] Hf. destruct (getCouponByCode_In _ _ _ Hf) as [k Hin].
  assert (Hk : coupon_id coupon = k).
  { rewrite List.Forall_forall in Hkey. apply (Hkey _ Hin). }
  rewrite Hk. split; [apply amap_get_In; assumption | exact Hin].
Qed.

Lemma coupon_applies_below_ceiling (now : Z) (coupon : Coupon) (product : Product) :
  coupon_applies now coupon product = true ->
  forall m, maxUsage coupon = Some m -> m <> 0 -> usageCount coupon < m.
Proof.
  unfold coupon_applies. intros Happ m Hm Hnz.
  apply andb_prop in Happ as [Happ _]. apply andb_prop in Happ as [_ Hmax].
  rewrite Hm in Hmax. cbn [truthy_opt_id] in Hmax.
  rewrite (truthy_id_true _ Hnz) in Hmax. cbn [negb orb] in Hmax.
  apply Z.ltb_lt, Hmax.
Qed.

Lemma post_create_payment_intent_run (now : Z) (session : option Z)
    (productId : Z) (couponCode : option string) (affiliate : option Z)
    (product : Product) (st : MemStorage) :
  truthy_opt_id session = true ->
  products st !! productId = Some product ->
  run (post_create_payment_intent now session productId couponCode affiliate) st =
  (mkResponse 200
     (JClientSecret
        (intent_params now session productId couponCode affiliate product st)),
   intent_store now couponCode product st).
Proof.
  intros Hs Hp.
  unfold post_create_payment_intent, run, bind, authenticate, read, getProduct.
  rewrite Hs. cbn beta iota zeta delta [ret]. rewrite Hp. cbn [found ret].
  unfold intent_params, intent_store, charged_amount, applied_coupon.
  destruct (truthy_opt_string couponCode); [| reflexivity].
  destruct (getCouponByCode (default "" couponCode) st) as [coupon |];
    [| reflexivity].
  destruct (coupon_applies now coupon product); [| reflexivity].
  unfold call, discounted_amount.
  destruct (incrementCouponUsage (coupon_id coupon) st). reflexivity.
Qed.

Lemma post_create_payment_intent_refused (now : Z) (session : option Z)
    (productId : Z) (couponCode : option string) (affiliate : option Z)
    (st : MemStorage) :
  truthy_opt_id session = false \/ products st !! productId = None ->
  snd (run (post_create_payment_intent now session productId couponCode affiliate) st)
  = st.
Proof.
  intros Hcase.
  unfold post_create_payment_intent, run, bind, authenticate, read, getProduct.
  destruct (truthy_opt_id session); [| reflexivity].
  destruct Hcase as [Hs | Hp]; [discriminate |].
  cbn beta iota zeta delta [ret]. rewrite Hp. reflexivity.
Qed.

Lemma incrementCouponUsage_within_ceiling (st : MemStorage) (coupon : Coupon) :
  coupons_within_ceiling st ->
  amap_get (coupon_id coupon) (coupons st) = Some coupon ->
  (forall m, maxUsage coupon = Some m -> m <> 0 -> usageCount coupon < m) ->
  coupons_within_ceiling (snd (incrementCouponUsage (coupon_id coupon) st)).
Proof.
  intros Hall Hget Hbelow. unfold incrementCouponUsage. rewrite Hget.
  unfold coupons_within_ceiling. cbn [snd coupons with_coupons].
  apply amap_set_Forall; [exact Hall |].
  unfold within_ceiling. cbn [snd maxUsage usageCount].
  destruct (maxUsage coupon) as [m |] eqn:Hm; [| exact I].
  intros Hnz. specialize (Hbelow m eq_refl Hnz). lia.
Qed.

Lemma findOneAndUpdate_first {D} (filter : D -> bool) (update : D -> D)
    (docs : list D) :
  match List.find filter docs with
  | Some d =>
      exists before after,
        docs = before ++ d :: after /\
        List.find filter before = None /\
        MongoDBStorage.findOneAndUpdate filter update docs
          = (Some (update d), before ++ update d :: after)
  | None => MongoDBStorage.findOneAndUpdate filter update docs = (None, docs)
  end.
Proof.
  induction docs as [| d docs IH]; cbn [List.find MongoDBStorage.findOneAndUpdate];
    [reflexivity |].
  destruct (filter d) eqn:Hd.
  - exists [], docs. repeat split.
  - destruct (List.find filter docs) as [d' |].
    + destruct IH as (before & after & -> & Hnone & ->).
      exists (d :: before), after. cbn [app List.find]. rewrite Hd.
      repeat split. exact Hnone.
    + rewrite IH. reflexivity.
Qed.

(** C9, amended. [incrementCouponUsage] is unconditional in both stores:
    whenever a coupon with the id exists, the stored coupon is replaced by
    one whose usage count is one higher, whatever the ceiling, every other
    coupon stays as it is and the new coupon is returned; a missing coupon
    leaves the store as it is.  The ceiling is guarded by the caller: over
    [MemStorage] the payment-intent route increments only a coupon it has
    just found below its ceiling, so a request keeps every coupon with a
    non-null, non-zero ceiling at or below it. *)
Theorem incrementCouponUsage_is_unconditional :
  (forall (st : MemStorage) (id : Z),
     match amap_get id (coupons st) with
     | Some coupon =>
         exists coupon',
           fst (incrementCouponUsage id st) = Some coupon' /\
           amap_get id (coupons (snd (incrementCouponUsage id st))) = Some coupon' /\
           (forall k, k <> id ->
              amap_get k (coupons (snd (incrementCouponUsage id st)))
              = amap_get k (coupons st)) /\
           usageCount coupon' = usageCount coupon + 1 /\
           maxUsage coupon' = maxUsage coupon
     | None => incrementCouponUsage id st = (None, st)
     end) /\
  (forall (docs : list Coupon) (id : Z),
     match List.find (fun c => coupon_id c =? id) docs with
     | Some coupon =>
         exists before after coupon',
           docs = before ++ coupon :: after /\
           List.find (fun c => coupon_id c =? id) before = None /\
           MongoDBStorage.incrementCouponUsage id docs
             = (Some coupon', before ++ coupon' :: after) /\
           coupon_id coupon' = coupon_id coupon /\
           usageCount coupon' = usageCount coupon + 1 /\
           maxUsage coupon' = maxUsage coupon
     | None => MongoDBStorage.incrementCouponUsage id docs = (None, docs)
     end) /\
  (forall (now : Z) (session : option Z) (productId : Z) (couponCode : option string)
          (affiliate : option Z) (st : MemStorage),
     coupons_keyed (coupons st) -> coupons_within_ceiling st ->
     coupons_within_ceiling
       (snd (run (post_create_payment_intent now session productId couponCode
                    affiliate) st))).
Proof.
  split; [| split].
  - intros st id. unfold incrementCouponUsage.
    destruct (amap_get id (coupons st)) as [coupon |]; [| reflexivity].
    cbn [fst snd coupons with_coupons]. eexists.
    split; [reflexivity |]. split; [apply amap_get_set |].
    split; [intros k Hne; apply amap_get_set_ne; exact Hne |]. split; reflexivity.
  - intros docs id. unfold MongoDBStorage.incrementCouponUsage.
    pose proof (findOneAndUpdate_first (fun c => coupon_id c =? id)
                  MongoDBStorage.inc_usageCount docs) as H.
    destruct (List.find (fun c => coupon_id c =? id) docs) as [coupon |]; [| exact H].
    destruct H as (before & after & Hdocs & Hnone & Hrun).
    exists before, after, (MongoDBStorage.inc_usageCount coupon).
    repeat split; assumption.
  - intros now session productId couponCode affiliate st Hkey Hall.
    destruct (truthy_opt_id session) eqn:Hs;
      [| rewrite post_create_payment_intent_refused by (left; exact Hs); exact Hall].
    destruct (products st !! productId) as [product |] eqn:Hp;
      [| rewrite post_create_payment_intent_refused by (right; exact Hp); exact Hall].
    rewrite (post_create_payment_intent_run _ _ _ _ _ _ _ Hs Hp). cbn [snd].
    unfold intent_store, applied_coupon.
    destruct (truthy_opt_string couponCode); [| exact Hall].
    destruct (getCouponByCode (default "" couponCode) st) as [coupon |] eqn:Hc;
      [| exact Hall].
    destruct (coupon_applies now coupon product) eqn:Happ; [| exact Hall].
    apply incrementCouponUsage_within_ceiling; [exact Hall | |].
    + apply (getCouponByCode_keyed _ _ _ Hkey Hc).
    + apply (coupon_applies_below_ceiling _ _ _ Happ).
Qed.

Lemma incrementCouponUsage_is_unconditional_witness :
  let st' := snd (run (post_create_payment_intent 0 (Some 3) 1 (Some "TWICE") None)
                    (shop_with_coupon coupon_one_left)) in
  coupons_within_ceiling st' /\ usageCount <$> amap_get 1 (coupons st') = Some 2.
Proof.
  split; [| reflexivity].
  apply (proj2 (proj2 incrementCouponUsage_is_unconditional)).
  - split; [repeat constructor |]. simpl. apply NoDup_singleton.
  - repeat constructor. unfold within_ceiling, coupon_one_left. simpl. lia.
Defined.

(** C9 as stated fails: a coupon used once with a ceiling of one is
    incremented to two, by [MemStorage] and by [MongoDBStorage] alike. *)
Lemma increment_passes_the_ceiling :
  maxUsage coupon_exhausted = Some 1 /\ usageCount coupon_exhausted = 1 /\
  (exists c st',
     incrementCouponUsage 1 (shop_with_coupon coupon_exhausted) = (Some c, st') /\
     amap_get 1 (coupons st') = Some c /\
     usageCount c = 2 /\ maxUsage c = Some 1 /\ ~ usageCount c <= 1) /\
  (exists c docs',
     MongoDBStorage.incrementCouponUsage 1 [coupon_exhausted] = (Some c, docs') /\
     docs' = [c] /\ usageCount c = 2 /\ maxUsage c = Some 1).
Proof.
  split; [reflexivity |]. split; [reflexivity |]. split.
  - eexists. eexists. split; [reflexivity |].
    split; [reflexivity |]. split; [reflexivity |]. split; [reflexivity |].
    simpl. lia.
  - eexists. eexists. split; [reflexivity |]. repeat split; reflexivity.
Qed.

(** The validation route accepts a coupon it finds exactly when it is valid
    in the words of section 4.1. *)
Lemma get_coupon_validate_spec (now : Z) (c : string) (coupon : Coupon)
    (product : Product) (st : MemStorage) :
  truthy_string c = true ->
  getCouponByCode c st = Some coupon ->
  statusCode (fst (run (get_coupon_validate now c (Some (product_id product))) st)) = 200
  <-> spec_coupon_valid now coupon product = true.
Proof.
  intros Hc Hf. unfold get_coupon_validate, run, bind, read.
  rewrite Hc. cbn [negb orb bool_decide decide_rel]. 
  rewrite bool_decide_eq_false_2 by discriminate.
  rewrite Hf. cbn [found ret default from_option id].
  unfold spec_coupon_valid.
  destruct (coupon_productId coupon) as [p |].
  - destruct (Z.eqb_spec p (product_id product)) as [-> | Hne]; cbn [negb andb].
    + destruct (maxUsage coupon) as [m |].
      * rewrite Z.leb_antisym. destruct (usageCount coupon <? m); cbn [negb andb].
        -- destruct (expiresAt coupon) as [e |]; [| cbn; tauto].
           rewrite Z.ltb_antisym. destruct (now <=? e); cbn; split; congruence.
        -- cbn; split; congruence.
      * destruct (expiresAt coupon) as [e |]; [| cbn; tauto].
        rewrite Z.ltb_antisym. destruct (now <=? e); cbn; split; congruence.
    + cbn; split; congruence.
  - destruct (maxUsage coupon) as [m |].
    + rewrite Z.leb_antisym. destruct (usageCount coupon <? m); cbn [negb andb].
      * destruct (expiresAt coupon) as [e |]; [| cbn; tauto].
        rewrite Z.ltb_antisym. destruct (now <=? e); cbn; split; congruence.
      * cbn; split; congruence.
    + destruct (expiresAt coupon) as [e |]; [| cbn; tauto].
      rewrite Z.ltb_antisym. destruct (now <=? e); cbn; split; congruence.
Qed.

(** The payment-intent route tests the same three conditions with
    truthiness: it agrees with section 4.1 on every coupon whose product
    scope and ceiling are not the number zero. *)
Lemma coupon_applies_spec (now : Z) (coupon : Coupon) (product : Product) :
  coupon_productId coupon <> Some 0 -> maxUsage coupon <> Some 0 ->
  coupon_applies now coupon product = spec_coupon_valid now coupon product.
Proof.
  intros Hp Hm. unfold coupon_applies, spec_coupon_valid.
  assert (Hscope :
    negb (truthy_opt_id (coupon_productId coupon))
    || bool_decide (coupon_productId coupon = Some (product_id product))
    = match coupon_productId coupon with
      | Some p => p =? product_id product
      | None => true
      end).
  { destruct (coupon_productId coupon) as [p |]; [| reflexivity].
    cbn [truthy_opt_id]. rewrite truthy_id_true by congruence. cbn [negb orb].
    destruct (Z.eqb_spec p (product_id product)) as [-> | Hne].
    - apply bool_decide_eq_true_2. reflexivity.
    - apply bool_decide_eq_false_2. congruence. }
  assert (Hceiling :
    negb (truthy_opt_id (maxUsage coupon))
    || match maxUsage coupon with
       | Some m => usageCount coupon <? m
       | None => false
       end
    = match maxUsage coupon with
      | Some m => usageCount coupon <? m
      | None => true
      end).
  { destruct (maxUsage coupon) as [m |]; [| reflexivity].
    cbn [truthy_opt_id]. rewrite truthy_id_true by congruence. reflexivity. }
  rewrite Hscope, Hceiling. reflexivity.
Qed.

Lemma Math_max_nonneg (x : Q) : (0 <= x)%Q -> Math_max 0 x = x.
Proof.
  intros Hx. unfold Math_max. now rewrite (proj2 (Qle_bool_iff 0 x) Hx).
Qed.

(** On a price that is not negative and a percentage of at most 100 the
    discounted amount is the clamped amount of section 4.1. *)
Lemma discounted_amount_spec (coupon : Coupon) (p : Q) :
  (0 <= p)%Q ->
  (coupon_type coupon = "percentage" -> (value coupon <= 100)%Q) ->
  (discounted_amount coupon p == spec_charged coupon p)%Q.
Proof.
  intros Hp Hv. unfold discounted_amount, spec_charged, spec_discount.
  destruct (String.eqb_spec (coupon_type coupon) "percentage") as [Ht | Ht];
    [| reflexivity].
  specialize (Hv Ht).
  assert (H0 : (0 <= p * (1 - value coupon / 100))%Q).
  { apply Qmult_le_0_compat; [exact Hp |].
    assert (value coupon / 100 <= 1)%Q; [| lra].
    apply Qle_shift_div_r; [reflexivity | lra]. }
  assert (Heq : (p - p * value coupon / 100 == p * (1 - value coupon / 100))%Q)
    by field.
  rewrite Math_max_nonneg; [symmetry; exact Heq |].
  rewrite Heq. exact H0.
Qed.

(** C4 at the two inputs where the payment-intent route parts from it.
    A coupon whose ceiling is the number 0 is invalid by the claim and is
    refused by the validation route, yet the payment-intent route applies
    it (100 is charged as 80.00) and counts the use.  A percentage coupon
    of 150 is valid; the claim charges max(0, 100 - 150) = 0, the route
    computes -50 and asks Stripe for -5000 cents. *)
Theorem coupon_evaluation_diverges :
  let product := mkProduct 1 1 100 10 "percentage" in
  (spec_coupon_valid 0 coupon_zero_ceiling product = false /\
   statusCode (fst (run (get_coupon_validate 0 "ZERO" (Some 1))
                      (shop_with_coupon coupon_zero_ceiling))) = 400 /\
   exists params st',
     run (post_create_payment_intent 0 (Some 3) 1 (Some "ZERO") None)
       (shop_with_coupon coupon_zero_ceiling)
     = (mkResponse 200 (JClientSecret params), st') /\
     params_amount params = 8000 /\
     usageCount <$> amap_get 1 (coupons st') = Some 1) /\
  (spec_coupon_valid 0 coupon_over_100 product = true /\
   (spec_charged coupon_over_100 (price product) == 0)%Q /\
   (charged_amount 0 (Some "OVER") product (shop_with_coupon coupon_over_100)
    == -50)%Q /\
   exists params st',
     run (post_create_payment_intent 0 (Some 3) 1 (Some "OVER") None)
       (shop_with_coupon coupon_over_100)
     = (mkResponse 200 (JClientSecret params), st') /\
     params_amount params = -5000).
Proof.
  split.
  - split; [reflexivity |]. split; [reflexivity |].
    eexists. eexists. split; [reflexivity |]. split; reflexivity.
  - split; [reflexivity |]. split; [reflexivity |]. split; [reflexivity |].
    eexists. eexists. split; reflexivity.
Qed.

(** * Proofs for the rest of the server *)

(** ** Middleware *)

(** X1. [authorize] never writes to the store.  It lets a request through
    exactly when the session names an existing user whose role is listed;
    without a session user it answers 401, otherwise 403. *)
Theorem authorize_passes_iff (roles : list string) (session : option Z)
    (st : MemStorage) :
  snd (authorize roles session st) = st /\
  (fst (authorize roles session st) = Next tt <->
   exists uid u, session = Some uid /\ uid <> 0 /\
                 users st !! uid = Some u /\ In (role u) roles) /\
  (truthy_opt_id session = false ->
   fst (authorize roles session st) = Respond (mkResponse 401 (JMessage "Unauthorized"))) /\
  (truthy_opt_id session = true ->
   fst (authorize roles session st) <> Next tt ->
   fst (authorize roles session st) = Respond (mkResponse 403 (JMessage "Forbidden"))).
Proof.
  unfold authorize, bind, read, getUser.
  destruct session as [uid |]; cbn [truthy_opt_id].
  - unfold truthy_id. destruct (Z.eqb_spec uid 0) as [-> | Hnz]; cbn [negb].
    + repeat split; try discriminate.
      intros (uid & u & [= <-] & Hnz & _). contradiction.
    + destruct (users st !! uid) as [u |] eqn:Hu.
      * destruct (existsb (String.eqb (role u)) roles) eqn:Hr.
        -- repeat split; try discriminate; try contradiction.
           intros _. exists uid, u. repeat split; try assumption.
           apply existsb_exists in Hr as (r & Hin & Heq).
           apply String.eqb_eq in Heq. now subst r.
        -- repeat split; try discriminate.
           intros (uid' & u' & [= <-] & _ & Hu' & Hin).
           rewrite Hu in Hu'. injection Hu' as <-.
           assert (existsb (String.eqb (role u)) roles = true)
             by (apply existsb_exists; exists (role u);
                 split; [exact Hin | apply String.eqb_refl]).
           congruence.
      * repeat split; try discriminate.
        intros (uid' & u' & [= <-] & _ & Hu' & _). congruence.
  - repeat split; try discriminate.
    intros (uid & u & Hs & _). discriminate.
Qed.

Lemma authorize_passes_iff_witness :
  fst (authorize ["vendor"; "admin"] (Some 1) shop) = Next tt /\
  fst (authorize ["vendor"; "admin"] (Some 3) shop)
  = Respond (mkResponse 403 (JMessage "Forbidden")).
Proof.
  destruct (authorize_passes_iff ["vendor"; "admin"] (Some 1) shop)
    as (_ & Hpass & _).
  destruct (authorize_passes_iff ["vendor"; "admin"] (Some 3) shop)
    as (_ & _ & _ & Hdeny).
  split.
  - apply Hpass. exists 1, (mkUser 1 "vendor" 0 (Some 2)).
    repeat split; [lia | simpl; auto].
  - apply Hdeny; [reflexivity | vm_compute; discriminate].
Defined.

(** ** The webhook beyond the sale record *)

(** X2. A payment event whose product, seller or seller's plan is missing
    is answered 400 with the matching message and changes nothing in the
    store: no balance, no sale. *)
Theorem webhook_missing_record_changes_nothing (st : MemStorage)
    (paymentIntent : PaymentIntent) :
  let event := payment_intent_succeeded paymentIntent in
  let metadata := pi_metadata paymentIntent in
  (products st !! md_productId metadata = None ->
   run (post_stripe_webhook event) st
   = (mkResponse 400 (JMessage "Product not found"), st)) /\
  (forall product,
     products st !! md_productId metadata = Some product ->
     users st !! md_sellerId metadata = None ->
     run (post_stripe_webhook event) st
     = (mkResponse 400 (JMessage "Seller not found"), st)) /\
  (forall product seller,
     products st !! md_productId metadata = Some product ->
     users st !! md_sellerId metadata = Some seller ->
     plans st !! seller_planId seller = None ->
     run (post_stripe_webhook event) st
     = (mkResponse 400 (JMessage "Plan not found"), st)).
Proof.
  intros event metadata. subst event metadata.
  unfold post_stripe_webhook, run, bind, read, getProduct, getUser, getPlan.
  split; [| split].
  - intros Hp. rewrite Hp. reflexivity.
  - intros product Hp Hs. rewrite Hp. cbn [found ret]. rewrite Hs. reflexivity.
  - intros product seller Hp Hs Hpl. rewrite Hp. cbn [found ret].
    rewrite Hs. cbn [found ret]. fold (seller_planId seller). rewrite Hpl.
    reflexivity.
Qed.

Lemma webhook_missing_record_changes_nothing_witness :
  run (post_stripe_webhook (purchase "pi_9" 7 10000 None)) shop
  = (mkResponse 400 (JMessage "Product not found"), shop).
Proof.
  apply (webhook_missing_record_changes_nothing shop
           (mkPaymentIntent "pi_9" 10000 (mkMetadata 7 3 1 None None))).
  reflexivity.
Defined.

Section SettlementFrame.

Variables (st : MemStorage) (paymentIntent : PaymentIntent).
Variables (product : Product) (seller : User) (plan : Plan).

Hypothesis Hproduct :
  products st !! md_productId (pi_metadata paymentIntent) = Some product.
Hypothesis Hseller :
  users st !! md_sellerId (pi_metadata paymentIntent) = Some seller.
Hypothesis Hplan : plans st !! seller_planId seller = Some plan.



End SettlementFrame.





Lemma Qmult_bounds (x r : Q) :
  (0 <= x)%Q -> (0 <= r)%Q -> (r <= 1)%Q -> (0 <= x * r)%Q /\ (x * r <= x)%Q.
Proof.
  intros Hx Hr0 Hr1. split; [apply Qmult_le_0_compat; assumption |].
  assert (H : (0 <= x * (1 - r))%Q) by (apply Qmult_le_0_compat; lra).
  lra.
Qed.

(** X7. For a payment that is not negative, a percentage commission
    between 0 and 100 and a plan fee between 0 and 100, every amount the
    webhook stores lies between 0 and the amount paid. *)
Theorem settled_amounts_within_the_payment (st : MemStorage)
    (paymentIntent : PaymentIntent) (product : Product) (seller : User) (plan : Plan) :
  products st !! md_productId (pi_metadata paymentIntent) = Some product ->
  users st !! md_sellerId (pi_metadata paymentIntent) = Some seller ->
  plans st !! seller_planId seller = Some plan ->
  0 <= pi_amount paymentIntent ->
  commissionType product = "percentage" ->
  (0 <= commissionRate product)%Q -> (commissionRate product <= 100)%Q ->
  (0 <= platformFeePercentage plan)%Q -> (platformFeePercentage plan <= 100)%Q ->
  exists s,
    sales (snd (run (post_stripe_webhook (payment_intent_succeeded paymentIntent)) st))
      !! currentSaleId st = Some s /\
    (0 <= affiliateAmount s)%Q /\ (affiliateAmount s <= amount s)%Q /\
    (0 <= platformFee s)%Q /\ (platformFee s <= amount s)%Q /\
    (0 <= sellerAmount s)%Q /\ (sellerAmount s <= amount s)%Q.
Proof.
  intros Hp Hs Hpl Hamt Hty Hr0 Hr1 Hf0 Hf1.
  settle Hp Hs Hpl. rewrite lookup_insert_eq. eexists. split; [reflexivity |].
  cbn [settled_sale amount sellerAmount affiliateAmount platformFee].
  set (x := intent_amount paymentIntent).
  set (aff := md_affiliateId (pi_metadata paymentIntent)).
  assert (Hx : (0 <= x)%Q).
  { subst x. unfold intent_amount. apply Qle_shift_div_l; [reflexivity |].
    rewrite Qmult_0_l. change 0%Q with (inject_Z 0).
    rewrite <- Zle_Qle. exact Hamt. }
  assert (Haff : (0 <= settled_affiliateAmount product aff x)%Q
                 /\ (settled_affiliateAmount product aff x <= x)%Q).
  { unfold settled_affiliateAmount. destruct (truthy_opt_id aff); [| lra].
    rewrite Hty. cbn [String.eqb Ascii.eqb Bool.eqb].
    destruct (Qmult_bounds x (commissionRate product / 100 * 0.96) Hx) as [H0 H1].
    - assert (0 <= commissionRate product / 100)%Q
        by (apply Qle_shift_div_l; [reflexivity | lra]). lra.
    - assert (commissionRate product / 100 <= 1)%Q
        by (apply Qle_shift_div_r; [reflexivity | lra]). lra.
    - split; lra. }
  destruct Haff as [Ha0 Ha1].
  set (a := settled_affiliateAmount product aff x) in *.
  assert (Hb : (settled_sellerAmountBeforeFee product aff x == x - a)%Q).
  { unfold settled_sellerAmountBeforeFee. subst a. unfold settled_affiliateAmount.
    destruct (truthy_opt_id aff); ring. }
  assert (Hfee : (settled_platformFee product plan aff x
                  == (x - a) * (platformFeePercentage plan / 100))%Q)
    by (unfold settled_platformFee; rewrite Hb; reflexivity).
  assert (Hsel : (settled_sellerAmount product plan aff x
                  == (x - a) - settled_platformFee product plan aff x)%Q)
    by (unfold settled_sellerAmount; rewrite Hb; reflexivity).
  destruct (Qmult_bounds (x - a) (platformFeePercentage plan / 100))
    as [Hf_lo Hf_hi]; [lra | | |].
  - apply Qle_shift_div_l; [reflexivity | lra].
  - apply Qle_shift_div_r; [reflexivity | lra].
  - rewrite Hsel, Hfee. repeat split; lra.
Qed.

Lemma settled_amounts_within_the_payment_witness :
  exists s,
    sales shop_after_delivery !! 1 = Some s /\
    (0 <= sellerAmount s)%Q /\ (sellerAmount s <= amount s)%Q.
Proof.
  destruct (settled_amounts_within_the_payment shop
              (mkPaymentIntent "pi_1" 10000 (mkMetadata 1 3 1 (Some 2) None))
              (mkProduct 1 1 100 10 "percentage") (mkUser 1 "vendor" 0 (Some 2))
              (mkPlan 2 "Start" 5) eq_refl eq_refl eq_refl)
    as (s & Hs & _ & _ & _ & _ & H0 & H1);
    [simpl; lia | reflexivity | vm_compute; discriminate | vm_compute; discriminate
    | vm_compute; discriminate | vm_compute; discriminate |].
  exists s. repeat split; assumption.
Defined.

(** ** Payment intents *)





(** X9. A payment intent asked for with a coupon that applies uses the
    coupon up at once: its usage count goes up by one although no sale
    exists yet and no balance has moved, and no other coupon changes. *)
Theorem intent_consumes_a_coupon_use (now : Z) (session : option Z)
    (productId : Z) (c : string) (affiliate : option Z) (product : Product)
    (coupon : Coupon) (st : MemStorage) :
  truthy_opt_id session = true ->
  products st !! productId = Some product ->
  truthy_string c = true ->
  getCouponByCode c st = Some coupon ->
  coupon_applies now coupon product = true ->
  coupons_keyed (coupons st) ->
  let st' :=
    snd (run (post_create_payment_intent now session productId (Some c) affiliate) st) in
  users st' = users st /\ sales st' = sales st /\ products st' = products st /\
  (exists coupon',
     amap_get (coupon_id coupon) (coupons st') = Some coupon' /\
     usageCount coupon' = usageCount coupon + 1) /\
  (forall k, k <> coupon_id coupon ->
             amap_get k (coupons st') = amap_get k (coupons st)).
Proof.
  intros Hs Hp Hc Hf Happ Hkey st'. subst st'.
  rewrite (post_create_payment_intent_run _ _ _ _ _ _ _ Hs Hp). cbn [snd].
  unfold intent_store, applied_coupon. cbn [truthy_opt_string default from_option id].
  rewrite Hc, Hf, Happ.
  destruct (getCouponByCode_keyed _ _ _ Hkey Hf) as [Hget _].
  unfold incrementCouponUsage. rewrite Hget.
  cbn [snd users sales products coupons with_coupons].
  repeat split.
  - eexists. split; [apply amap_get_set | reflexivity].
  - intros k Hne. apply amap_get_set_ne. exact Hne.
Qed.

Lemma intent_consumes_a_coupon_use_witness :
  let st' := snd (run (post_create_payment_intent 0 (Some 3) 1 (Some "TWICE") None)
                    (shop_with_coupon coupon_one_left)) in
  sales st' = sales (shop_with_coupon coupon_one_left) /\
  exists coupon', amap_get 1 (coupons st') = Some coupon' /\ usageCount coupon' = 1 + 1.
Proof.
  destruct (intent_consumes_a_coupon_use 0 (Some 3) 1 "TWICE" None
              (mkProduct 1 1 100 10 "percentage") coupon_one_left
              (shop_with_coupon coupon_one_left) eq_refl eq_refl eq_refl eq_refl eq_refl)
    as (_ & Hsales & _ & Huse & _).
  - split; [repeat constructor |]. simpl. apply NoDup_singleton.
  - split; [exact Hsales | exact Huse].
Defined.

(** ** Withdrawals, continued *)

(** X11. The status route refuses without writing: a status outside
    pending, completed and rejected is answered 400, an unknown withdrawal
    404, and a session user who is not an admin 403; in each case the
    store is unchanged. *)
Theorem status_route_refusals (st : MemStorage) (uid wid : Z) (u : User)
    (status : string) (tid : option string) :
  uid <> 0 -> users st !! uid = Some u ->
  let res := run (put_withdrawal_status (Some uid) wid status tid) st in
  (role u <> "admin" -> res = (mkResponse 403 (JMessage "Forbidden"), st)) /\
  (role u = "admin" ->
   status <> "pending" -> status <> "completed" -> status <> "rejected" ->
   res = (mkResponse 400 (JMessage "Invalid status"), st)) /\
  (role u = "admin" ->
   status = "pending" \/ status = "completed" \/ status = "rejected" ->
   withdrawals st !! wid = None ->
   res = (mkResponse 404 (JMessage "Withdrawal not found"), st)).
Proof.
  intros Hn Hu res. subst res.
  unfold put_withdrawal_status, run, bind.
  rewrite (authenticate_ok _ _ Hn).
  split; [| split].
  - intros Hrole. unfold authorize, bind, read, getUser.
    rewrite (truthy_id_true _ Hn). cbn beta iota. rewrite Hu.
    cbn [existsb orb].
    destruct (String.eqb_spec (role u) "admin") as [He | _]; [contradiction |].
    reflexivity.
  - intros Hrole H1 H2 H3.
    rewrite (authorize_ok ["admin"] uid u st Hn Hu)
      by (rewrite Hrole; reflexivity).
    cbn [existsb].
    destruct (String.eqb_spec status "pending") as [? | _]; [contradiction |].
    destruct (String.eqb_spec status "completed") as [? | _]; [contradiction |].
    destruct (String.eqb_spec status "rejected") as [? | _]; [contradiction |].
    cbn [orb negb]. rewrite orb_true_r. reflexivity.
  - intros Hrole Hs Hw.
    rewrite (authorize_ok ["admin"] uid u st Hn Hu)
      by (rewrite Hrole; reflexivity).
    rewrite (status_allowed _ Hs).
    unfold call, updateWithdrawalStatus. rewrite Hw. reflexivity.
Qed.

Lemma status_route_refusals_witness :
  run (put_withdrawal_status (Some 1) 1 "rejected" None) shop_after_rejection
  = (mkResponse 403 (JMessage "Forbidden"), shop_after_rejection).
Proof.
  apply (status_route_refusals shop_after_rejection 1 1
           (mkUser 1 "vendor" 100 (Some 2)) "rejected" None);
    [lia | reflexivity | discriminate].
Defined.

(** X12. A transfer reference, once recorded on a withdrawal, survives
    later status updates that carry none or an empty one; owner and amount
    of a withdrawal never change under status updates. *)
Theorem transfer_reference_is_kept (st : MemStorage) (id : Z) (w : Withdrawal)
    (status1 status2 t : string) (tid2 : option string) :
  withdrawals st !! id = Some w ->
  truthy_string t = true ->
  truthy_opt_string tid2 = false ->
  let st1 := snd (updateWithdrawalStatus id status1 (Some t) st) in
  let st2 := snd (updateWithdrawalStatus id status2 tid2 st1) in
  exists w2,
    withdrawals st2 !! id = Some w2 /\
    stripeTransferId w2 = Some t /\ withdrawal_status w2 = status2 /\
    userId w2 = userId w /\ withdrawal_amount w2 = withdrawal_amount w /\
    users st2 = users st.
Proof.
  intros Hw Ht Ht2 st1 st2.
  set (w1 := updated_withdrawal w status1 (Some t)).
  assert (H1 : st1 = with_withdrawals st (<[id := w1]> (withdrawals st))
                       (currentWithdrawalId st)).
  { subst st1. unfold updateWithdrawalStatus. rewrite Hw. reflexivity. }
  assert (Hw1 : withdrawals st1 !! id = Some w1)
    by (rewrite H1; apply lookup_insert_eq).
  assert (H2 : st2 = with_withdrawals st1
                       (<[id := updated_withdrawal w1 status2 tid2]> (withdrawals st1))
                       (currentWithdrawalId st1)).
  { subst st2. unfold updateWithdrawalStatus. rewrite Hw1. reflexivity. }
  rewrite H2. cbn [withdrawals users with_withdrawals].
  rewrite lookup_insert_eq. eexists. split; [reflexivity |].
  unfold updated_withdrawal at 1. rewrite Ht2.
  cbn [stripeTransferId withdrawal_status userId withdrawal_amount w1
       updated_withdrawal truthy_opt_string].
  rewrite Ht. rewrite H1. repeat split; reflexivity.
Qed.

Lemma transfer_reference_is_kept_witness :
  exists w2,
    withdrawals
      (snd (updateWithdrawalStatus 1 "completed" None
              (snd (updateWithdrawalStatus 1 "completed" (Some "tr_1")
                      shop_after_rejection)))) !! 1 = Some w2 /\
    stripeTransferId w2 = Some "tr_1".
Proof.
  destruct (transfer_reference_is_kept shop_after_rejection 1
              (mkWithdrawal 1 1 50 "rejected" None) "completed" "completed" "tr_1" None
              eq_refl eq_refl eq_refl)
    as (w2 & Hw & Ht & _).
  exists w2. split; assumption.
Defined.

(** ** Sales in the store *)

Lemma In_values {V} (m : gmap Z V) (v : V) :
  In v (values m) <-> exists k, m !! k = Some v.
Proof.
  unfold values. rewrite in_map_iff. split.
  - intros ([k v'] & Hv & Hin). cbn in Hv. subst v'.
    exists k. apply elem_of_map_to_list, list_elem_of_In, Hin.
  - intros [k Hk]. exists (k, v). split; [reflexivity |].
    apply list_elem_of_In, elem_of_map_to_list, Hk.
Qed.

(** X13. [createSale] stores the new sale under the next id, where
    [getSale] finds it again; in a store whose sales all sit below the
    counter it overwrites nothing: every earlier sale is still found, the
    number of sales grows by one, and the counter stays above every id.
    No balance moves. *)
Theorem createSale_adds_one_sale (sale : InsertSale) (st : MemStorage) :
  sales_fresh st ->
  let created := fst (createSale sale st) in
  let st' := snd (createSale sale st) in
  sale_id created = currentSaleId st /\
  getSale (sale_id created) st' = Some created /\
  (forall k s, getSale k st = Some s -> getSale k st' = Some s) /\
  size (sales st') = S (size (sales st)) /\
  sales_fresh st' /\ users st' = users st.
Proof.
  intros Hfresh created st'. subst created st'.
  unfold createSale, getSale. cbn [fst snd sale_id sales users with_sales currentSaleId].
  assert (Hnone : sales st !! currentSaleId st = None).
  { destruct (sales st !! currentSaleId st) eqn:Hk; [| reflexivity].
    pose proof (Hfresh _ _ Hk). cbn beta in *. lia. }
  split; [reflexivity |]. split; [apply lookup_insert_eq |].
  split; [| split; [| split; [| reflexivity]]].
  - intros k s Hk. rewrite lookup_insert_ne; [exact Hk |]. congruence.
  - apply map_size_insert_None. exact Hnone.
  - unfold sales_fresh. cbn [sales currentSaleId with_sales].
    apply map_Forall_insert_2; [lia |].
    intros k s Hk. pose proof (Hfresh _ _ Hk). cbn beta in *. lia.
Qed.

Lemma createSale_adds_one_sale_witness :
  size (sales (snd (createSale
                      (mkInsertSale 1 3 1 None 100 94 0 6 "completed" "stripe" "pi_7")
                      shop_after_delivery)))
  = S (size (sales shop_after_delivery)).
Proof.
  apply (createSale_adds_one_sale
           (mkInsertSale 1 3 1 None 100 94 0 6 "completed" "stripe" "pi_7")
           shop_after_delivery).
  apply (bool_decide_unpack _). vm_compute. exact I.
Defined.

(** ** Who sees which records *)

Lemma get_sales_run (st : MemStorage) (uid : Z) (u : User) :
  uid <> 0 -> users st !! uid = Some u ->
  get_sales (Some uid) st =
  (Next (200,
         PSales
           (if String.eqb (role u) "admin" then
              flat_map (fun user => listSalesByUser (user_id user) as_buyer st)
                (listUsers st)
            else if String.eqb (role u) "vendor" then listSalesByUser uid as_seller st
            else if String.eqb (role u) "affiliate"
                 then listSalesByUser uid as_affiliate st
            else listSalesByUser uid as_buyer st)), st).
Proof.
  intros Hn Hu. unfold get_sales, bind. rewrite (authenticate_ok _ _ Hn).
  unfold read, getUser. cbn [default from_option id]. rewrite Hu. cbn [found ret].
  destruct (String.eqb (role u) "admin"); [reflexivity |].
  destruct (String.eqb (role u) "vendor"); [reflexivity |].
  destruct (String.eqb (role u) "affiliate"); reflexivity.
Qed.

Lemma In_listSalesByUser (uid : Z) (r : SaleRole) (st : MemStorage) (s : Sale) :
  In s (listSalesByUser uid r st) <->
  (exists k, sales st !! k = Some s) /\ sale_of_user uid r s = true.
Proof. unfold listSalesByUser. rewrite filter_In, In_values. reflexivity. Qed.

(** X14. [GET /api/sales] shows a user who is not an admin the sales of
    one side only: a vendor gets exactly the stored sales whose seller is
    the vendor, an affiliate exactly those referred by the affiliate, and
    anyone else exactly the purchases made under the own id. *)
Theorem sales_listing_is_scoped_to_the_user (st : MemStorage) (uid : Z) (u : User) :
  uid <> 0 -> users st !! uid = Some u -> role u <> "admin" ->
  exists l,
    get_sales (Some uid) st = (Next (200, PSales l), st) /\
    forall s,
      In s l <->
      (exists k, sales st !! k = Some s) /\
      (if String.eqb (role u) "vendor" then sale_sellerId s = uid
       else if String.eqb (role u) "affiliate" then affiliateId s = Some uid
       else buyerId s = uid).
Proof.
  intros Hn Hu Hrole. rewrite (get_sales_run _ _ _ Hn Hu).
  destruct (String.eqb_spec (role u) "admin") as [? | _]; [contradiction |].
  eexists. split; [reflexivity |]. intros s.
  destruct (String.eqb (role u) "vendor");
    [| destruct (String.eqb (role u) "affiliate")];
    rewrite In_listSalesByUser; cbn [sale_of_user].
  - rewrite Z.eqb_eq. reflexivity.
  - destruct (affiliateId s) as [a |].
    + rewrite Z.eqb_eq. split; intros [Hk Ha]; (split; [exact Hk | congruence]).
    + split; intros [Hk Ha]; discriminate.
  - rewrite Z.eqb_eq. reflexivity.
Qed.

Lemma sales_listing_is_scoped_to_the_user_witness :
  exists l,
    get_sales (Some 2) shop_after_delivery
    = (Next (200, PSales l), shop_after_delivery) /\
    forall s, In s l -> affiliateId s = Some 2.
Proof.
  destruct (sales_listing_is_scoped_to_the_user shop_after_delivery 2
              (credit (mkUser 2 "affiliate" 0 (Some 1))
                 (settled_affiliateAmount (mkProduct 1 1 100 10 "percentage") (Some 2)
                    (inject_Z 10000 / 100))))
    as (l & Hrun & Hin); [lia | reflexivity | discriminate |].
  exists l. split; [exact Hrun |]. intros s Hs. apply Hin in Hs as [_ Hs]. exact Hs.
Defined.

(** X15. [GET /api/sales] shows an admin the purchases of every listed
    user: in a store where users sit under their own ids, exactly the
    stored sales whose buyer id is a registered user, so a sale settled
    for a buyer id that names no user is not shown. *)
Theorem admin_sees_sales_of_registered_buyers (st : MemStorage) (uid : Z) (u : User) :
  uid <> 0 -> users st !! uid = Some u -> role u = "admin" ->
  users_keyed st ->
  exists l,
    get_sales (Some uid) st = (Next (200, PSales l), st) /\
    forall s,
      In s l <->
      (exists k, sales st !! k = Some s) /\ is_Some (users st !! buyerId s).
Proof.
  intros Hn Hu Hrole Hk. rewrite (get_sales_run _ _ _ Hn Hu), Hrole.
  cbn [String.eqb Ascii.eqb Bool.eqb].
  eexists. split; [reflexivity |]. intros s.
  rewrite in_flat_map. split.
  - intros (buyer & Hb & Hs). apply In_listSalesByUser in Hs as [Hst Hbuy].
    cbn [sale_of_user] in Hbuy. apply Z.eqb_eq in Hbuy.
    apply In_values in Hb as [k Hb]. split; [exact Hst |].
    rewrite Hbuy, (Hk _ _ Hb). eauto.
  - intros [Hst [buyer Hb]]. exists buyer. split.
    + apply In_values. eauto.
    + apply In_listSalesByUser. split; [exact Hst |].
      cbn [sale_of_user]. apply Z.eqb_eq. symmetry. apply (Hk _ _ Hb).
Qed.

Lemma admin_sees_sales_of_registered_buyers_witness :
  exists l,
    get_sales (Some 9) shop_after_delivery
    = (Next (200, PSales l), shop_after_delivery) /\
    exists s, In s l /\ buyerId s = 3.
Proof.
  destruct (admin_sees_sales_of_registered_buyers shop_after_delivery 9
              (mkUser 9 "admin" 0 (Some 1)))
    as (l & Hrun & Hin);
    [lia | reflexivity | reflexivity
    | apply (bool_decide_unpack _); vm_compute; exact I |].
  exists l. split; [exact Hrun |].
  exists (settled_sale 1 (mkPaymentIntent "pi_1" 10000 (mkMetadata 1 3 1 (Some 2) None))
            (mkProduct 1 1 100 10 "percentage") (mkPlan 2 "Start" 5)).
  split; [| reflexivity].
  apply Hin. split; [exists 1; reflexivity | eexists; reflexivity].
Defined.

Lemma In_listWithdrawalsByUser (uid : Z) (st : MemStorage) (w : Withdrawal) :
  In w (listWithdrawalsByUser uid st) <->
  (exists k, withdrawals st !! k = Some w) /\ userId w = uid.
Proof.
  unfold listWithdrawalsByUser. rewrite filter_In, In_values, Z.eqb_eq. reflexivity.
Qed.

(** X16. [GET /api/withdrawals] shows a user who is not an admin exactly
    the stored withdrawals of that user; an admin gets, in a store where
    users sit under their own ids, exactly the withdrawals whose owner is
    a registered user.  The route writes nothing. *)
Theorem withdrawals_listing_is_scoped (st : MemStorage) (uid : Z) (u : User) :
  uid <> 0 -> users st !! uid = Some u ->
  exists l,
    get_withdrawals (Some uid) st = (Next (200, PWithdrawals l), st) /\
    (role u <> "admin" ->
     forall w, In w l <-> (exists k, withdrawals st !! k = Some w) /\ userId w = uid) /\
    (role u = "admin" -> users_keyed st ->
     forall w, In w l <-> (exists k, withdrawals st !! k = Some w)
                          /\ is_Some (users st !! userId w)).
Proof.
  intros Hn Hu. unfold get_withdrawals, bind. rewrite (authenticate_ok _ _ Hn).
  unfold read, getUser. cbn [default from_option id]. rewrite Hu. cbn [found ret].
  destruct (String.eqb_spec (role u) "admin") as [Hadmin | Hother].
  - eexists. split; [reflexivity |]. split; [contradiction |].
    intros _ Hk w. rewrite in_flat_map. split.
    + intros (owner & Ho & Hw). apply In_listWithdrawalsByUser in Hw as [Hst Hown].
      apply In_values in Ho as [k Ho]. split; [exact Hst |].
      rewrite Hown, (Hk _ _ Ho). eauto.
    + intros [Hst [owner Ho]]. exists owner. split; [apply In_values; eauto |].
      apply In_listWithdrawalsByUser. split; [exact Hst |].
      symmetry. apply (Hk _ _ Ho).
  - eexists. split; [reflexivity |]. split; [| contradiction].
    intros _ w. apply In_listWithdrawalsByUser.
Qed.

Lemma withdrawals_listing_is_scoped_witness :
  exists l,
    get_withdrawals (Some 2) shop_after_rejection
    = (Next (200, PWithdrawals l), shop_after_rejection) /\
    forall w, In w l -> userId w = 2.
Proof.
  destruct (withdrawals_listing_is_scoped shop_after_rejection 2
              (mkUser 2 "affiliate" 0 (Some 1)))
    as (l & Hrun & Hown & _); [lia | reflexivity |].
  exists l. split; [exact Hrun |].
  intros w Hw. apply (Hown ltac:(discriminate)) in Hw as [_ Hw]. exact Hw.
Defined.

(** ** Products *)

Lemma product_route_guard (uid : Z) (product : Product) :
  bool_decide (Some (product_sellerId product) = Some uid)
  = bool_decide (product_sellerId product = uid).
Proof. apply bool_decide_ext. split; congruence. Qed.

(** X17. [DELETE /api/products/:id] removes a product only for its seller:
    anyone else gets 403 and an unknown id 404, with the store unchanged.
    After the seller's delete the product is gone and the others remain;
    a payment event that arrives for it afterwards is answered 400 and
    settles nothing. *)
Theorem deleted_product_is_never_settled (st : MemStorage) (uid productId : Z)
    (product : Product) (paymentIntent : PaymentIntent) :
  uid <> 0 -> products st !! productId = Some product ->
  let deleted := delete_product (Some uid) productId st in
  (product_sellerId product <> uid ->
   deleted = (Respond (mkResponse 403 (JMessage "Forbidden")), st)) /\
  (product_sellerId product = uid ->
   fst deleted = Next (204, PNoContent) /\
   getProduct productId (snd deleted) = None /\
   (forall k, k <> productId -> getProduct k (snd deleted) = getProduct k st) /\
   users (snd deleted) = users st /\
   (md_productId (pi_metadata paymentIntent) = productId ->
    run (post_stripe_webhook (payment_intent_succeeded paymentIntent)) (snd deleted)
    = (mkResponse 400 (JMessage "Product not found"), snd deleted))).
Proof.
  intros Hn Hp deleted. subst deleted.
  unfold delete_product, bind. rewrite (authenticate_ok _ _ Hn).
  unfold read, getProduct. rewrite Hp. cbn [found ret].
  rewrite (product_route_guard uid product).
  split.
  - intros Hne. rewrite bool_decide_eq_false_2 by exact Hne. reflexivity.
  - intros Heq. rewrite bool_decide_eq_true_2 by exact Heq.
    cbn [negb]. unfold call, deleteProduct, ret.
    cbn [fst snd products users with_products].
    split; [reflexivity |]. split; [apply lookup_delete_eq |].
    split; [intros k Hne; apply lookup_delete_ne; congruence |].
    split; [reflexivity |].
    intros Hpid. unfold post_stripe_webhook, run, bind, read, getProduct.
    rewrite Hpid. cbn [products with_products]. rewrite lookup_delete_eq.
    reflexivity.
Qed.

Lemma deleted_product_is_never_settled_witness :
  run (post_stripe_webhook (purchase "pi_1" 1 10000 (Some 2)))
    (snd (delete_product (Some 1) 1 shop))
  = (mkResponse 400 (JMessage "Product not found"),
     snd (delete_product (Some 1) 1 shop)).
Proof.
  destruct (deleted_product_is_never_settled shop 1 1
              (mkProduct 1 1 100 10 "percentage")
              (mkPaymentIntent "pi_1" 10000 (mkMetadata 1 3 1 (Some 2) None)))
    as [_ Hgone]; [lia | reflexivity |].
  destruct (Hgone eq_refl) as (_ & _ & _ & _ & Hhook).
  apply Hhook. reflexivity.
Defined.

(** X18. [PUT /api/products/:id] merges the whole body into the product
    for its seller and refuses everyone else with 403.  The body may name
    another seller: the product then belongs to that seller, whose
    settlements it feeds, and the former seller can no longer update
    it. *)
Theorem product_update_can_hand_over_the_product (st : MemStorage)
    (uid other productId : Z) (product : Product) (body body' : PartialProduct) :
  uid <> 0 -> products st !! productId = Some product ->
  let updated := put_product (Some uid) productId body st in
  (product_sellerId product <> uid ->
   updated = (Respond (mkResponse 403 (JMessage "Forbidden")), st)) /\
  (product_sellerId product = uid ->
   fst updated = Next (200, PProduct (Some (merge_product product body))) /\
   getProduct productId (snd updated) = Some (merge_product product body) /\
   (forall k, k <> productId -> getProduct k (snd updated) = getProduct k st) /\
   (set_sellerId body = Some other -> other <> uid ->
    put_product (Some uid) productId body' (snd updated)
    = (Respond (mkResponse 403 (JMessage "Forbidden")), snd updated))).
Proof.
  intros Hn Hp updated. subst updated.
  unfold put_product, bind. rewrite (authenticate_ok _ _ Hn).
  unfold read, getProduct. rewrite Hp. cbn [found ret].
  rewrite (product_route_guard uid product).
  split.
  - intros Hne. rewrite bool_decide_eq_false_2 by exact Hne. reflexivity.
  - intros Heq. rewrite bool_decide_eq_true_2 by exact Heq.
    cbn [negb]. unfold call, updateProduct, ret. rewrite Hp.
    cbn [fst snd products with_products].
    split; [reflexivity |]. split; [apply lookup_insert_eq |].
    split; [intros k Hne; apply lookup_insert_ne; congruence |].
    intros Hset Hne. rewrite (authenticate_ok _ _ Hn).
    cbn [products with_products]. rewrite lookup_insert_eq. cbn [found ret].
    rewrite (product_route_guard uid _).
    rewrite bool_decide_eq_false_2; [reflexivity |].
    unfold merge_product. cbn [product_sellerId]. rewrite Hset. exact Hne.
Qed.

Lemma product_update_can_hand_over_the_product_witness :
  let body := mkPartialProduct None (Some 2) None None None in
  put_product (Some 1) 1 body (snd (put_product (Some 1) 1 body shop))
  = (Respond (mkResponse 403 (JMessage "Forbidden")),
     snd (put_product (Some 1) 1 body shop)).
Proof.
  destruct (product_update_can_hand_over_the_product shop 1 2 1
              (mkProduct 1 1 100 10 "percentage")
              (mkPartialProduct None (Some 2) None None None)
              (mkPartialProduct None (Some 2) None None None))
    as [_ Hown]; [lia | reflexivity |].
  destruct (Hown eq_refl) as (_ & _ & _ & Hagain).
  apply Hagain; [reflexivity | lia].
Defined.

(** ** Coupons, continued *)

Lemma amap_set_fresh {V} (k : Z) (v : V) (l : list (Z * V)) :
  Forall (fun kv => fst kv <> k) l -> amap_set k v l = l ++ [(k, v)].
Proof.
  induction 1 as [| [j w] l Hj _ IH]; [reflexivity |].
  cbn [amap_set app]. cbn in Hj.
  rewrite (proj2 (Z.eqb_neq j k) Hj), IH. reflexivity.
Qed.

Lemma find_app_none {A} (f : A -> bool) (l1 l2 : list A) :
  List.find f l1 = None -> List.find f (l1 ++ l2) = List.find f l2.
Proof.
  induction l1 as [| x l1 IH]; [reflexivity |].
  cbn [List.find app]. destruct (f x); [discriminate | exact IH].
Qed.

(** X19. [POST /api/coupons] refuses a code that is already stored with
    400 and writes nothing.  A new code is stored for the session user
    with a usage count of 0 and is found again by its code; codes stay
    unique, each coupon stays under its own id, and the ids stay below
    the counter. *)
Theorem coupon_codes_stay_unique (st : MemStorage) (uid : Z) (u : User)
    (body : InsertCoupon) :
  uid <> 0 -> users st !! uid = Some u ->
  role u = "vendor" \/ role u = "admin" ->
  codes_unique st -> coupons_keyed (coupons st) -> coupons_fresh st ->
  let created := post_coupons (Some uid) body st in
  (is_Some (getCouponByCode (ic_code body) st) ->
   created = (Respond (mkResponse 400 (JMessage "Coupon code already exists")), st)) /\
  (getCouponByCode (ic_code body) st = None ->
   exists coupon,
     fst created = Next (201, PCoupon coupon) /\
     coupon_sellerId coupon = uid /\ code coupon = ic_code body /\
     usageCount coupon = 0 /\
     getCouponByCode (ic_code body) (snd created) = Some coupon /\
     codes_unique (snd created) /\ coupons_keyed (coupons (snd created)) /\
     coupons_fresh (snd created)).
Proof.
  intros Hn Hu Hr Huniq [Hkey Hnd] Hfresh created. subst created.
  assert (Hroles : existsb (String.eqb (role u)) ["vendor"; "admin"] = true)
    by (destruct Hr as [-> | ->]; reflexivity).
  unfold post_coupons, bind.
  rewrite (authenticate_ok _ _ Hn), (authorize_ok _ _ _ _ Hn Hu Hroles).
  unfold read. cbn [ic_code default from_option id].
  split.
  - intros [c Hc]. rewrite Hc. reflexivity.
  - intros Hnone. rewrite Hnone. unfold call, createCoupon, ret.
    assert (Hkeys : Forall (fun kc : Z * Coupon => fst kc <> currentCouponId st)
                      (coupons st)).
    { eapply Forall_impl; [exact Hfresh |]. cbn. intros kc Hlt. lia. }
    rewrite (amap_set_fresh _ _ _ Hkeys).
    cbn [fst snd ic_sellerId ic_code ic_type ic_value ic_productId ic_maxUsage
         ic_expiresAt].
    eexists. split; [reflexivity |].
    cbn [coupon_sellerId code usageCount].
    do 3 (split; [reflexivity |]).
    assert (Hcodes : forall kc, In kc (coupons st) -> code (snd kc) <> ic_code body).
    { intros [k c] Hin Heq. unfold getCouponByCode in Hnone.
      assert (Hc : In c (map snd (coupons st)))
        by (apply in_map_iff; exists (k, c); auto).
      pose proof (find_none _ _ Hnone c Hc) as Hf. cbn in Heq, Hf.
      rewrite Heq, String.eqb_refl in Hf. discriminate. }
    split; [| split; [| split]].
    + unfold getCouponByCode in *. cbn [coupons with_new_coupon].
      rewrite map_app, (find_app_none _ _ _ Hnone). cbn [map snd List.find code].
      rewrite String.eqb_refl. reflexivity.
    + unfold codes_unique in *. cbn [coupons with_new_coupon].
      rewrite map_app. apply NoDup_app. split; [exact Huniq |].
      split; [| apply NoDup_singleton].
      intros c Hc Hnew. cbn in Hnew. apply list_elem_of_singleton in Hnew.
      apply list_elem_of_In, in_map_iff in Hc as (kc & Hkc & Hin).
      apply (Hcodes _ Hin). congruence.
    + cbn [coupons with_new_coupon]. split.
      * apply Forall_app. split; [exact Hkey |]. repeat constructor.
      * rewrite map_app. apply NoDup_app. split; [exact Hnd |].
        split; [| apply NoDup_singleton].
        intros k Hk Hnew. cbn in Hnew. apply list_elem_of_singleton in Hnew.
        apply list_elem_of_In, in_map_iff in Hk as (kc & Hkc & Hin).
        rewrite List.Forall_forall in Hkeys. apply (Hkeys _ Hin). congruence.
    + unfold coupons_fresh in *. cbn [coupons currentCouponId with_new_coupon].
      apply Forall_app. split.
      * eapply Forall_impl; [exact Hfresh |]. cbn. intros kc Hlt. lia.
      * repeat constructor. cbn. lia.
Qed.

Lemma coupon_codes_stay_unique_witness :
  let body := mkInsertCoupon 0 "ONCE" "fixed" 5 None None None in
  post_coupons (Some 1) body
    (with_new_coupon shop [(1, coupon_exhausted)] 2)
  = (Respond (mkResponse 400 (JMessage "Coupon code already exists")),
     with_new_coupon shop [(1, coupon_exhausted)] 2).
Proof.
  destruct (coupon_codes_stay_unique (with_new_coupon shop [(1, coupon_exhausted)] 2)
              1 (mkUser 1 "vendor" 0 (Some 2))
              (mkInsertCoupon 0 "ONCE" "fixed" 5 None None None))
    as [Hdup _];
    [lia | reflexivity | left; reflexivity
    | simpl; apply NoDup_singleton
    | split; [repeat constructor | simpl; apply NoDup_singleton]
    | repeat constructor; simpl; lia |].
  apply Hdup. eexists. reflexivity.
Defined.

(** Close the four parts of the statement for an answer already known. *)
Ltac answered :=
  cbn [fst snd statusCode json respond];
  repeat split; intros; cbn [fst snd statusCode json] in *;
  try reflexivity; try discriminate; try (intuition congruence).

(** X20. The validation route only reads: whatever it is asked, the store
    is unchanged, so validating a coupon never uses it up.  A missing or
    non-numeric product id or an empty code is answered 400, an unknown
    code 404, and 200 is answered only with the coupon stored under that
    code. *)
Theorem coupon_validation_only_reads (now : Z) (c : string) (productId : option Z)
    (st : MemStorage) :
  let res := run (get_coupon_validate now c productId) st in
  snd res = st /\
  (c = "" \/ productId = None -> statusCode (fst res) = 400) /\
  (c <> "" -> productId <> None -> getCouponByCode c st = None ->
   fst res = mkResponse 404 (JMessage "Coupon not found")) /\
  (statusCode (fst res) = 200 ->
   exists coupon, getCouponByCode c st = Some coupon /\ json (fst res) = JCoupon coupon).
Proof.
  intros res. subst res. unfold get_coupon_validate, run, bind, read.
  unfold truthy_string.
  destruct (String.eqb_spec c "") as [-> | Hc]; cbn [negb orb];
    [answered |].
  destruct productId as [p |];
    [| rewrite bool_decide_eq_true_2 by reflexivity; answered].
  rewrite bool_decide_eq_false_2 by discriminate.
  destruct (getCouponByCode c st) as [coupon |]; cbn [found ret respond];
    [| answered].
  destruct (match coupon_productId coupon with
            | Some p0 => negb (p0 =? default 0 (Some p))
            | None => false
            end); [answered |].
  destruct (match maxUsage coupon with
            | Some m => m <=? usageCount coupon
            | None => false
            end); [answered |].
  destruct (match expiresAt coupon with
            | Some e => e <? now
            | None => false
            end); [answered |].
  cbn [fst snd statusCode json]. split; [reflexivity |].
  split; [intros [? | ?]; [contradiction | discriminate] |].
  split; [discriminate |].
  intros _. exists coupon. split; reflexivity.
Qed.

Lemma coupon_validation_only_reads_witness :
  fst (run (get_coupon_validate 0 "NONE" (Some 1)) (shop_with_coupon coupon_one_left))
  = mkResponse 404 (JMessage "Coupon not found").
Proof.
  apply (coupon_validation_only_reads 0 "NONE" (Some 1)
           (shop_with_coupon coupon_one_left));
    [discriminate | discriminate | reflexivity].
Defined.

(** ** [MongoDBStorage], continued *)

(** X21. [getNextId] hands out consecutive ids per collection: from a
    counter that is not negative each call answers one more than the call
    before, the first id of a fresh collection is 1, every id is positive,
    and the counters of other collections are not touched. *)
Theorem getNextId_is_consecutive (name : string) (counters : gmap string Z) :
  0 <= default 0 (counters !! name) ->
  let first := MongoDBCollections.getNextId name counters in
  let second := MongoDBCollections.getNextId name (snd first) in
  fst first = default 0 (counters !! name) + 1 /\
  fst second = fst first + 1 /\ 0 < fst first /\
  (counters !! name = None -> fst first = 1) /\
  0 <= default 0 (snd first !! name) /\
  (forall other, other <> name -> snd second !! other = counters !! other).
Proof.
  intros Hpos first second. subst second first.
  unfold MongoDBCollections.getNextId. cbn [fst snd].
  rewrite lookup_insert_eq. cbn [default from_option id].
  set (v := default 0 (counters !! name)) in *.
  rewrite (truthy_id_true (v + 1)), (truthy_id_true (v + 1 + 1)) by lia.
  repeat split; try lia.
  - intros Hnone. subst v. rewrite Hnone. reflexivity.
  - intros other Hne. rewrite !lookup_insert_ne by congruence. reflexivity.
Qed.

Lemma getNextId_is_consecutive_witness :
  fst (MongoDBCollections.getNextId "sales"
         (snd (MongoDBCollections.getNextId "sales" ∅))) = 1 + 1.
Proof.
  destruct (getNextId_is_consecutive "sales" ∅) as (H1 & H2 & _);
    [vm_compute; discriminate |].
  rewrite H2, H1. reflexivity.
Defined.

(** X22. [MongoDBStorage.createCoupon] appends a coupon with usage count
    0 and never stores the number 0 as ceiling or as product scope: a 0
    becomes null.  On every coupon it creates, the payment-intent route
    and the validity of section 4.1 therefore agree. *)
Theorem mongo_coupon_has_no_zero_ceiling (coupon : InsertCoupon)
    (counters : gmap string Z) (docs : list Coupon) :
  let created := MongoDBCollections.createCoupon coupon counters docs in
  let stored := fst (fst created) in
  snd created = docs ++ [stored] /\ usageCount stored = 0 /\
  maxUsage stored <> Some 0 /\ coupon_productId stored <> Some 0 /\
  (ic_maxUsage coupon = Some 0 -> maxUsage stored = None) /\
  (forall m, m <> 0 -> ic_maxUsage coupon = Some m -> maxUsage stored = Some m) /\
  (forall now product,
     coupon_applies now stored product = spec_coupon_valid now stored product).
Proof.
  intros created stored. subst stored created.
  unfold MongoDBCollections.createCoupon.
  destruct (MongoDBCollections.getNextId "coupons" counters) as [n counters'].
  cbn [fst snd usageCount maxUsage coupon_productId].
  assert (Hnz : forall o, MongoDBCollections.or_null o <> Some 0).
  { intros [z |]; unfold MongoDBCollections.or_null; cbn [truthy_opt_id];
      [| discriminate].
    unfold truthy_id. destruct (Z.eqb_spec z 0); cbn [negb]; congruence. }
  split; [reflexivity |]. split; [reflexivity |].
  split; [apply Hnz |]. split; [apply Hnz |].
  split; [intros ->; reflexivity |].
  split.
  - intros m Hm ->. unfold MongoDBCollections.or_null. cbn [truthy_opt_id].
    now rewrite (truthy_id_true _ Hm).
  - intros now product. apply coupon_applies_spec; apply Hnz.
Qed.

Lemma mongo_coupon_has_no_zero_ceiling_witness :
  maxUsage
    (fst (fst (MongoDBCollections.createCoupon
                 (mkInsertCoupon 1 "ZERO" "percentage" 20 None (Some 0) None) ∅ [])))
  = None.
Proof.
  apply (mongo_coupon_has_no_zero_ceiling
           (mkInsertCoupon 1 "ZERO" "percentage" 20 None (Some 0) None) ∅ []).
  reflexivity.
Defined.



(** ** Reviews *)

Lemma sum_ratings_bounds (lo hi : Z) (l : list Review) (acc : Z) :
  Forall (fun review => lo <= rating review <= hi) l ->
  acc + lo * Z.of_nat (length l)
  <= fold_left (fun a review => a + rating review) l acc
  <= acc + hi * Z.of_nat (length l).
Proof.
  intros Hall. revert acc.
  induction Hall as [| review l Hr _ IH]; intros acc; cbn [fold_left length].
  - lia.
  - specialize (IH (acc + rating review)). lia.
Qed.

(** X24. The average rating of a product without reviews is 0; otherwise
    it lies between any two bounds that hold for every stored rating of
    that product. *)
Theorem average_rating_within_the_ratings (productId lo hi : Z) (rs : ReviewStore) :
  (getReviewsByProduct productId rs = [] ->
   getAverageRatingByProduct productId rs = 0%Q) /\
  (getReviewsByProduct productId rs <> [] ->
   (forall k review, reviews rs !! k = Some review ->
      review_productId review = productId -> lo <= rating review <= hi) ->
   (inject_Z lo <= getAverageRatingByProduct productId rs)%Q /\
   (getAverageRatingByProduct productId rs <= inject_Z hi)%Q).
Proof.
  unfold getAverageRatingByProduct. split.
  - intros ->. reflexivity.
  - intros Hne Hall.
    assert (Hb : Forall (fun review => lo <= rating review <= hi)
                   (getReviewsByProduct productId rs)).
    { apply List.Forall_forall. intros review Hin.
      unfold getReviewsByProduct in Hin. apply filter_In in Hin as [Hin Hp].
      apply In_values in Hin as [k Hk]. apply Z.eqb_eq in Hp. eauto. }
    set (l := getReviewsByProduct productId rs) in *.
    destruct l as [| review l]; [contradiction |].
    pose proof (sum_ratings_bounds lo hi (review :: l) 0 Hb) as Hs.
    change (fold_left _ (review :: l) 0) with (sum_ratings (review :: l)) in Hs.
    cbn [length Nat.eqb] in *.
    set (total := sum_ratings (review :: l)) in *.
    set (n := Z.of_nat (S (length l))) in *.
    assert (Hn : 0 < n) by (subst n; lia).
    assert (HnQ : (0 < inject_Z n)%Q)
      by (change 0%Q with (inject_Z 0); rewrite <- Zlt_Qlt; exact Hn).
    split.
    + apply Qle_shift_div_l; [exact HnQ |].
      rewrite <- inject_Z_mult, <- Zle_Qle. lia.
    + apply Qle_shift_div_r; [exact HnQ |].
      rewrite <- inject_Z_mult, <- Zle_Qle. lia.
Qed.

Lemma average_rating_within_the_ratings_witness :
  let rs := mkReviewStore (<[1 := mkReview 1 1 3 5]> (<[2 := mkReview 2 1 2 4]> ∅)) 3 in
  (inject_Z 4 <= getAverageRatingByProduct 1 rs)%Q /\
  (getAverageRatingByProduct 1 rs <= inject_Z 5)%Q.
Proof.
  apply (average_rating_within_the_ratings 1 4 5
           (mkReviewStore (<[1 := mkReview 1 1 3 5]> (<[2 := mkReview 2 1 2 4]> ∅)) 3)).
  - vm_compute. discriminate.
  - intros k review Hk _. cbn [reviews] in Hk.
    destruct (decide (k = 1)) as [-> | H1].
    + rewrite lookup_insert_eq in Hk. injection Hk as <-. simpl. lia.
    + rewrite lookup_insert_ne in Hk by congruence.
      destruct (decide (k = 2)) as [-> | H2].
      * rewrite lookup_insert_eq in Hk. injection Hk as <-. simpl. lia.
      * rewrite lookup_insert_ne in Hk by congruence.
        rewrite lookup_empty in Hk. discriminate.
Defined.

Lemma has_purchased_iff (uid pid : Z) (st : MemStorage) :
  existsb (fun sale => (sale_productId sale =? pid)
                       && String.eqb (sale_status sale) "completed")
    (listSalesByUser uid as_buyer st) = true
  <-> exists k s, sales st !! k = Some s /\ buyerId s = uid /\
                  sale_productId s = pid /\ sale_status s = "completed".
Proof.
  rewrite existsb_exists. split.
  - intros (s & Hin & Hs). apply In_listSalesByUser in Hin as [[k Hk] Hb].
    cbn [sale_of_user] in Hb. apply Z.eqb_eq in Hb.
    apply andb_prop in Hs as [Hp Hc].
    apply Z.eqb_eq in Hp. apply String.eqb_eq in Hc. eauto 7.
  - intros (k & s & Hk & Hb & Hp & Hc). exists s. split.
    + apply In_listSalesByUser. split; [eauto |].
      cbn [sale_of_user]. apply Z.eqb_eq, Hb.
    + rewrite Hp, Hc, Z.eqb_refl. reflexivity.
Qed.

Lemma post_reviews_accepts (uid pid stars : Z) (st : MemStorage) (rs : ReviewStore) :
  uid <> 0 -> is_Some (products st !! pid) ->
  (exists k s, sales st !! k = Some s /\ buyerId s = uid /\
               sale_productId s = pid /\ sale_status s = "completed") ->
  post_reviews (Some uid) pid stars st rs
  = (Next (201, mkReview (currentReviewId rs) pid uid stars),
     mkReviewStore
       (<[currentReviewId rs := mkReview (currentReviewId rs) pid uid stars]>
          (reviews rs))
       (currentReviewId rs + 1)).
Proof.
  intros Hn [product Hp] Hbought. unfold post_reviews.
  rewrite (authenticate_ok _ _ Hn).
  cbn [fst ir_productId default from_option id]. unfold getProduct. rewrite Hp.
  rewrite (proj2 (has_purchased_iff uid pid st) Hbought). reflexivity.
Qed.

(** X25. [POST /api/reviews] stores a review exactly when the product
    exists and the session user is the buyer of a stored sale of that
    product with status completed; the review then carries the session
    user, the product and the rating as given.  In every other case the
    reviews are left as they are. *)
Theorem review_needs_a_completed_purchase (uid pid stars : Z) (st : MemStorage)
    (rs : ReviewStore) :
  uid <> 0 ->
  let posted := post_reviews (Some uid) pid stars st rs in
  let purchased :=
    exists k s, sales st !! k = Some s /\ buyerId s = uid /\
                sale_productId s = pid /\ sale_status s = "completed" in
  ((exists review, fst posted = Next (201, review))
   <-> is_Some (products st !! pid) /\ purchased) /\
  (forall review, fst posted = Next (201, review) ->
     review_userId review = uid /\ review_productId review = pid /\
     rating review = stars /\
     reviews (snd posted) !! review_id review = Some review) /\
  ((forall review, fst posted <> Next (201, review)) -> snd posted = rs).
Proof.
  intros Hn posted purchased. subst posted purchased.
  unfold post_reviews. rewrite (authenticate_ok _ _ Hn).
  cbn [fst ir_productId default from_option id]. unfold getProduct.
  destruct (products st !! pid) as [product |].
  2: { cbn [fst snd]. split; [| split; [discriminate | reflexivity]].
       split; [intros [review Hr]; discriminate | intros [[? Hsome] _]; discriminate]. }
  pose proof (has_purchased_iff uid pid st) as Hiff.
  destruct (existsb _ (listSalesByUser uid as_buyer st)) eqn:Hhas; cbn [negb].
  - unfold createReview. cbn [fst snd reviews ir_productId ir_userId ir_rating].
    split; [split; [intros _; split; [eauto | apply Hiff; reflexivity] | eauto] |].
    split.
    + intros review [= <-]. cbn [review_userId review_productId rating review_id].
      repeat split. apply lookup_insert_eq.
    + intros Hno. exfalso. eapply Hno. reflexivity.
  - cbn [fst snd]. split; [| split; [discriminate | reflexivity]].
    split; [intros [review H]; discriminate |].
    intros [_ Hp]. apply Hiff in Hp. discriminate.
Qed.

Lemma review_needs_a_completed_purchase_witness :
  exists review,
    fst (post_reviews (Some 3) 1 5 shop_after_delivery (mkReviewStore ∅ 1))
    = Next (201, review).
Proof.
  destruct (review_needs_a_completed_purchase 3 1 5 shop_after_delivery
              (mkReviewStore ∅ 1)) as [[_ Hyes] _]; [lia |].
  apply Hyes. split; [eexists; reflexivity |].
  exists 1. eexists. split; [reflexivity |]. repeat split.
Defined.

(** X26. [POST /api/sales] stores the body as a sale with the session user
    as buyer and moves no balance.  A user who records a completed sale
    of an existing product in this way can review that product at once:
    no payment is needed to pass the purchase check of the reviews. *)
Theorem recorded_sale_opens_the_reviews (uid pid stars : Z) (body : InsertSale)
    (product : Product) (st : MemStorage) (rs : ReviewStore) :
  uid <> 0 -> products st !! pid = Some product ->
  ins_productId body = pid -> ins_status body = "completed" ->
  let recorded := post_sales (Some uid) body st in
  (exists s,
     fst recorded = Next (201, PSale s) /\
     sales (snd recorded) !! currentSaleId st = Some s /\
     buyerId s = uid /\ amount s = ins_amount body /\
     sellerAmount s = ins_sellerAmount body) /\
  users (snd recorded) = users st /\
  exists review,
    fst (post_reviews (Some uid) pid stars (snd recorded) rs) = Next (201, review).
Proof.
  intros Hn Hp Hpid Hstatus recorded. subst recorded.
  unfold post_sales, bind. rewrite (authenticate_ok _ _ Hn).
  unfold call, createSale, ret.
  cbn [fst snd sales users with_sales default from_option id ins_productId
       ins_buyerId ins_sellerId ins_affiliateId ins_amount ins_sellerAmount
       ins_affiliateAmount ins_platformFee ins_status ins_paymentMethod
       ins_stripePaymentIntentId].
  split; [eexists; split; [reflexivity |]; split; [apply lookup_insert_eq |];
          repeat split |].
  split; [reflexivity |].
  set (st1 := with_sales st _ _).
  eexists. rewrite (post_reviews_accepts uid pid stars st1 rs Hn);
    [reflexivity | exists product; exact Hp |].
  exists (currentSaleId st). eexists. split; [apply lookup_insert_eq |].
  cbn [buyerId sale_productId sale_status]. repeat split; assumption.
Qed.

Lemma recorded_sale_opens_the_reviews_witness :
  exists review,
    fst (post_reviews (Some 3) 1 5
           (snd (post_sales (Some 3)
                   (mkInsertSale 1 0 1 None 0 0 0 0 "completed" "none" "") shop))
           (mkReviewStore ∅ 1))
    = Next (201, review).
Proof.
  destruct (recorded_sale_opens_the_reviews 3 1 5
              (mkInsertSale 1 0 1 None 0 0 0 0 "completed" "none" "")
              (mkProduct 1 1 100 10 "percentage") shop (mkReviewStore ∅ 1))
    as (_ & _ & Hreview); [lia | reflexivity | reflexivity | reflexivity |].
  exact Hreview.
Defined.

(** ** Client-side checks *)

Lemma pages_up_to (A : Type) (items : list A) (per n : nat) :
  concat (map (fun p => paginated items p per) (seq 1 n)) = take (n * per) items.
Proof.
  induction n as [| n IH]; [reflexivity |].
  rewrite seq_S, map_app, concat_app, IH. cbn [map concat Nat.add].
  rewrite app_nil_r. unfold paginated, slice.
  replace (S n - 1)%nat with n by lia.
  replace (S n * per - n * per)%nat with per by lia.
  rewrite take_take_drop. f_equal. lia.
Qed.

Lemma totalPages_covers (len per : nat) :
  (0 < per)%nat -> (len <= totalPages len per * per)%nat.
Proof.
  intros Hper. unfold totalPages.
  pose proof (Nat.div_mod (len + per - 1) per ltac:(lia)) as Hdiv.
  pose proof (Nat.mod_upper_bound (len + per - 1) per ltac:(lia)) as Hmod.
  nia.
Qed.

Lemma totalPages_tight (len per p : nat) :
  (0 < per)%nat -> (1 <= p)%nat -> (p <= totalPages len per)%nat ->
  ((p - 1) * per < len)%nat.
Proof.
  intros Hper Hp Hle. unfold totalPages in Hle.
  pose proof (Nat.div_mod (len + per - 1) per ltac:(lia)) as Hdiv.
  pose proof (Nat.mod_upper_bound (len + per - 1) per ltac:(lia)) as Hmod.
  nia.
Qed.

(** X27. The pages of the sales and marketplace lists split the list:
    for a positive page size, pages 1 to [totalPages] put one after the
    other give the list back, no page is longer than the page size, each
    of these pages holds an item, and any later page is empty.  The page
    buttons never leave the range 1 to [totalPages]. *)
Theorem pages_partition_the_list (A : Type) (items : list A) (per : nat) :
  (0 < per)%nat ->
  let total := totalPages (length items) per in
  concat (map (fun p => paginated items p per) (seq 1 total)) = items /\
  (forall p, (length (paginated items p per) <= per)%nat) /\
  (forall p, (1 <= p)%nat -> (p <= total)%nat -> paginated items p per <> []) /\
  (forall p, (total < p)%nat -> paginated items p per = []) /\
  (forall p, (1 <= p)%nat -> (p <= total)%nat ->
     (1 <= previous_page p)%nat /\ (previous_page p <= total)%nat /\
     (1 <= next_page p total)%nat /\ (next_page p total <= total)%nat).
Proof.
  intros Hper total. subst total.
  pose proof (totalPages_covers (length items) per Hper) as Hcover.
  split; [rewrite pages_up_to; apply take_ge; exact Hcover |].
  split; [| split; [| split]].
  - intros p. unfold paginated, slice. rewrite length_take. nia.
  - intros p Hp Hle Hnil.
    pose proof (totalPages_tight (length items) per p Hper Hp Hle) as Hlt.
    apply (f_equal (@length A)) in Hnil. unfold paginated, slice in Hnil.
    rewrite length_take, length_drop in Hnil. cbn [length] in Hnil. nia.
  - intros p Hp. unfold paginated, slice.
    rewrite drop_ge; [destruct (p * per - (p - 1) * per)%nat; reflexivity |]. nia.
  - intros p Hp Hle. unfold previous_page, next_page. lia.
Qed.

Lemma pages_partition_the_list_witness :
  concat (map (fun p => paginated [1; 2; 3; 4; 5] p 2) (seq 1 (totalPages 5 2)))
  = [1; 2; 3; 4; 5].
Proof.
  apply (pages_partition_the_list Z [1; 2; 3; 4; 5] 2). lia.
Defined.


(** * The routes in binary64 *)

(** ** Comparisons of binary64 numbers *)

Lemma SFcompare_antisym (x y : spec_float) :
  SFcompare y x = option_map CompOpp (SFcompare x y).
Proof.
  destruct x as [sx | sx | | sx mx ex], y as [sy | sy | | sy my ey];
    cbn [SFcompare option_map CompOpp]; try reflexivity;
    try (destruct sx; reflexivity); try (destruct sy; reflexivity);
    try (destruct sx, sy; reflexivity).
  destruct sx, sy; cbn [option_map CompOpp]; try reflexivity;
    rewrite (Z.compare_antisym ex ey);
    destruct (ex ?= ey)%Z; cbn [CompOpp]; try reflexivity;
    rewrite (Pos.compare_cont_antisym mx my); cbn [CompOpp];
    destruct (Pos.compare_cont Eq mx my); reflexivity.
Qed.

Lemma SFcompare_refl (x : spec_float) :
  x <> S754_nan -> SFcompare x x = Some Eq.
Proof.
  destruct x as [s | s | | s m e]; intros Hx; cbn [SFcompare];
    try (destruct s; reflexivity); [contradiction |].
  destruct s; rewrite Z.compare_refl, Pos.compare_cont_refl; reflexivity.
Qed.

Lemma SFcompare_nan (x y : spec_float) :
  SFcompare x y = None <-> x = S754_nan \/ y = S754_nan.
Proof.
  destruct x as [sx | sx | | sx mx ex], y as [sy | sy | | sy my ey];
    cbn [SFcompare]; split; intros H; try discriminate; try reflexivity;
    try (left; reflexivity); try (right; reflexivity);
    destruct H as [H | H]; discriminate.
Qed.

Lemma isNaN_spec (x : float) : Binary64.isNaN x = true <-> Prim2SF x = S754_nan.
Proof.
  unfold Binary64.isNaN. rewrite FloatAxioms.eqb_spec. unfold SFeqb. split.
  - intros H. destruct (Prim2SF x) eqn:E; try reflexivity;
      rewrite SFcompare_refl in H by discriminate; discriminate.
  - intros ->. reflexivity.
Qed.

Lemma isNaN_false (x : float) : Binary64.isNaN x = false <-> Prim2SF x <> S754_nan.
Proof.
  rewrite <- isNaN_spec. destruct (Binary64.isNaN x); split; congruence.
Qed.

(** [y <= x] is [not (x < y)] as long as neither number is [NaN]. *)
Lemma leb_not_ltb (x y : float) :
  (y <=? x)%float = true <->
  Binary64.isNaN x = false /\ Binary64.isNaN y = false /\ (x <? y)%float = false.
Proof.
  rewrite FloatAxioms.leb_spec, FloatAxioms.ltb_spec, !isNaN_false. unfold SFleb, SFltb.
  rewrite (SFcompare_antisym (Prim2SF x) (Prim2SF y)).
  destruct (SFcompare (Prim2SF x) (Prim2SF y)) as [[] |] eqn:E; cbn [option_map CompOpp].
  - split; [intros _ | reflexivity].
    assert (Hn : SFcompare (Prim2SF x) (Prim2SF y) <> None) by congruence.
    rewrite SFcompare_nan in Hn. tauto.
  - split; [discriminate | intros (_ & _ & H); discriminate].
  - split; [intros _ | reflexivity].
    assert (Hn : SFcompare (Prim2SF x) (Prim2SF y) <> None) by congruence.
    rewrite SFcompare_nan in Hn. tauto.
  - apply SFcompare_nan in E. split; [discriminate | intros (Hx & Hy & _)].
    tauto.
Qed.

Lemma ltb_not_eqb (x y : float) : (x <? y)%float = true -> (x =? y)%float = false.
Proof.
  rewrite FloatAxioms.ltb_spec, FloatAxioms.eqb_spec. unfold SFltb, SFeqb.
  destruct (SFcompare (Prim2SF x) (Prim2SF y)) as [[] |]; congruence.
Qed.

Lemma eqb_sym (x y : float) : (x =? y)%float = (y =? x)%float.
Proof.
  rewrite !FloatAxioms.eqb_spec. unfold SFeqb.
  rewrite (SFcompare_antisym (Prim2SF x) (Prim2SF y)).
  destruct (SFcompare (Prim2SF x) (Prim2SF y)) as [[] |]; reflexivity.
Qed.

(** A decidable invariant of a concrete store, by evaluation. *)
Ltac evaluated := apply (bool_decide_unpack _); vm_compute; exact I.

Section Binary64Routes.

Import Binary64.

(** ** Running the handlers *)

Lemma js_authenticate_ok (uid : Z) (st : MemStorage) :
  uid <> 0 -> authenticate (Some uid) st = (Next tt, st).
Proof.
  intros Hn. unfold authenticate. simpl. now rewrite (truthy_id_true _ Hn).
Qed.

Lemma js_authorize_run (roles : list string) (uid : Z) (u : User) (st : MemStorage) :
  uid <> 0 -> users st !! uid = Some u ->
  authorize roles (Some uid) st =
  if existsb (String.eqb (role u)) roles then (Next tt, st)
  else (Respond (mkResponse 403 (JMessage "Forbidden")), st).
Proof.
  intros Hn Hu. unfold authorize, bind, read, getUser.
  rewrite (truthy_id_true _ Hn). cbn beta. rewrite Hu.
  destruct (existsb (String.eqb (role u)) roles); reflexivity.
Qed.

Lemma js_post_withdrawals_run (st : MemStorage) (uid : Z) (u : User)
    (amount : JsValue) :
  uid <> 0 -> users st !! uid = Some u ->
  run (post_withdrawals (Some uid) amount) st =
  if negb (existsb (String.eqb (role u)) ["vendor"; "affiliate"]) then
    Some (mkResponse 403 (JMessage "Forbidden"), st)
  else if negb (ToBoolean amount) then
    Some (mkResponse 400 (JMessage "Minimum withdrawal amount is R$20"), st)
  else
    match js_lt amount (JsNumber 20) with
    | None => None
    | Some true =>
        Some (mkResponse 400 (JMessage "Minimum withdrawal amount is R$20"), st)
    | Some false =>
        match js_lt (balance u) amount with
        | None => None
        | Some true => Some (mkResponse 400 (JMessage "Insufficient balance"), st)
        | Some false =>
            match js_sub (balance u) amount with
            | None => None
            | Some rest =>
                Some (mkResponse 201 (JWithdrawal (requested_withdrawal st uid amount)),
                      requested_store st uid u amount rest)
            end
        end
    end.
Proof.
  intros Hn Hu.
  unfold post_withdrawals, run, bind.
  rewrite (js_authenticate_ok _ _ Hn), (js_authorize_run _ _ _ _ Hn Hu).
  destruct (existsb (String.eqb (role u)) ["vendor"; "affiliate"]); [| reflexivity].
  cbn [negb]. unfold read, getUser. simpl. rewrite Hu. simpl.
  destruct (ToBoolean amount); [| reflexivity]. cbn [negb].
  unfold evaluate.
  destruct (js_lt amount (JsNumber 20)) as [[] |]; [reflexivity | | reflexivity].
  destruct (js_lt (balance u) amount) as [[] |]; [reflexivity | | reflexivity].
  unfold call, createWithdrawal. cbn beta iota zeta.
  destruct (js_sub (balance u) amount) as [rest |]; [| reflexivity].
  unfold updateUser. cbn [users with_withdrawals]. rewrite Hu. reflexivity.
Qed.

Lemma js_status_allowed (status : string) :
  status = "pending" \/ status = "completed" \/ status = "rejected" ->
  negb (truthy_string status)
  || negb (existsb (String.eqb status) ["pending"; "completed"; "rejected"]) = false.
Proof. intros [-> | [-> | ->]]; reflexivity. Qed.

Lemma js_put_withdrawal_status_run (st : MemStorage) (admin wid : Z) (adm : User)
    (w : Withdrawal) (status : string) (tid : option string) :
  admin <> 0 -> users st !! admin = Some adm -> role adm = "admin" ->
  users_keyed st ->
  withdrawals st !! wid = Some w ->
  status = "pending" \/ status = "completed" \/ status = "rejected" ->
  run (put_withdrawal_status (Some admin) wid status tid) st =
  if String.eqb status "rejected" then
    match users st !! userId w with
    | Some u =>
        match js_add (balance u) (withdrawal_amount w) with
        | Some sum =>
            Some (mkResponse 200 (JWithdrawal (updated_withdrawal w status tid)),
                  with_users (status_stored st wid w status tid)
                    (<[userId w := with_balance u sum]> (users st)))
        | None => None
        end
    | None =>
        Some (mkResponse 200 (JWithdrawal (updated_withdrawal w status tid)),
              status_stored st wid w status tid)
    end
  else
    Some (mkResponse 200 (JWithdrawal (updated_withdrawal w status tid)),
          status_stored st wid w status tid).
Proof.
  intros Hn Ha Hr Hk Hw Hs.
  unfold put_withdrawal_status, run, bind.
  assert (Hroles : existsb (String.eqb (role adm)) ["admin"] = true)
    by (rewrite Hr; reflexivity).
  rewrite (js_authenticate_ok _ _ Hn), (js_authorize_run _ _ _ _ Hn Ha), Hroles.
  rewrite (js_status_allowed _ Hs).
  unfold call, updateWithdrawalStatus. rewrite Hw. cbn [found ret].
  unfold when. fold (updated_withdrawal w status tid).
  fold (status_stored st wid w status tid).
  destruct (String.eqb status "rejected"); [| reflexivity].
  unfold read, getUser. cbn [users status_stored with_withdrawals userId updated_withdrawal].
  destruct (users st !! userId w) as [u |] eqn:Hu; [| reflexivity].
  unfold evaluate. cbn [withdrawal_amount updated_withdrawal]. destruct (js_add (balance u) (withdrawal_amount w)) as [sum |];
    [| reflexivity].
  unfold updateUser. cbn [users status_stored with_withdrawals].
  rewrite (Hk _ _ Hu), Hu. reflexivity.
Qed.

Lemma credit_number (u : User) (b x : float) :
  balance u = JsNumber b -> credit u x = with_balance u (JsNumber (b + x)%float).
Proof. intros Hb. unfold credit. rewrite Hb. reflexivity. Qed.

Lemma js_add_number (v : JsValue) (x : float) :
  is_number v = true -> exists b, v = JsNumber b /\ js_add v (JsNumber x) = Some (JsNumber (b + x)%float).
Proof. destruct v; try discriminate. intros _. eexists. split; reflexivity. Qed.

Lemma js_post_stripe_webhook_run (st : MemStorage) (paymentIntent : PaymentIntent)
    (product : Product) (seller : User) (plan : Plan) :
  products st !! md_productId (pi_metadata paymentIntent) = Some product ->
  users st !! md_sellerId (pi_metadata paymentIntent) = Some seller ->
  plans st !! seller_planId seller = Some plan ->
  numeric_balances st ->
  run (post_stripe_webhook (payment_intent_succeeded paymentIntent)) st =
  Some (mkResponse 200 JReceived, settled_store st paymentIntent product seller plan).
Proof.
  intros Hp Hs Hpl Hnum.
  destruct (js_add_number (balance seller)
              (settled_sellerAmount product plan (md_affiliateId (pi_metadata paymentIntent))
                 (pi_amount paymentIntent / 100)%float) (Hnum _ _ Hs))
    as (b & Hb & Hsum).
  unfold post_stripe_webhook, run, bind, read, getProduct, getUser, getPlan.
  rewrite Hp. cbn [found ret]. rewrite Hs. cbn [found ret].
  fold (seller_planId seller). rewrite Hpl. cbn [found ret].
  unfold settled_store, users_after_affiliate, settled_sale.
  unfold settled_sellerAmount, settled_platformFee, settled_sellerAmountBeforeFee,
    settled_affiliateAmount in *.
  unfold call, updateUser, createSale, ret, evaluate.
  destruct (truthy_opt_id (md_affiliateId (pi_metadata paymentIntent))) eqn:Haff.
  - fold (rawCommission product (pi_amount paymentIntent / 100)%float) in *.
    destruct (users st !! default 0 (md_affiliateId (pi_metadata paymentIntent)))
      as [a |] eqn:Ha; cbn beta iota zeta delta [fst snd users with_users].
    + destruct (js_add_number (balance a)
                  (rawCommission product (pi_amount paymentIntent / 100)%float
                   - rawCommission product (pi_amount paymentIntent / 100)%float * 0.04)%float
                  (Hnum _ _ Ha)) as (ba & Hba & Hsuma).
      rewrite Hsuma. cbn beta iota zeta delta [fst snd users with_users]. rewrite Ha.
      cbn beta iota zeta delta [fst snd users with_users]. rewrite Hsum.
      cbn beta iota zeta delta [fst snd users with_users].
      unfold credit. rewrite Hsuma, Hsum.
      destruct (decide (default 0 (md_affiliateId (pi_metadata paymentIntent))
                        = md_sellerId (pi_metadata paymentIntent))) as [Heq | Hne].
      * rewrite Heq in *. rewrite lookup_insert_eq.
        rewrite Hs in Ha. injection Ha as <-. reflexivity.
      * rewrite lookup_insert_ne by exact Hne. rewrite Hs. reflexivity.
    + rewrite Hsum. cbn beta iota zeta delta [fst snd users with_users].
      rewrite Hs. unfold credit. rewrite Hsum. reflexivity.
  - cbn beta iota zeta delta [fst snd users with_users]. rewrite Hsum.
    cbn beta iota zeta delta [fst snd users with_users]. rewrite Hs.
    unfold credit. rewrite Hsum. reflexivity.
Qed.

(** ** Withdrawals *)

Lemma js_withdrawal_roles (u : User) :
  existsb (String.eqb (role u)) ["vendor"; "affiliate"] = true <->
  role u = "vendor" \/ role u = "affiliate".
Proof.
  cbn [existsb]. rewrite !orb_true_iff, !String.eqb_eq. intuition discriminate.
Qed.

Lemma js_lt_numbers (v w : JsValue) (x y : float) :
  ToNumber v = Some x -> ToNumber w = Some y -> is_number v || is_number w = true ->
  js_lt v w = Some (x <? y)%float.
Proof.
  intros Hv Hw Hn. unfold js_lt. rewrite Hv, Hw.
  destruct v, w; try reflexivity; discriminate.
Qed.

Lemma zero_below_20 (a : float) : (a =? 0)%float = true -> (a <? 20)%float = true.
Proof.
  rewrite FloatAxioms.eqb_spec, FloatAxioms.ltb_spec. unfold SFeqb, SFltb.
  assert (E0 : Prim2SF 0 = S754_zero false) by (vm_compute; reflexivity).
  assert (E20 : exists m e, Prim2SF 20 = S754_finite false m e)
    by (vm_compute; eauto).
  destruct E20 as (m & e & ->). rewrite E0.
  destruct (Prim2SF a) as [[] | [] | | [] ? ?]; cbn [SFcompare]; congruence.
Qed.

(** For a number, [!amount || amount < 20] fails exactly from 20 on. *)
Lemma at_least_20 (a : float) :
  (20 <=? a)%float = true <->
  ToBoolean (JsNumber a) = true /\ (a <? 20)%float = false.
Proof.
  rewrite leb_not_ltb. cbn [ToBoolean]. split.
  - intros (Ha & _ & Hlt). split; [| exact Hlt]. rewrite Ha.
    destruct (a =? 0)%float eqn:Hz; [| reflexivity].
    rewrite (zero_below_20 _ Hz) in Hlt. discriminate.
  - intros (Ht & Hlt). split; [| split; [vm_compute; reflexivity | exact Hlt]].
    destruct (isNaN a); [| reflexivity].
    rewrite orb_true_r in Ht. discriminate.
Qed.

Section WithdrawalRequest.

Variables (st : MemStorage) (uid : Z) (u : User).

Hypothesis Hsession : uid <> 0.
Hypothesis Huser : users st !! uid = Some u.

(** The route on a body amount that converts to the number [a], asked by a
    vendor or affiliate who holds the number [b]. *)
Lemma js_request_outcome (amount : JsValue) (a b : float) :
  role u = "vendor" \/ role u = "affiliate" ->
  ToNumber amount = Some a -> balance u = JsNumber b ->
  exists res st',
    run (post_withdrawals (Some uid) amount) st = Some (res, st') /\
    (statusCode res = 201 <->
     ToBoolean amount = true /\ (a <? 20)%float = false /\ (b <? a)%float = false) /\
    (statusCode res = 201 ->
     json res = JWithdrawal (requested_withdrawal st uid amount) /\
     st' = requested_store st uid u amount (b - a)%float) /\
    (statusCode res <> 201 -> statusCode res = 400 /\ st' = st).
Proof.
  intros Hr Ha Hb.
  rewrite (js_post_withdrawals_run _ _ _ _ Hsession Huser).
  rewrite (proj2 (js_withdrawal_roles u) Hr). cbn [negb].
  rewrite (js_lt_numbers amount (JsNumber 20) a 20 Ha eq_refl)
    by (cbn [is_number]; apply orb_true_r).
  rewrite Hb.
  rewrite (js_lt_numbers (JsNumber b) amount b a eq_refl Ha) by reflexivity.
  unfold js_sub. cbn [ToNumber]. rewrite Ha.
  destruct (ToBoolean amount); cbn [negb].
  - destruct (a <? 20)%float.
    + eexists. eexists. split; [reflexivity |]. cbn [statusCode].
      split; [split; [discriminate | intros (_ & H & _); discriminate] |].
      split; [discriminate | intros _; split; reflexivity].
    + destruct (b <? a)%float.
      * eexists. eexists. split; [reflexivity |]. cbn [statusCode].
        split; [split; [discriminate | intros (_ & _ & H); discriminate] |].
        split; [discriminate | intros _; split; reflexivity].
      * eexists. eexists. split; [reflexivity |]. cbn [statusCode json].
        split; [split; [intros _; repeat split | reflexivity] |].
        split; [intros _; repeat split | intros H; contradiction].
  - eexists. eexists. split; [reflexivity |]. cbn [statusCode].
    split; [split; [discriminate | intros (H & _); discriminate] |].
    split; [discriminate | intros _; split; reflexivity].
Qed.

(** C6, amended. A request by a user who is neither vendor nor affiliate is
    answered 403 whatever it asks for.  For a vendor or affiliate who holds
    a number, a request for a number [a] is accepted (201) exactly when [a]
    is neither 0 nor [NaN] and neither [a < 20] nor [balance < a] holds,
    which for a balance other than [NaN] is [20 <= a <= balance]; an
    accepted request stores a pending withdrawal of [a] and leaves the
    balance at the binary64 difference [balance - a]; a refused one is
    answered 400 and changes nothing. *)
Theorem withdrawal_request_outcome :
  (forall amount,
     ~ (role u = "vendor" \/ role u = "affiliate") ->
     run (post_withdrawals (Some uid) amount) st
       = Some (mkResponse 403 (JMessage "Forbidden"), st)) /\
  (forall a b,
     role u = "vendor" \/ role u = "affiliate" ->
     balance u = JsNumber b ->
     exists res st',
       run (post_withdrawals (Some uid) (JsNumber a)) st = Some (res, st') /\
       (statusCode res = 201 <->
        ToBoolean (JsNumber a) = true /\
        (a <? 20)%float = false /\ (b <? a)%float = false) /\
       (isNaN b = false ->
        (statusCode res = 201 <-> (20 <=? a)%float = true /\ (a <=? b)%float = true)) /\
       (statusCode res = 201 ->
        json res =
          JWithdrawal
            (mkWithdrawal (currentWithdrawalId st) uid (JsNumber a) "pending" None) /\
        withdrawals st' =
          <[currentWithdrawalId st :=
              mkWithdrawal (currentWithdrawalId st) uid (JsNumber a) "pending" None]>
            (withdrawals st) /\
        users st' = <[uid := with_balance u (JsNumber (b - a)%float)]> (users st)) /\
       (statusCode res <> 201 -> statusCode res = 400 /\ st' = st)).
Proof.
  split.
  - intros amount Hr.
    rewrite (js_post_withdrawals_run _ _ _ _ Hsession Huser).
    destruct (existsb (String.eqb (role u)) ["vendor"; "affiliate"]) eqn:He;
      [apply js_withdrawal_roles in He; contradiction | reflexivity].
  - intros a b Hr Hb.
    destruct (js_request_outcome (JsNumber a) a b Hr eq_refl Hb)
      as (res & st' & Hrun & Hiff & Hok & Hno).
    exists res, st'. split; [exact Hrun |]. split; [exact Hiff |].
    split; [| split; [| exact Hno]].
    + intros Hnan. rewrite Hiff.
      rewrite at_least_20, (leb_not_ltb b a). cbn [ToBoolean].
      split.
      * intros (Ht & Hlt & Hba). repeat split; try assumption.
        destruct (isNaN a); [rewrite orb_true_r in Ht; discriminate | reflexivity].
      * intros ((Ht & Hlt) & _ & _ & Hba). repeat split; assumption.
    + intros H201. destruct (Hok H201) as (Hj & ->). split; [exact Hj |].
      split; reflexivity.
Qed.

(** The comparisons and the subtraction of the route on [NaN]. *)
Lemma ltb_nan (a x : float) :
  isNaN a = true -> (a <? x)%float = false /\ (x <? a)%float = false.
Proof.
  rewrite isNaN_spec, !FloatAxioms.ltb_spec. unfold SFltb. intros ->.
  split; [reflexivity |]. destruct (Prim2SF x); reflexivity.
Qed.

Lemma sub_nan (a x : float) : isNaN a = true -> isNaN (x - a)%float = true.
Proof.
  rewrite !isNaN_spec, FloatAxioms.sub_spec. intros ->.
  destruct (Prim2SF x); reflexivity.
Qed.

(** X30. The route applies no schema to the amount: a truthy body value
    that converts to [NaN] is accepted from a vendor or affiliate who holds
    a number, is stored as it was submitted and leaves the balance [NaN];
    after that every amount of at least 20 is accepted. *)
Theorem unparsed_amount_is_accepted (amount : JsValue) (a b : float) :
  role u = "vendor" \/ role u = "affiliate" ->
  balance u = JsNumber b ->
  ToBoolean amount = true -> ToNumber amount = Some a -> isNaN a = true ->
  exists st' r,
    run (post_withdrawals (Some uid) amount) st
      = Some (mkResponse 201
                (JWithdrawal (mkWithdrawal (currentWithdrawalId st) uid amount
                                "pending" None)), st') /\
    withdrawals st' !! currentWithdrawalId st
      = Some (mkWithdrawal (currentWithdrawalId st) uid amount "pending" None) /\
    balance <$> users st' !! uid = Some (JsNumber r) /\ isNaN r = true /\
    (forall a2, (20 <=? a2)%float = true ->
       exists res st2,
         run (post_withdrawals (Some uid) (JsNumber a2)) st' = Some (res, st2) /\
         statusCode res = 201).
Proof.
  intros Hr Hb Ht Ha Hnan.
  destruct (ltb_nan a 20 Hnan) as [Hmin _]. destruct (ltb_nan a b Hnan) as [_ Hbal].
  destruct (js_request_outcome amount a b Hr Ha Hb)
    as (res & st' & Hrun & Hiff & Hok & _).
  assert (H201 : statusCode res = 201) by (apply Hiff; repeat split; assumption).
  destruct (Hok H201) as (Hj & ->).
  destruct res as [code body]. cbn [statusCode json] in *. subst code body.
  exists (requested_store st uid u amount (b - a)%float), (b - a)%float.
  split; [exact Hrun |].
  split; [apply lookup_insert_eq |].
  assert (Hu1 : users (requested_store st uid u amount (b - a)%float) !! uid
                = Some (with_balance u (JsNumber (b - a)%float)))
    by apply lookup_insert_eq.
  split; [rewrite Hu1; reflexivity |].
  split; [apply sub_nan; exact Hnan |].
  intros a2 H20.
  pose proof (js_post_withdrawals_run _ uid _ (JsNumber a2) Hsession Hu1) as Hrun2.
  rewrite (proj2 (js_withdrawal_roles (with_balance u (JsNumber (b - a)%float))) Hr)
    in Hrun2.
  apply at_least_20 in H20 as [Ht2 Hmin2].
  rewrite Ht2 in Hrun2. cbn [negb] in Hrun2.
  unfold js_lt, js_sub in Hrun2. cbn [ToNumber balance with_balance] in Hrun2.
  rewrite Hmin2 in Hrun2.
  rewrite (proj1 (ltb_nan (b - a)%float a2 (sub_nan a b Hnan))) in Hrun2.
  eexists. eexists. split; [exact Hrun2 | reflexivity].
Qed.

Lemma nonpositive_below_20 (a : float) : (a <=? 0)%float = true -> (a <? 20)%float = true.
Proof.
  rewrite FloatAxioms.leb_spec, FloatAxioms.ltb_spec. unfold SFleb, SFltb.
  assert (E0 : Prim2SF 0 = S754_zero false) by (vm_compute; reflexivity).
  assert (E20 : exists m e, Prim2SF 20 = S754_finite false m e)
    by (vm_compute; eauto).
  destruct E20 as (m & e & ->). rewrite E0.
  destruct (Prim2SF a) as [[] | [] | | [] ? ?]; cbn [SFcompare]; congruence.
Qed.

(** X28. The withdrawal form and the route draw the same line for a vendor
    or affiliate: when the page holds the balance the store holds, the
    form posts the amount it parsed exactly when the route accepts that
    amount. *)
Theorem form_submits_what_the_route_accepts (a b : float) :
  role u = "vendor" \/ role u = "affiliate" ->
  balance u = JsNumber b ->
  exists res st',
    run (post_withdrawals (Some uid) (JsNumber a)) st = Some (res, st') /\
    (handleRequestWithdrawal a (Some b) = Submit a <-> statusCode res = 201) /\
    (forall x, handleRequestWithdrawal a (Some b) = Submit x -> x = a).
Proof.
  intros Hr Hb.
  destruct (js_request_outcome (JsNumber a) a b Hr eq_refl Hb)
    as (res & st' & Hrun & Hiff & _).
  exists res, st'. split; [exact Hrun |]. rewrite Hiff.
  unfold handleRequestWithdrawal. cbn [ToBoolean].
  destruct (isNaN a) eqn:Hnan; cbn [orb].
  { rewrite orb_true_r. cbn [negb].
    split; [split; [discriminate | intros (H & _); discriminate] | discriminate]. }
  rewrite orb_false_r.
  destruct (a <? 20)%float eqn:Hlt.
  { split; [split; [destruct (a <=? 0)%float; discriminate
                   | intros (_ & H & _); discriminate]
           | destruct (a <=? 0)%float; discriminate]. }
  destruct (a <=? 0)%float eqn:Hle;
    [rewrite (nonpositive_below_20 _ Hle) in Hlt; discriminate |].
  destruct (a =? 0)%float eqn:Hz;
    [rewrite (zero_below_20 _ Hz) in Hlt; discriminate |].
  cbn [negb].
  destruct (b <? a)%float.
  - split; [split; [discriminate | intros (_ & _ & H); discriminate] | discriminate].
  - split; [split; [intros _; repeat split | reflexivity] | intros x [= <-]; reflexivity].
Qed.

(** X10. Two requests in a row: once a first request for [a1] has been
    accepted, the owner holds the binary64 difference [b - a1], and a
    second request for [a2] is accepted exactly when it is truthy and
    neither [a2 < 20] nor [b - a1 < a2] holds; it is judged against the
    rounded balance the first request left. *)
Theorem second_request_meets_the_debited_balance (a1 a2 b : float) :
  role u = "vendor" \/ role u = "affiliate" ->
  balance u = JsNumber b ->
  ToBoolean (JsNumber a1) = true -> (a1 <? 20)%float = false -> (b <? a1)%float = false ->
  exists r1 st1 r2 st2,
    run (post_withdrawals (Some uid) (JsNumber a1)) st = Some (r1, st1) /\
    statusCode r1 = 201 /\
    balance <$> users st1 !! uid = Some (JsNumber (b - a1)%float) /\
    run (post_withdrawals (Some uid) (JsNumber a2)) st1 = Some (r2, st2) /\
    (statusCode r2 = 201 <->
     ToBoolean (JsNumber a2) = true /\ (a2 <? 20)%float = false /\
     (b - a1 <? a2)%float = false) /\
    (statusCode r2 = 201 ->
     balance <$> users st2 !! uid = Some (JsNumber (b - a1 - a2)%float) /\
     withdrawal_amount <$> withdrawals st2 !! currentWithdrawalId st = Some (JsNumber a1) /\
     withdrawal_amount <$> withdrawals st2 !! (currentWithdrawalId st + 1)
       = Some (JsNumber a2)).
Proof.
  intros Hr Hb Ht Hmin Hbal.
  destruct (js_request_outcome (JsNumber a1) a1 b Hr eq_refl Hb)
    as (r1 & st1 & Hrun1 & Hiff1 & Hok1 & _).
  assert (H201 : statusCode r1 = 201) by (apply Hiff1; repeat split; assumption).
  destruct (Hok1 H201) as (_ & Hst1).
  exists r1, st1. rewrite Hrun1. clear Hrun1 Hiff1 Hok1. subst st1.
  set (u1 := with_balance u (JsNumber (b - a1)%float)).
  set (st1 := requested_store st uid u (JsNumber a1) (b - a1)%float).
  assert (Hu1 : users st1 !! uid = Some u1) by apply lookup_insert_eq.
  pose proof (js_post_withdrawals_run st1 uid u1 (JsNumber a2) Hsession Hu1) as Hrun2.
  rewrite (proj2 (js_withdrawal_roles u1) Hr) in Hrun2. cbn [negb] in Hrun2.
  unfold js_lt, js_sub in Hrun2. cbn [ToNumber balance u1 with_balance] in Hrun2.
  destruct (ToBoolean (JsNumber a2)) eqn:Ht2; cbn [negb] in Hrun2.
  - destruct (a2 <? 20)%float eqn:Hmin2.
    + eexists. eexists. split; [reflexivity |]. split; [exact H201 |].
      split; [rewrite Hu1; reflexivity |]. split; [exact Hrun2 |].
      cbn [statusCode].
      split; [split; [discriminate | intros (_ & H & _); discriminate] | discriminate].
    + destruct (b - a1 <? a2)%float eqn:Hbal2.
      * eexists. eexists. split; [reflexivity |]. split; [exact H201 |].
        split; [rewrite Hu1; reflexivity |]. split; [exact Hrun2 |].
        cbn [statusCode].
        split; [split; [discriminate | intros (_ & _ & H); discriminate] | discriminate].
      * eexists. eexists. split; [reflexivity |]. split; [exact H201 |].
        split; [rewrite Hu1; reflexivity |]. split; [exact Hrun2 |].
        cbn [statusCode].
        split; [split; [intros _; repeat split | reflexivity] |].
        intros _.
        cbn [requested_store users withdrawals with_users with_withdrawals
             currentWithdrawalId st1 requested_withdrawal].
        rewrite lookup_insert_eq.
        rewrite lookup_insert_ne by lia. rewrite !lookup_insert_eq.
        repeat split.
  - eexists. eexists. split; [reflexivity |]. split; [exact H201 |].
    split; [rewrite Hu1; reflexivity |]. split; [exact Hrun2 |].
    cbn [statusCode].
    split; [split; [discriminate | intros (H & _); discriminate] | discriminate].
Qed.

End WithdrawalRequest.

Lemma withdrawal_request_outcome_witness :
  exists res st',
    run (post_withdrawals (Some 1) (JsNumber 50)) (shop 100) = Some (res, st') /\
    statusCode res = 201 /\
    users st' = <[1 := mkUser 1 "vendor" (JsNumber (100 - 50)%float) (Some 2)]>
                  (users (shop 100)).
Proof.
  destruct (withdrawal_request_outcome (shop 100) 1
              (mkUser 1 "vendor" (JsNumber 100) (Some 2))) as (_ & H);
    [lia | reflexivity |].
  destruct (H 50%float 100%float) as (res & st' & Hrun & _ & Hiff & Hok & _);
    [left; reflexivity | reflexivity |].
  assert (H201 : statusCode res = 201)
    by (apply Hiff; [| split]; vm_compute; reflexivity).
  exists res, st'. split; [exact Hrun |]. split; [exact H201 |].
  apply (Hok H201).
Defined.

Lemma unparsed_amount_is_accepted_witness :
  exists st' r,
    run (post_withdrawals (Some 1) (JsString "abc")) (shop 100)
      = Some (mkResponse 201
                (JWithdrawal (mkWithdrawal 1 1 (JsString "abc") "pending" None)), st') /\
    balance <$> users st' !! 1 = Some (JsNumber r) /\ isNaN r = true.
Proof.
  destruct (unparsed_amount_is_accepted (shop 100) 1
              (mkUser 1 "vendor" (JsNumber 100) (Some 2)) ltac:(lia) eq_refl
              (JsString "abc") nan 100%float)
    as (st' & r & Hrun & _ & Hb & Hr & _);
    [left; reflexivity | reflexivity | reflexivity | reflexivity | reflexivity |].
  exists st', r. repeat split; assumption.
Defined.

Lemma form_submits_what_the_route_accepts_witness :
  exists res st',
    run (post_withdrawals (Some 1) (JsNumber 50)) (shop 100) = Some (res, st') /\
    (handleRequestWithdrawal 50 (Some 100%float) = Submit 50%float <-> statusCode res = 201) /\
    (forall x, handleRequestWithdrawal 50 (Some 100%float) = Submit x -> x = 50%float).
Proof.
  apply (form_submits_what_the_route_accepts (shop 100) 1
           (mkUser 1 "vendor" (JsNumber 100) (Some 2)));
    [lia | reflexivity | left; reflexivity | reflexivity].
Defined.

Lemma second_request_meets_the_debited_balance_witness :
  exists r1 st1 r2 st2,
    run (post_withdrawals (Some 1) (JsNumber 40.2)) (shop 60.3) = Some (r1, st1) /\
    statusCode r1 = 201 /\
    balance <$> users st1 !! 1 = Some (JsNumber (60.3 - 40.2)%float) /\
    run (post_withdrawals (Some 1) (JsNumber 20.1)) st1 = Some (r2, st2) /\
    (statusCode r2 = 201 <->
     ToBoolean (JsNumber 20.1) = true /\ (20.1 <? 20)%float = false /\
     (60.3 - 40.2 <? 20.1)%float = false) /\
    (statusCode r2 = 201 ->
     balance <$> users st2 !! 1 = Some (JsNumber (60.3 - 40.2 - 20.1)%float) /\
     withdrawal_amount <$> withdrawals st2 !! 1 = Some (JsNumber 40.2) /\
     withdrawal_amount <$> withdrawals st2 !! (1 + 1) = Some (JsNumber 20.1)).
Proof.
  apply (second_request_meets_the_debited_balance (shop 60.3) 1
           (mkUser 1 "vendor" (JsNumber 60.3) (Some 2)));
    [lia | reflexivity | left; reflexivity | reflexivity
    | vm_compute; reflexivity | vm_compute; reflexivity | vm_compute; reflexivity].
Defined.

(** C6 as stated fails.  The admin of the shop holds 100 and asks for 50,
    which is at least 20 and at most the balance: the answer is 403.  The
    vendor, holding 53.77, asks for 20.34 and is left with
    33.43000000000001, which is 20.339999999999996 less.  And the vendor,
    holding 100, asks for the string abc, which is no amount at all: the
    request is accepted, the string is stored as the amount and the balance
    becomes NaN. *)
Lemma request_outside_the_bounds :
  (balance <$> users (shop 0) !! 9 = Some (JsNumber 100) /\
   (20 <=? 50)%float = true /\ (50 <=? 100)%float = true /\
   run (post_withdrawals (Some 9) (JsNumber 50)) (shop 0)
     = Some (mkResponse 403 (JMessage "Forbidden"), shop 0)) /\
  (exists res st',
     run (post_withdrawals (Some 1) (JsNumber 20.34)) (shop 53.77) = Some (res, st') /\
     statusCode res = 201 /\
     balance <$> users st' !! 1 = Some (JsNumber 33.43000000000001) /\
     (53.77 - 33.43000000000001)%float = 20.339999999999996%float /\
     (53.77 - 33.43000000000001 =? 20.34)%float = false) /\
  (exists st',
     run (post_withdrawals (Some 1) (JsString "abc")) (shop 100)
       = Some (mkResponse 201 (JWithdrawal (mkWithdrawal 1 1 (JsString "abc") "pending" None)),
               st') /\
     withdrawals st' !! 1 = Some (mkWithdrawal 1 1 (JsString "abc") "pending" None) /\
     balance <$> users st' !! 1 = Some (JsNumber nan)).
Proof.
  split; [| split].
  - repeat split; vm_compute; reflexivity.
  - eexists. eexists. split; [vm_compute; reflexivity |].
    repeat split; vm_compute; reflexivity.
  - eexists. split; [vm_compute; reflexivity |]. split; reflexivity.
Qed.

Section StatusUpdate.

Variables (st : MemStorage) (admin wid : Z) (adm : User) (w : Withdrawal).
Variable tid : option string.

Hypothesis Hsession : admin <> 0.
Hypothesis Hadmin : users st !! admin = Some adm.
Hypothesis Hrole : role adm = "admin".
Hypothesis Hkeyed : users_keyed st.
Hypothesis Hwithdrawal : withdrawals st !! wid = Some w.

(** C7, amended. Setting a pending withdrawal whose stored amount is the
    number [x] to rejected writes the binary64 sum [balance + x] to its
    owner, who holds a number; [x] is read from the stored withdrawal.
    Nobody else's balance changes.  Setting it to completed changes no
    balance. *)
Theorem rejection_adds_the_stored_amount (u : User) (b x : float) :
  withdrawal_status w = "pending" ->
  users st !! userId w = Some u ->
  balance u = JsNumber b -> withdrawal_amount w = JsNumber x ->
  (exists st',
     run (put_withdrawal_status (Some admin) wid "rejected" tid) st
       = Some (mkResponse 200 (JWithdrawal (updated_withdrawal w "rejected" tid)), st') /\
     users st' = <[userId w := with_balance u (JsNumber (b + x)%float)]> (users st) /\
     withdrawal_status <$> withdrawals st' !! wid = Some "rejected" /\
     withdrawal_amount <$> withdrawals st' !! wid = Some (JsNumber x)) /\
  (exists st',
     run (put_withdrawal_status (Some admin) wid "completed" tid) st
       = Some (mkResponse 200 (JWithdrawal (updated_withdrawal w "completed" tid)), st') /\
     users st' = users st /\
     withdrawal_status <$> withdrawals st' !! wid = Some "completed" /\
     withdrawal_amount <$> withdrawals st' !! wid = Some (JsNumber x)).
Proof.
  intros _ Hu Hb Hx. split.
  - rewrite (js_put_withdrawal_status_run st admin wid adm w "rejected" tid
               Hsession Hadmin Hrole Hkeyed Hwithdrawal) by auto.
    cbn [String.eqb Ascii.eqb Bool.eqb]. rewrite Hu, Hb, Hx. cbn [js_add ToNumber].
    eexists. split; [reflexivity |].
    cbn [users withdrawals with_users status_stored with_withdrawals].
    rewrite lookup_insert_eq. cbn. rewrite Hx. repeat split.
  - rewrite (js_put_withdrawal_status_run st admin wid adm w "completed" tid
               Hsession Hadmin Hrole Hkeyed Hwithdrawal) by auto.
    cbn [String.eqb Ascii.eqb Bool.eqb].
    eexists. split; [reflexivity |].
    cbn [users withdrawals status_stored with_withdrawals].
    rewrite lookup_insert_eq. cbn. rewrite Hx. repeat split.
Qed.

End StatusUpdate.

Lemma rejection_adds_the_stored_amount_witness :
  exists st',
    run (put_withdrawal_status (Some 9) 1 "rejected" None)
      (requested_store (shop 100) 1 (mkUser 1 "vendor" (JsNumber 100) (Some 2))
         (JsNumber 50) 50)
      = Some (mkResponse 200
                (JWithdrawal (mkWithdrawal 1 1 (JsNumber 50) "rejected" None)), st') /\
    users st' !! 1 = Some (mkUser 1 "vendor" (JsNumber (50 + 50)%float) (Some 2)).
Proof.
  pose (st := requested_store (shop 100) 1 (mkUser 1 "vendor" (JsNumber 100) (Some 2))
                (JsNumber 50) 50).
  assert (Hk : users_keyed st) by evaluated.
  destruct (rejection_adds_the_stored_amount st 9 1
              (mkUser 9 "admin" (JsNumber 100) (Some 1))
              (mkWithdrawal 1 1 (JsNumber 50) "pending" None) None
              ltac:(lia) eq_refl eq_refl Hk eq_refl
              (mkUser 1 "vendor" (JsNumber 50) (Some 2)) 50%float 50%float
              eq_refl eq_refl eq_refl eq_refl)
    as ((st' & Hrun & Husers & _) & _).
  exists st'. split; [exact Hrun |]. rewrite Husers. reflexivity.
Defined.

(** C7 as stated fails.  The vendor holds 53.77 and asks for 20.34: the
    balance becomes 33.43000000000001, which is 20.339999999999996 less;
    the rejection of that request leaves 53.77000000000001, not the 53.77
    held before.  And a request for the string 50 out of 100 is accepted
    and stored as a string; its rejection turns the balance of 50 into the
    string 5050. *)
Lemma rejection_does_not_restore_the_balance :
  (exists r1 st1 r2 st2,
     run (post_withdrawals (Some 1) (JsNumber 20.34)) (shop 53.77) = Some (r1, st1) /\
     statusCode r1 = 201 /\
     balance <$> users st1 !! 1 = Some (JsNumber 33.43000000000001) /\
     withdrawals st1 !! 1 = Some (mkWithdrawal 1 1 (JsNumber 20.34) "pending" None) /\
     run (put_withdrawal_status (Some 9) 1 "rejected" None) st1 = Some (r2, st2) /\
     statusCode r2 = 200 /\
     balance <$> users st2 !! 1 = Some (JsNumber 53.77000000000001)) /\
  (53.77 - 33.43000000000001)%float = 20.339999999999996%float /\
  (53.77000000000001 =? 53.77)%float = false /\
  (exists r1 st1 r2 st2,
     run (post_withdrawals (Some 1) (JsString "50")) (shop 100) = Some (r1, st1) /\
     statusCode r1 = 201 /\
     balance <$> users st1 !! 1 = Some (JsNumber 50) /\
     withdrawals st1 !! 1 = Some (mkWithdrawal 1 1 (JsString "50") "pending" None) /\
     run (put_withdrawal_status (Some 9) 1 "rejected" None) st1 = Some (r2, st2) /\
     statusCode r2 = 200 /\
     balance <$> users st2 !! 1 = Some (JsString "5050")).
Proof.
  split; [| split; [vm_compute; reflexivity | split; [vm_compute; reflexivity |]]].
  - eexists. eexists. eexists. eexists.
    split; [vm_compute; reflexivity |]. split; [reflexivity |].
    split; [vm_compute; reflexivity |]. split; [reflexivity |].
    split; [vm_compute; reflexivity |]. split; [reflexivity |].
    vm_compute; reflexivity.
  - eexists. eexists. eexists. eexists.
    split; [vm_compute; reflexivity |]. split; [reflexivity |].
    split; [vm_compute; reflexivity |]. split; [reflexivity |].
    split; [vm_compute; reflexivity |]. split; [reflexivity |].
    vm_compute; reflexivity.
Qed.

(** ** The settlement webhook *)

Section Settled.

Variables (st : MemStorage) (paymentIntent : PaymentIntent).
Variables (product : Product) (seller : User) (plan : Plan).

Hypothesis Hproduct :
  products st !! md_productId (pi_metadata paymentIntent) = Some product.
Hypothesis Hseller :
  users st !! md_sellerId (pi_metadata paymentIntent) = Some seller.
Hypothesis Hplan : plans st !! seller_planId seller = Some plan.
Hypothesis Hnumbers : numeric_balances st.

(** The amounts of the sale the webhook stores. *)
Lemma js_settled_amounts :
  let affiliate := md_affiliateId (pi_metadata paymentIntent) in
  let fee := (platformFeePercentage plan / 100)%float in
  exists st' s,
    run (post_stripe_webhook (payment_intent_succeeded paymentIntent)) st
      = Some (mkResponse 200 JReceived, st') /\
    sales st' = <[currentSaleId st := s]> (sales st) /\
    sale_id s = currentSaleId st /\
    amount s = (pi_amount paymentIntent / 100)%float /\
    (truthy_opt_id affiliate = false ->
       affiliateAmount s = 0%float /\
       or_null (affiliateAmount s) = None /\
       platformFee s = (amount s * fee)%float /\
       sellerAmount s = (amount s - platformFee s)%float) /\
    (truthy_opt_id affiliate = true ->
       platformFee s = ((amount s - affiliateAmount s) * fee)%float /\
       sellerAmount s = (amount s - affiliateAmount s - platformFee s)%float).
Proof.
  intros affiliate fee.
  rewrite (js_post_stripe_webhook_run _ _ _ _ _ Hproduct Hseller Hplan Hnumbers).
  eexists. eexists. split; [reflexivity |].
  cbn [settled_store sales with_sales with_users].
  split; [reflexivity |]. split; [reflexivity |]. split; [reflexivity |].
  cbn [settled_sale amount affiliateAmount platformFee sellerAmount].
  fold affiliate.
  unfold settled_sellerAmount, settled_platformFee, settled_sellerAmountBeforeFee,
    settled_affiliateAmount.
  split; intros ->; repeat split; reflexivity.
Qed.

(** The split of a sale with an affiliate id. *)
Lemma js_affiliate_split :
  truthy_opt_id (md_affiliateId (pi_metadata paymentIntent)) = true ->
  exists st' s,
    run (post_stripe_webhook (payment_intent_succeeded paymentIntent)) st
      = Some (mkResponse 200 JReceived, st') /\
    sales st' !! currentSaleId st = Some s /\
    amount s = (pi_amount paymentIntent / 100)%float /\
    affiliateAmount s =
      (rawCommission product (amount s) - rawCommission product (amount s) * 0.04)%float /\
    (commissionType product = "percentage" ->
     rawCommission product (amount s) = (amount s * (commissionRate product / 100))%float) /\
    (commissionType product <> "percentage" ->
     rawCommission product (amount s) = commissionRate product) /\
    platformFee s =
      ((amount s - affiliateAmount s) * (platformFeePercentage plan / 100))%float /\
    sellerAmount s = (amount s - affiliateAmount s - platformFee s)%float.
Proof.
  intros Haff.
  rewrite (js_post_stripe_webhook_run _ _ _ _ _ Hproduct Hseller Hplan Hnumbers).
  eexists. eexists. split; [reflexivity |].
  cbn [settled_store sales with_sales with_users]. rewrite lookup_insert_eq.
  split; [reflexivity |].
  cbn [settled_sale amount affiliateAmount platformFee sellerAmount].
  unfold settled_sellerAmount, settled_platformFee, settled_sellerAmountBeforeFee,
    settled_affiliateAmount. rewrite Haff.
  split; [reflexivity |]. split; [reflexivity |].
  split; [intros Ht; unfold rawCommission; rewrite Ht; reflexivity |].
  split; [| split; reflexivity].
  intros Ht. unfold rawCommission.
  destruct (String.eqb_spec (commissionType product) "percentage"); [contradiction |].
  reflexivity.
Qed.

Lemma clamp_fixes (v lo hi : float) :
  (v =? clamp v lo hi)%float = true <->
  isNaN v = false /\ (v <? lo)%float = false /\ (hi <? v)%float = false.
Proof.
  unfold clamp.
  destruct (v <? lo)%float eqn:Hlo.
  - rewrite (ltb_not_eqb _ _ Hlo). split; [discriminate | intros (_ & H & _); discriminate].
  - destruct (hi <? v)%float eqn:Hhi.
    + rewrite eqb_sym, (ltb_not_eqb _ _ Hhi).
      split; [discriminate | intros (_ & _ & H); discriminate].
    + unfold isNaN. destruct (v =? v)%float; cbn [negb]; split; try tauto; try discriminate.
      intros (H & _); discriminate.
Qed.

(** C3, amended. With an affiliate id the webhook stores the raw commission
    minus its 4% as the affiliate amount, whatever the amount of the sale,
    and credits that value to an affiliate who exists and is not the
    seller.  The stored value is the clamped one exactly when it is a
    number that is neither below 0 nor above the amount. *)
Theorem affiliate_amount_is_stored_unclamped :
  truthy_opt_id (md_affiliateId (pi_metadata paymentIntent)) = true ->
  let aid := default 0 (md_affiliateId (pi_metadata paymentIntent)) in
  exists st' s,
    run (post_stripe_webhook (payment_intent_succeeded paymentIntent)) st
      = Some (mkResponse 200 JReceived, st') /\
    sales st' !! currentSaleId st = Some s /\
    affiliateAmount s =
      (rawCommission product (amount s) - rawCommission product (amount s) * 0.04)%float /\
    ((affiliateAmount s =? clamp (affiliateAmount s) 0 (amount s))%float = true <->
     isNaN (affiliateAmount s) = false /\
     (affiliateAmount s <? 0)%float = false /\
     (amount s <? affiliateAmount s)%float = false) /\
    (forall a, users st !! aid = Some a ->
       aid <> md_sellerId (pi_metadata paymentIntent) ->
       users st' !! aid = Some (credit a (affiliateAmount s))).
Proof.
  intros Haff aid.
  rewrite (js_post_stripe_webhook_run _ _ _ _ _ Hproduct Hseller Hplan Hnumbers).
  eexists. eexists. split; [reflexivity |].
  cbn [settled_store sales users with_sales with_users]. rewrite lookup_insert_eq.
  split; [reflexivity |].
  cbn [settled_sale amount affiliateAmount].
  split; [unfold settled_affiliateAmount; rewrite Haff; reflexivity |].
  split; [apply clamp_fixes |].
  intros a Ha Hne. rewrite lookup_insert_ne by congruence.
  unfold users_after_affiliate. rewrite Haff. fold aid. rewrite Ha.
  apply lookup_insert_eq.
Qed.

(** X4. What the webhook credits is what the sale records: with an
    affiliate who exists and is not the seller, both holding numbers, the
    seller's balance grows by the stored seller amount and the affiliate's
    by the stored affiliate amount, each by one binary64 addition, and no
    other user changes. *)
Theorem settlement_credits_what_the_sale_records (a : User) (bs ba : float) :
  let aid := default 0 (md_affiliateId (pi_metadata paymentIntent)) in
  let sid := md_sellerId (pi_metadata paymentIntent) in
  truthy_opt_id (md_affiliateId (pi_metadata paymentIntent)) = true ->
  users st !! aid = Some a -> aid <> sid ->
  balance seller = JsNumber bs -> balance a = JsNumber ba ->
  exists st' s,
    run (post_stripe_webhook (payment_intent_succeeded paymentIntent)) st
      = Some (mkResponse 200 JReceived, st') /\
    sales st' !! currentSaleId st = Some s /\
    balance <$> users st' !! sid = Some (JsNumber (bs + sellerAmount s)%float) /\
    balance <$> users st' !! aid = Some (JsNumber (ba + affiliateAmount s)%float) /\
    (forall k, k <> sid -> k <> aid -> users st' !! k = users st !! k).
Proof.
  intros aid sid Haff Ha Hne Hbs Hba.
  rewrite (js_post_stripe_webhook_run _ _ _ _ _ Hproduct Hseller Hplan Hnumbers).
  eexists. eexists. split; [reflexivity |].
  cbn [settled_store sales users with_sales with_users]. rewrite lookup_insert_eq.
  split; [reflexivity |].
  cbn [settled_sale sellerAmount affiliateAmount]. fold sid.
  unfold users_after_affiliate. rewrite Haff. fold aid. rewrite Ha.
  rewrite lookup_insert_eq, (lookup_insert_ne _ sid aid) by congruence.
  rewrite lookup_insert_eq.
  rewrite (credit_number _ _ _ Hbs), (credit_number _ _ _ Hba).
  split; [reflexivity |]. split; [reflexivity |].
  intros k Hks Hka. rewrite !lookup_insert_ne by congruence. reflexivity.
Qed.

End Settled.

(** C1, amended. The sale the webhook stores holds binary64 numbers: the
    amount is the cents of the event divided by 100; without an affiliate
    id the affiliate amount is 0 (which [MongoDBStorage.createSale] stores
    as null), the fee is the amount times the plan's percentage over 100
    and the seller amount is the amount minus the fee; with an affiliate id
    the fee is taken on the amount minus the affiliate amount and the
    seller amount is that difference minus the fee.  Every operation is
    rounded, and the three stored amounts can add up to another number
    than the amount: 14.90 paid on the 5% plan is stored as
    14.155000000000001, 0 and 0.7450000000000001. *)
Theorem settled_amounts_are_rounded :
  (forall (st : MemStorage) (paymentIntent : PaymentIntent) (product : Product)
          (seller : User) (plan : Plan),
     products st !! md_productId (pi_metadata paymentIntent) = Some product ->
     users st !! md_sellerId (pi_metadata paymentIntent) = Some seller ->
     plans st !! seller_planId seller = Some plan ->
     numeric_balances st ->
     let affiliate := md_affiliateId (pi_metadata paymentIntent) in
     let fee := (platformFeePercentage plan / 100)%float in
     exists st' s,
       run (post_stripe_webhook (payment_intent_succeeded paymentIntent)) st
         = Some (mkResponse 200 JReceived, st') /\
       sales st' = <[currentSaleId st := s]> (sales st) /\
       sale_id s = currentSaleId st /\
       amount s = (pi_amount paymentIntent / 100)%float /\
       (truthy_opt_id affiliate = false ->
          affiliateAmount s = 0%float /\
          or_null (affiliateAmount s) = None /\
          platformFee s = (amount s * fee)%float /\
          sellerAmount s = (amount s - platformFee s)%float) /\
       (truthy_opt_id affiliate = true ->
          platformFee s = ((amount s - affiliateAmount s) * fee)%float /\
          sellerAmount s = (amount s - affiliateAmount s - platformFee s)%float)) /\
  (exists st' s,
     run (post_stripe_webhook (purchase "pi_1" 3 1490 None)) (shop 0)
       = Some (mkResponse 200 JReceived, st') /\
     sales st' !! 1 = Some s /\
     amount s = 14.9%float /\
     sellerAmount s = 14.155000000000001%float /\
     affiliateAmount s = 0%float /\
     platformFee s = 0.7450000000000001%float /\
     (sellerAmount s + affiliateAmount s + platformFee s =? amount s)%float = false).
Proof.
  split.
  - intros st paymentIntent product seller plan Hp Hs Hpl Hnum.
    apply (js_settled_amounts st paymentIntent product seller plan Hp Hs Hpl Hnum).
  - eexists. eexists. split; [vm_compute; reflexivity |].
    split; [reflexivity |]. repeat split; vm_compute; reflexivity.
Qed.

Lemma settled_amounts_are_rounded_witness :
  exists st' s,
    run (post_stripe_webhook (purchase "pi_1" 3 1490 None)) (shop 0)
      = Some (mkResponse 200 JReceived, st') /\
    sales st' = <[1 := s]> ∅ /\
    affiliateAmount s = 0%float /\
    sellerAmount s = (1490 / 100 - 1490 / 100 * (5 / 100))%float.
Proof.
  destruct (proj1 settled_amounts_are_rounded (shop 0)
              (mkPaymentIntent "pi_1" 1490 (mkMetadata 3 3 1 None None))
              (mkProduct 3 1 14.9 10 "percentage")
              (mkUser 1 "vendor" (JsNumber 0) (Some 2)) (mkPlan 2 "Start" 5))
    as (st' & s & Hrun & Hsales & _ & Ham & Hnone & _);
    [reflexivity | reflexivity | reflexivity | evaluated |].
  destruct (Hnone eq_refl) as (Hz & _ & Hfee & Hsel).
  exists st', s. split; [exact Hrun |]. split; [exact Hsales |].
  split; [exact Hz |]. rewrite Hsel, Hfee, Ham. reflexivity.
Defined.

(** C1 as stated fails: 14.90 paid to a seller on the 5% plan, without an
    affiliate, is stored as seller amount 14.155000000000001, affiliate
    amount 0 and fee 0.7450000000000001, which add up to
    14.900000000000002 and not to the amount. *)
Lemma stored_amounts_miss_the_amount :
  exists st' s,
    run (post_stripe_webhook (purchase "pi_1" 3 1490 None)) (shop 0)
      = Some (mkResponse 200 JReceived, st') /\
    sales st' !! 1 = Some s /\
    amount s = 14.9%float /\
    sellerAmount s = 14.155000000000001%float /\
    affiliateAmount s = 0%float /\
    platformFee s = 0.7450000000000001%float /\
    (sellerAmount s + affiliateAmount s + platformFee s)%float = 14.900000000000002%float /\
    (sellerAmount s + affiliateAmount s + platformFee s =? amount s)%float = false.
Proof.
  eexists. eexists. split; [vm_compute; reflexivity |].
  split; [reflexivity |]. repeat split; vm_compute; reflexivity.
Qed.

(** C2, amended. With an affiliate id the stored affiliate amount is the
    raw commission minus the raw commission times 0.04, the raw commission
    being the amount times (rate / 100) for a product with a percentage
    commission and the rate itself otherwise; the fee is computed on the
    amount minus the affiliate amount, and the seller amount is what then
    remains; all in binary64.  The example of the specification (100 paid,
    10% commission, 5% plan) is stored as 9.6, 4.5200000000000005 and
    85.88000000000001. *)
Theorem affiliate_commission_is_rounded :
  (forall (st : MemStorage) (paymentIntent : PaymentIntent) (product : Product)
          (seller : User) (plan : Plan),
     products st !! md_productId (pi_metadata paymentIntent) = Some product ->
     users st !! md_sellerId (pi_metadata paymentIntent) = Some seller ->
     plans st !! seller_planId seller = Some plan ->
     numeric_balances st ->
     truthy_opt_id (md_affiliateId (pi_metadata paymentIntent)) = true ->
     exists st' s,
       run (post_stripe_webhook (payment_intent_succeeded paymentIntent)) st
         = Some (mkResponse 200 JReceived, st') /\
       sales st' !! currentSaleId st = Some s /\
       amount s = (pi_amount paymentIntent / 100)%float /\
       affiliateAmount s =
         (rawCommission product (amount s)
          - rawCommission product (amount s) * 0.04)%float /\
       (commissionType product = "percentage" ->
        rawCommission product (amount s)
        = (amount s * (commissionRate product / 100))%float) /\
       (commissionType product <> "percentage" ->
        rawCommission product (amount s) = commissionRate product) /\
       platformFee s =
         ((amount s - affiliateAmount s) * (platformFeePercentage plan / 100))%float /\
       sellerAmount s = (amount s - affiliateAmount s - platformFee s)%float) /\
  (exists st' s,
     run (post_stripe_webhook (purchase "pi_2" 1 10000 (Some 2))) (shop 0)
       = Some (mkResponse 200 JReceived, st') /\
     sales st' !! 1 = Some s /\
     amount s = 100%float /\
     affiliateAmount s = 9.6%float /\
     platformFee s = 4.5200000000000005%float /\
     sellerAmount s = 85.88000000000001%float).
Proof.
  split.
  - intros st paymentIntent product seller plan Hp Hs Hpl Hnum.
    apply (js_affiliate_split st paymentIntent product seller plan Hp Hs Hpl Hnum).
  - eexists. eexists. split; [vm_compute; reflexivity |].
    split; [reflexivity |]. repeat split; vm_compute; reflexivity.
Qed.

Lemma affiliate_commission_is_rounded_witness :
  exists st' s,
    run (post_stripe_webhook (purchase "pi_2" 1 10000 (Some 2))) (shop 0)
      = Some (mkResponse 200 JReceived, st') /\
    sales st' !! 1 = Some s /\
    affiliateAmount s =
      (10000 / 100 * (10 / 100) - 10000 / 100 * (10 / 100) * 0.04)%float.
Proof.
  destruct (proj1 affiliate_commission_is_rounded (shop 0)
              (mkPaymentIntent "pi_2" 10000 (mkMetadata 1 3 1 (Some 2) None))
              (mkProduct 1 1 100 10 "percentage")
              (mkUser 1 "vendor" (JsNumber 0) (Some 2)) (mkPlan 2 "Start" 5))
    as (st' & s & Hrun & Hs & Ham & Haff & Hpct & _);
    [reflexivity | reflexivity | reflexivity | evaluated | reflexivity |].
  exists st', s. split; [exact Hrun |]. split; [exact Hs |].
  rewrite Haff, (Hpct eq_refl), Ham. reflexivity.
Defined.

(** C2 as stated fails.  In the example of the specification (100 paid, 10%
    commission, 5% plan) the affiliate amount is stored as 9.6 but the fee
    as 4.5200000000000005 and the seller amount as 85.88000000000001; and
    for 19.90 paid the stored affiliate amount, 1.9104, is not the raw
    commission times 0.96, 1.9103999999999999. *)
Lemma example_amounts_are_not_exact :
  (exists st' s,
     run (post_stripe_webhook (purchase "pi_2" 1 10000 (Some 2))) (shop 0)
       = Some (mkResponse 200 JReceived, st') /\
     sales st' !! 1 = Some s /\
     amount s = 100%float /\
     affiliateAmount s = 9.6%float /\
     platformFee s = 4.5200000000000005%float /\
     sellerAmount s = 85.88000000000001%float /\
     (platformFee s =? 4.52)%float = false /\
     (sellerAmount s =? 85.88)%float = false) /\
  (exists st' s,
     run (post_stripe_webhook (purchase "pi_5" 4 1990 (Some 2))) (shop 0)
       = Some (mkResponse 200 JReceived, st') /\
     sales st' !! 1 = Some s /\
     rawCommission (mkProduct 4 1 19.9 10 "percentage") (amount s) = 1.99%float /\
     affiliateAmount s = 1.9104%float /\
     (rawCommission (mkProduct 4 1 19.9 10 "percentage") (amount s) * 0.96)%float
       = 1.9103999999999999%float /\
     (affiliateAmount s
      =? rawCommission (mkProduct 4 1 19.9 10 "percentage") (amount s) * 0.96)%float
       = false).
Proof.
  split; eexists; eexists; (split; [vm_compute; reflexivity |]);
    (split; [reflexivity |]); repeat split; vm_compute; reflexivity.
Qed.

Lemma affiliate_amount_is_stored_unclamped_witness :
  exists st' s,
    run (post_stripe_webhook (purchase "pi_1" 1 10000 (Some 2))) (shop 0)
      = Some (mkResponse 200 JReceived, st') /\
    sales st' !! 1 = Some s /\
    users st' !! 2 =
      Some (credit (mkUser 2 "affiliate" (JsNumber 0) (Some 1)) (affiliateAmount s)).
Proof.
  destruct (affiliate_amount_is_stored_unclamped (shop 0)
              (mkPaymentIntent "pi_1" 10000 (mkMetadata 1 3 1 (Some 2) None))
              (mkProduct 1 1 100 10 "percentage")
              (mkUser 1 "vendor" (JsNumber 0) (Some 2)) (mkPlan 2 "Start" 5))
    as (st' & s & Hrun & Hs & _ & _ & Hcredit);
    [reflexivity | reflexivity | reflexivity | evaluated | reflexivity |].
  exists st', s. split; [exact Hrun |]. split; [exact Hs |].
  apply Hcredit; [reflexivity | discriminate].
Defined.

Lemma settlement_credits_what_the_sale_records_witness :
  exists st' s,
    run (post_stripe_webhook (purchase "pi_1" 1 10000 (Some 2))) (shop 7)
      = Some (mkResponse 200 JReceived, st') /\
    sales st' !! 1 = Some s /\
    balance <$> users st' !! 1 = Some (JsNumber (7 + sellerAmount s)%float) /\
    balance <$> users st' !! 2 = Some (JsNumber (0 + affiliateAmount s)%float).
Proof.
  assert (Hnumbers : numeric_balances (shop 7)) by evaluated.
  destruct (settlement_credits_what_the_sale_records (shop 7)
              (mkPaymentIntent "pi_1" 10000 (mkMetadata 1 3 1 (Some 2) None))
              (mkProduct 1 1 100 10 "percentage")
              (mkUser 1 "vendor" (JsNumber 7) (Some 2)) (mkPlan 2 "Start" 5)
              eq_refl eq_refl eq_refl Hnumbers
              (mkUser 2 "affiliate" (JsNumber 0) (Some 1)) 7%float 0%float)
    as (st' & s & Hrun & Hs & Hseller & Haffiliate & _);
    [reflexivity | reflexivity | discriminate | reflexivity | reflexivity |].
  exists st', s. repeat split; assumption.
Defined.

(** C3 as stated fails: product 2 pays a flat commission of 50 and is sold
    for 10; the sale stores an affiliate amount of 48 and the affiliate is
    credited 48, where the clamp to the amount gives 10. *)
Lemma flat_commission_exceeds_the_amount :
  exists st' s,
    run (post_stripe_webhook (purchase "pi_3" 2 1000 (Some 2))) (shop 0)
      = Some (mkResponse 200 JReceived, st') /\
    sales st' !! 1 = Some s /\
    amount s = 10%float /\
    rawCommission (mkProduct 2 1 10 50 "fixed") (amount s) = 50%float /\
    affiliateAmount s = 48%float /\
    clamp (rawCommission (mkProduct 2 1 10 50 "fixed") (amount s) * 0.96) 0 (amount s)
      = 10%float /\
    (affiliateAmount s
     =? clamp (rawCommission (mkProduct 2 1 10 50 "fixed") (amount s) * 0.96)
          0 (amount s))%float = false /\
    balance <$> users st' !! 2 = Some (JsNumber 48) /\
    (sellerAmount s <? 0)%float = true.
Proof.
  eexists. eexists. split; [vm_compute; reflexivity |].
  split; [reflexivity |]. repeat split; vm_compute; reflexivity.
Qed.

End Binary64Routes.
